(** * Heat Pump Explanation Engine: a shallow embedding of
      [heat_pump_explainer.py] and the properties of its rule-and-report
      pipeline.

    The embedding follows the Python source function by function:
    [detect_pattern], [calculate_benefits], [get_actionable_guidance],
    [build_transparency_data], [_interpret_cop], [_explain_conclusion_logic],
    [_fallback_explanation], [generate_plain_language_explanation] and
    [analyze_scenario].
    Of the other two files it embeds what feeds the explainer:
    [generate_scenarios_from_profile] and the catalogue loop of
    [property_profiles.py], and the loop of [app.py] that groups the
    catalogue by property.

    - Python [float] is IEEE-754 binary64: Rocq's primitive [float].
    - Python [str] is a sequence of Unicode code points: [list N].
    - The dictionaries read by the explainer have a fixed set of literal keys;
      each is a record with one optional field per key ([None] = key absent).
    - Exceptions are values of [exn]; a function that may raise returns
      [result].
    - The external text-generation client is an event of a small interaction
      type [prog]; a run against a client counts the calls made.  The event
      carries the prompt; the model name and the token budget of the call are
      constants of the source and are left out, as are the warnings the
      source prints. *)

From Stdlib Require Import ZArith NArith List Bool Lia String Ascii Floats.
Import ListNotations.

Set Warnings "-inexact-float".

Local Open Scope Z_scope.

(* ================================================================== *)
(** * Python strings *)
(* ================================================================== *)

Module PyStr.

(** A code point. *)
Definition char := N.

(** A Python [str]. *)
Definition str := list char.

(** An ASCII literal of the source as a [str]. *)
Fixpoint lit (s : string) : str :=
  match s with
  | EmptyString => []
  | String a r => N_of_ascii a :: lit r
  end.

(** The two characters of the source's literals outside ASCII: the degree
    sign and the pound sign. *)
Definition deg : str := [176%N].
Definition pound : str := [163%N].

Definition char_eqb (a b : char) : bool := N.eqb a b.

Fixpoint str_eqb (a b : str) : bool :=
  match a, b with
  | [], [] => true
  | x :: a', y :: b' => char_eqb x y && str_eqb a' b'
  | _, _ => false
  end.

(** [str.isspace] on one code point (CPython's [_PyUnicode_IsWhitespace]). *)
Definition isspace (c : char) : bool :=
  ((9 <=? c) && (c <=? 13) || (28 <=? c) && (c <=? 32)
   || (c =? 133) || (c =? 160) || (c =? 5760)
   || (8192 <=? c) && (c <=? 8202)
   || (c =? 8232) || (c =? 8233) || (c =? 8239) || (c =? 8287)
   || (c =? 12288))%N.

Fixpoint lstrip_by (sp : char -> bool) (s : str) : str :=
  match s with
  | [] => []
  | c :: r => if sp c then lstrip_by sp r else s
  end.

Definition strip_by (sp : char -> bool) (s : str) : str :=
  rev (lstrip_by sp (rev (lstrip_by sp s))).

(** [s.strip()]. *)
Definition strip (s : str) : str := strip_by isspace s.

(** [s.split()]: the maximal runs of non-whitespace, in order.  [cur] is the
    word being read. *)
Fixpoint split_go (s : str) (cur : str) : list str :=
  match s with
  | [] => match cur with [] => [] | _ => [cur] end
  | c :: r =>
    if isspace c then
      match cur with
      | [] => split_go r []
      | _ => cur :: split_go r []
      end
    else split_go r (cur ++ [c])
  end.

Definition split (s : str) : list str := split_go s [].

(** [sep.join(ws)]. *)
Fixpoint join (sep : str) (ws : list str) : str :=
  match ws with
  | [] => []
  | [w] => w
  | w :: ws' => w ++ sep ++ join sep ws'
  end.

(** [s.replace(a, b)] for one-character [a] and [b]. *)
Definition replace (a b : char) (s : str) : str :=
  List.map (fun c => if char_eqb c a then b else c) s.

Definition is_lower (c : char) : bool := ((97 <=? c) && (c <=? 122))%N.
Definition is_upper (c : char) : bool := ((65 <=? c) && (c <=? 90))%N.
Definition to_upper (c : char) : char := if is_lower c then (c - 32)%N else c.
Definition to_lower (c : char) : char := if is_upper c then (c + 32)%N else c.

(** [s.title()] on ASCII letters: the first letter of every run of letters is
    upper-cased and the others lower-cased.  (Every string the explainer
    title-cases is an ASCII literal of [detect_pattern].) *)
Fixpoint title_go (prev_cased : bool) (s : str) : str :=
  match s with
  | [] => []
  | c :: r =>
    if is_lower c || is_upper c then
      (if prev_cased then to_lower c else to_upper c) :: title_go true r
    else c :: title_go false r
  end.

Definition title (s : str) : str := title_go false s.

(** [s[a:b]] for [0 <= a <= b]. *)
Definition slice (a b : nat) (s : str) : str := firstn (b - a) (skipn a s).

(** Decimal digits of a natural number, most significant first. *)
Fixpoint digits_go (fuel : nat) (n : Z) (acc : str) : str :=
  match fuel with
  | O => acc
  | S f =>
    let acc' := Z.to_N (48 + n mod 10) :: acc in
    if n <? 10 then acc' else digits_go f (n / 10) acc'
  end.

Definition digits (n : Z) : str := digits_go (S (Z.to_nat (Z.log2 n))) n [].

End PyStr.

(* ================================================================== *)
(** * Python floats: rounding and conversion to text *)
(* ================================================================== *)

Module PyFloat.
Import PyStr.

(** [p / q] rounded to the nearest integer, ties to even ([0 <= p], [0 < q]). *)
Definition div_half_even (p q : Z) : Z :=
  let d := p / q in
  let r := p mod q in
  if 2 * r <? q then d
  else if q <? 2 * r then d + 1
  else if Z.even d then d else d + 1.

(** The exact value [m * 2^e * 10^nd], rounded half-even to an integer. *)
Definition scaled (m e : Z) (nd : nat) : Z :=
  if 0 <=? e then m * 2 ^ e * 10 ^ Z.of_nat nd
  else div_half_even (m * 10 ^ Z.of_nat nd) (2 ^ (- e)).

Definition sign_str (s : bool) : str := if s then [45%N] else [].

Definition zeros (n : nat) : str := repeat 48%N n.

Definition pad_zeros (w : nat) (s : str) : str := zeros (w - List.length s) ++ s.

(** The integer [n], read as a count of [10^-nd], in fixed notation. *)
Definition fixed (nd : nat) (n : Z) : str :=
  let p := 10 ^ Z.of_nat nd in
  digits (n / p) ++
  match nd with
  | O => []
  | _ => 46%N :: pad_zeros nd (digits (n mod p))
  end.

(** [format(x, '.{nd}f')]: the exact binary value, correctly rounded
    (half-even) to [nd] digits after the point. *)
Definition format_f (nd : nat) (x : float) : str :=
  match Prim2SF x with
  | S754_nan => lit "nan"
  | S754_infinity s => sign_str s ++ lit "inf"
  | S754_zero s => sign_str s ++ fixed nd 0
  | S754_finite s m e => sign_str s ++ fixed nd (scaled (Zpos m) e nd)
  end.

(** The binary64 value nearest to [p / q], ties to even ([0 <= p], [0 < q]),
    with sign [s]. *)
Definition nearest_SF (s : bool) (p q : Z) : spec_float :=
  if p =? 0 then S754_zero s
  else
    let sc (e : Z) : Z * Z :=
      if 0 <=? e then (p, q * 2 ^ e) else (p * 2 ^ (- e), q) in
    let e1 := Z.log2 p - Z.log2 q - 52 in
    let e2 := if (fst (sc e1) / snd (sc e1)) <? 2 ^ 52 then e1 - 1 else e1 in
    let e := Z.max e2 (-1074) in
    match div_half_even (fst (sc e)) (snd (sc e)) with
    | Zpos m => S754_finite s m e
    | _ => S754_zero s
    end.

(** [round(x, nd)] for a float [x] and [nd] in the range the explainer uses:
    the decimal string of [x] correctly rounded to [nd] places, converted
    back to the nearest float; infinities and NaN round to themselves. *)
Definition py_round (x : float) (nd : nat) : float :=
  match Prim2SF x with
  | S754_finite s m e =>
    SF2Prim (nearest_SF s (scaled (Zpos m) e nd) (10 ^ Z.of_nat nd))
  | _ => x
  end.

(** [k] with [10^k <= n / d < 10^(k+1)]. *)
Fixpoint ilog10_up (fuel : nat) (n d k : Z) : Z :=
  match fuel with
  | O => k
  | S f => if n <? 10 * d then k else ilog10_up f n (10 * d) (k + 1)
  end.

Fixpoint ilog10_down (fuel : nat) (n d k : Z) : Z :=
  match fuel with
  | O => k
  | S f => if d <=? n then k else ilog10_down f (10 * n) d (k - 1)
  end.

Definition ilog10 (n d : Z) : Z :=
  if d <=? n then ilog10_up 400 n d 0 else ilog10_down 400 n d 0.

(** The shortest decimal [c * 10^k] that rounds back to the float whose value
    is [x / den] and whose rounding interval is [[lo / den, hi / den]]
    (closed when the mantissa is even); among the candidates with [n]
    significant digits, the one nearest to the value, and of two equally
    near candidates the one whose last digit is even. *)
Fixpoint shortest_go (fuel : nat) (n : Z) (even : bool)
    (x lo hi den dexp : Z) : Z * Z :=
  let k := dexp - n + 1 in
  let cd := if 0 <=? k then 1 else 10 ^ (- k) in
  let pw := if 0 <=? k then 10 ^ k else 1 in
  let dl := (x * cd) / (den * pw) in
  let dh := dl + 1 in
  let ok (c : Z) : bool :=
    if even then (lo * cd <=? c * pw * den) && (c * pw * den <=? hi * cd)
    else (lo * cd <? c * pw * den) && (c * pw * den <? hi * cd) in
  let dist (c : Z) : Z := Z.abs (x * cd - c * pw * den) in
  match fuel with
  | O => (div_half_even (x * cd) (den * pw), k)
  | S f =>
    if ok dl then
      if ok dh then
        if dist dh <? dist dl then (dh, k)
        else if dist dl <? dist dh then (dl, k)
        else if Z.even dl then (dl, k) else (dh, k)
      else (dl, k)
    else if ok dh then (dh, k)
    else shortest_go f (n + 1) even x lo hi den dexp
  end.

Fixpoint strip_zeros (fuel : nat) (c k : Z) : Z * Z :=
  match fuel with
  | O => (c, k)
  | S f => if (c mod 10 =? 0) && (0 <? c) then strip_zeros f (c / 10) (k + 1)
           else (c, k)
  end.

Definition shortest (m e : Z) : Z * Z :=
  let dl := if (m =? 2 ^ 52) && (-1074 <? e) then 1 else 2 in
  let sh := if 0 <=? e - 2 then 2 ^ (e - 2) else 1 in
  let den := if 0 <=? e - 2 then 1 else 2 ^ (2 - e) in
  let x := 4 * m * sh in
  let '(c, k) :=
    shortest_go 17 1 (Z.even m) x ((4 * m - dl) * sh) ((4 * m + 2) * sh)
                den (ilog10 x den) in
  strip_zeros 20 c k.

(** Layout of [repr]: fixed notation when the decimal point falls in
    [(-4, 16]], exponent notation otherwise. *)
Definition repr_layout (ds : str) (decpt : Z) : str :=
  let nd := Z.of_nat (List.length ds) in
  if (-4 <? decpt) && (decpt <=? 16) then
    if decpt <=? 0 then lit "0." ++ zeros (Z.to_nat (- decpt)) ++ ds
    else if nd <=? decpt then ds ++ zeros (Z.to_nat (decpt - nd)) ++ lit ".0"
    else firstn (Z.to_nat decpt) ds ++ 46%N :: skipn (Z.to_nat decpt) ds
  else
    firstn 1 ds ++
    (match skipn 1 ds with [] => [] | fr => 46%N :: fr end) ++
    101%N :: (if decpt - 1 <? 0 then 45%N else 43%N)
          :: pad_zeros 2 (digits (Z.abs (decpt - 1))).

(** [repr(x)], which is also [str(x)] and what an f-string field [{x}]
    without a format produces. *)
Definition repr_float (x : float) : str :=
  match Prim2SF x with
  | S754_nan => lit "nan"
  | S754_infinity s => sign_str s ++ lit "inf"
  | S754_zero s => sign_str s ++ lit "0.0"
  | S754_finite s m e =>
    let '(c, k) := shortest (Zpos m) e in
    let ds := digits c in
    sign_str s ++ repr_layout ds (Z.of_nat (List.length ds) + k)
  end.

(** Truth value of a float: [x != 0.0]. *)
Definition truthy (x : float) : bool := negb (PrimFloat.eqb x 0%float).

End PyFloat.

(* ================================================================== *)
(** * Exceptions, dictionaries, the external client *)
(* ================================================================== *)

Import PyStr PyFloat.

(** The exceptions the explainer can raise: [KeyError] from [d[key]] on an
    absent key, [ValueError] from [int(...)]. *)
Inductive exn : Type :=
| KeyError (key : string)
| ValueError.

Inductive result (A : Type) : Type :=
| Ok (a : A)
| Err (e : exn).
Arguments Ok {A} a.
Arguments Err {A} e.

Definition bind {A B : Type} (r : result A) (f : A -> result B) : result B :=
  match r with
  | Ok a => f a
  | Err e => Err e
  end.

Notation "x <- r ;; k" := (bind r (fun x => k))
  (at level 61, r at next level, right associativity).

(** [d[key]]. *)
Definition require {A : Type} (key : string) (o : option A) : result A :=
  match o with
  | Some a => Ok a
  | None => Err (KeyError key)
  end.

(** [d.get(key, default)]. *)
Definition get {A : Type} (o : option A) (default : A) : A :=
  match o with
  | Some a => a
  | None => default
  end.

(** A dict literal with [str] keys, and [d.get(key, default)] on it. *)
Fixpoint dict_get {V : Type} (d : list (str * V)) (key : str) (default : V) : V :=
  match d with
  | [] => default
  | (k, v) :: d' => if str_eqb k key then v else dict_get d' key default
  end.

(** The code point of the digit zero of each run of ten decimal digits
    (general category Nd; the table of Unicode 14.0, which CPython 3.11
    carries).  [int] reads the digits of every script. *)
Definition digit_zeros : list N := [
  48; 1632; 1776; 1984; 2406; 2534; 2662; 2790; 2918; 3046; 3174; 3302; 3430;
  3558; 3664; 3792; 3872; 4160; 4240; 6112; 6160; 6470; 6608; 6784; 6800;
  6992; 7088; 7232; 7248; 42528; 43216; 43264; 43472; 43504; 43600; 44016;
  65296; 66720; 68912; 69734; 69872; 69942; 70096; 70384; 70736; 70864;
  71248; 71360; 71472; 71904; 72016; 72784; 73040; 73120; 92768; 92864;
  93008; 120782; 120792; 120802; 120812; 120822; 123200; 123632; 125264;
  130032
]%N.

(** The value of a decimal digit; [None] for any other character. *)
Definition digit_value (c : char) : option Z :=
  option_map (fun z => Z.of_N (c - z))
    (find (fun z => (z <=? c) && (c <=? z + 9))%N digit_zeros).

Definition is_digit (c : char) : bool :=
  match digit_value c with
  | Some _ => true
  | None => false
  end.

(** Digits with single underscores between them, as [int] accepts. *)
Fixpoint parse_digits (s : str) (acc : Z) (prev_digit : bool) : option Z :=
  match s with
  | [] => if prev_digit then Some acc else None
  | c :: r =>
    match digit_value c with
    | Some v => parse_digits r (10 * acc + v) true
    | None =>
      if (c =? 95)%N && prev_digit then parse_digits r acc false else None
    end
  end.

(** The whitespace [int] skips around a number: that of [str.isspace] without
    the four separators U+001C to U+001F. *)
Definition int_space (c : char) : bool :=
  isspace c && negb ((28 <=? c) && (c <=? 31))%N.

(** [int(s)] for a [str]: surrounding whitespace, an optional sign, decimal
    digits of any script. *)
Definition py_int (s : str) : result Z :=
  let t := strip_by int_space s in
  let parsed :=
    match t with
    | 45%N :: r => option_map Z.opp (parse_digits r 0 false)
    | 43%N :: r => parse_digits r 0 false
    | _ => parse_digits t 0 false
    end in
  match parsed with
  | Some n => Ok n
  | None => Err ValueError
  end.

(** What one call of the text-generation client ends in, seen from inside the
    [try] block: a reply whose text could be read, or any exception (client
    unreachable, error response, reply without a text). *)
Inductive response : Type :=
| Reply (text : str)
| Failure.

(** A computation that may call the client. *)
Inductive prog (A : Type) : Type :=
| Ret (a : A)
| Call (prompt : str) (k : response -> prog A).
Arguments Ret {A} a.
Arguments Call {A} prompt k.

Fixpoint pbind {A B : Type} (m : prog (result A)) (f : A -> prog (result B))
  : prog (result B) :=
  match m with
  | Ret (Ok a) => f a
  | Ret (Err e) => Ret (Err e)
  | Call p k => Call p (fun r => pbind (k r) f)
  end.

Notation "x <~ m ;; k" := (pbind m (fun x => k))
  (at level 61, m at next level, right associativity).

(** A client answers its [i]-th call (counted from 0) on a prompt. *)
Definition client := nat -> str -> response.

(** Running a computation against a client, from call number [i]: the value
    and the number of the next call. *)
Fixpoint run_from {A : Type} (c : client) (i : nat) (p : prog A) : A * nat :=
  match p with
  | Ret a => (a, i)
  | Call prompt k => run_from c (S i) (k (c i prompt))
  end.

(** The value and the number of calls made. *)
Definition run {A : Type} (c : client) (p : prog A) : A * nat := run_from c 0 p.

(* ================================================================== *)
(** * Data model *)
(* ================================================================== *)

(** [scenario_data['data']]: one telemetry reading, with every field that is
    present holding a value of its type: a float for the numeric fields, a
    string for [heat_pump_status].  [vpp_signal] may be present with the
    value [None] (as the scenario generator of [property_profiles.py] writes
    it), hence the inner option.  A numeric key present with the value
    [None], on which the arithmetic of the explainer raises [TypeError], is
    not a value of this type. *)
Record Snapshot : Type := {
  indoor_temp : option float;
  target_temp : option float;
  outdoor_temp : option float;
  heat_pump_status : option str;
  power_consumption_kw : option float;
  cop : option float;
  flow_temp : option float;
  electricity_price_current : option float;
  electricity_price_peak : option float;
  vpp_signal : option (option str);
  weather_forecast_temp : option float
}.

(** [scenario_data['property_profile']], with the nested [get]s of the
    transparency report flattened: a field is [None] when its key or the
    sub-dictionary holding it is absent. *)
Record Profile : Type := {
  house_type : option str;
  brand : option str;
  model : option str;
  size_kw : option float;
  annual_spf : option float
}.

Record Scenario : Type := {
  name : option str;
  timestamp : option str;
  data : option Snapshot;
  property_profile : option Profile
}.

Record Pattern : Type := {
  pattern_type : str;
  severity : str;
  confidence : str;
  trigger : str;
  is_anomaly : bool;
  category : str
}.

(** The dict [calculate_benefits] returns always holds both keys, so the
    defaults of the later [benefits.get(...)] are never taken. *)
Record Benefits : Type := {
  cost_savings : float;
  carbon_kg : float
}.

Record Guidance : Type := {
  status : str;
  action : str;
  detail : str;
  g_confidence : str;
  tier : str
}.

Record DetectionDetails : Type := {
  dd_pattern_detected : str;
  dd_detection_confidence : str;
  dd_is_anomaly : str;
  dd_trigger : str
}.

Record Measurements : Type := {
  m_indoor_temperature : str;
  m_target_temperature : str;
  m_temperature_gap : str;
  m_outdoor_temperature : str;
  m_system_efficiency : str;
  m_cop_interpretation : str;
  m_power_consumption : str;
  m_flow_temperature : str
}.

(** ['Grid Signal'] holds the value of [vpp_signal] itself: [None] is
    Python's [None]. *)
Record Context : Type := {
  c_timestamp : str;
  c_electricity_price : str;
  c_peak_price : str;
  c_grid_signal : option str;
  c_weather_forecast : str
}.

Record PropertyDetails : Type := {
  p_property_type : str;
  p_heat_pump : str;
  p_heat_pump_size : str;
  p_typical_annual_efficiency : str
}.

Record CalculatedBenefits : Type := {
  b_cost_savings_today : str;
  b_carbon_avoided : str;
  b_equivalent_to : str
}.

Record Transparency : Type := {
  detection_details : DetectionDetails;
  measurements : Measurements;
  context : Context;
  property_details : PropertyDetails;
  calculated_benefits : CalculatedBenefits;
  why_this_conclusion : str
}.

Record AnalysisResult : Type := {
  scenario_name : str;
  pattern_detection : Pattern;
  explanation : str;
  word_count : nat;
  actionable_guidance : Guidance;
  benefits : Benefits;
  transparency_data : Transparency
}.

(* ================================================================== *)
(** * The explainer *)
(* ================================================================== *)

Local Open Scope float_scope.

(** Truth value of [data.get('vpp_signal')]: absent, [None] and the empty
    string are false. *)
Definition truthy_signal (v : option (option str)) : bool :=
  match v with
  | Some (Some (_ :: _)) => true
  | _ => false
  end.

(** [data.get('heat_pump_status') == 'heating']. *)
Definition status_is_heating (v : option str) : bool :=
  match v with
  | Some s => str_eqb s (lit "heating")
  | None => false
  end.

(** [data.get('weather_forecast_temp') and
     data['weather_forecast_temp'] < outdoor_temp - 5]. *)
Definition forecast_cold_snap (v : option float) (outdoor_temp : float) : bool :=
  match v with
  | Some w => truthy w && (w <? outdoor_temp - 5)
  | None => false
  end.

(** [int(scenario_data.get('timestamp', '2024-01-01T12:00:00')[11:13])]. *)
Definition hour_of (scenario_data : Scenario) : result Z :=
  py_int (slice 11 13 (get (timestamp scenario_data) (lit "2024-01-01T12:00:00"))).

(** ** Criterion 1: [detect_pattern] *)

(** The "pattern detection logic" of [detect_pattern]: its rules, in order,
    on the metrics it has extracted. *)
Definition pattern_detection_logic (scenario_data : Scenario) (data : Snapshot)
    (indoor_temp target_temp outdoor_temp cop power_kw : float)
  : result Pattern :=
  if (cop <? 1.8) && (0 <? outdoor_temp) then
    Ok {| pattern_type := lit "efficiency_anomaly";
          severity := lit "high";
          confidence := lit "high";
          trigger := lit "COP of " ++ format_f 1 cop
                     ++ lit " is unusually low for "
                     ++ repr_float outdoor_temp ++ deg ++ lit "C";
          is_anomaly := true;
          category := lit "potential_fault" |}
  else if (indoor_temp <? target_temp - 2.0)
          && status_is_heating (heat_pump_status data) then
    Ok {| pattern_type := lit "temperature_deficit";
          severity := lit "medium";
          confidence := lit "high";
          trigger := lit "Indoor temp " ++ repr_float indoor_temp
                     ++ deg ++ lit "C is "
                     ++ format_f 1 (target_temp - indoor_temp)
                     ++ deg ++ lit "C below target";
          is_anomaly := true;
          category := lit "performance_issue" |}
  else
    let expected_power := 3.0 in
    if expected_power * 1.5 <? power_kw then
      Ok {| pattern_type := lit "high_power_consumption";
            severity := lit "medium";
            confidence := lit "medium";
            trigger := lit "Power usage " ++ format_f 1 power_kw
                       ++ lit "kW exceeds typical range";
            is_anomaly := true;
            category := lit "efficiency_concern" |}
    else
      hour <- hour_of scenario_data ;;
      if (0 <=? hour)%Z && (hour <=? 5)%Z
         && (get (electricity_price_current data) 0.15 <? 0.12) then
        Ok {| pattern_type := lit "tariff_optimization";
              severity := lit "none";
              confidence := lit "high";
              trigger := lit "Operating during cheap-rate hours";
              is_anomaly := false;
              category := lit "smart_behavior" |}
      else if truthy_signal (vpp_signal data) && (indoor_temp <? target_temp) then
        Ok {| pattern_type := lit "vpp_curtailment";
              severity := lit "none";
              confidence := lit "high";
              trigger := lit "Grid demand response active";
              is_anomaly := false;
              category := lit "smart_behavior" |}
      else if forecast_cold_snap (weather_forecast_temp data) outdoor_temp then
        Ok {| pattern_type := lit "predictive_heating";
              severity := lit "none";
              confidence := lit "high";
              trigger := lit "Pre-heating before forecast cold snap";
              is_anomaly := false;
              category := lit "smart_behavior" |}
      else if (outdoor_temp <? 0) && (2.0 <=? cop) && (cop <? 2.8) then
        Ok {| pattern_type := lit "cold_weather_operation";
              severity := lit "none";
              confidence := lit "high";
              trigger := lit "Normal efficiency for "
                         ++ repr_float outdoor_temp ++ deg ++ lit "C weather";
              is_anomaly := false;
              category := lit "normal_operation" |}
      else
        Ok {| pattern_type := lit "normal_operation";
              severity := lit "none";
              confidence := lit "medium";
              trigger := lit "Standard heating operation";
              is_anomaly := false;
              category := lit "normal_operation" |}.

Definition detect_pattern (scenario_data : Scenario) : result Pattern :=
  data <- require "data" (data scenario_data) ;;
  indoor_temp <- require "indoor_temp" (indoor_temp data) ;;
  let target_temp := get (target_temp data) 20.0 in
  outdoor_temp <- require "outdoor_temp" (outdoor_temp data) ;;
  cop <- require "cop" (cop data) ;;
  power_kw <- require "power_consumption_kw" (power_consumption_kw data) ;;
  pattern_detection_logic scenario_data data
    indoor_temp target_temp outdoor_temp cop power_kw.

(** ** Benefits: [calculate_benefits] *)
Definition calculate_benefits (scenario_data : Scenario) (pattern : Pattern)
  : result Benefits :=
  data <- require "data" (data scenario_data) ;;
  let '(cost_savings, carbon_kg) :=
    if str_eqb (pattern_type pattern) (lit "tariff_optimization") then
      let peak_price := get (electricity_price_peak data) 0.28 in
      let actual_price := get (electricity_price_current data) 0.08 in
      let power_kw := get (power_consumption_kw data) 2.0 in
      let hours := 3 in
      ((peak_price - actual_price) * power_kw * hours, 0.8)
    else if str_eqb (pattern_type pattern) (lit "vpp_curtailment") then
      (0.15, 1.2)
    else if str_eqb (pattern_type pattern) (lit "predictive_heating") then
      (0.85, 0.5)
    else (0.0, 0.0) in
  Ok {| cost_savings := py_round cost_savings 2;
        carbon_kg := py_round carbon_kg 1 |}.

(** ** Criterion 3: [get_actionable_guidance] *)

(** The dict [guidance_map], with the values its entries interpolate. *)
Definition guidance_map (outdoor_temp power_kw cop : float)
  : list (str * Guidance) := [
    (lit "tariff_optimization",
     {| status := lit " This is normal winter behaviour";
        action := lit "No action needed";
        detail := lit "Your smart tariff is working as designed to minimize costs.";
        g_confidence := lit "Definitely normal";
        tier := lit "normal" |});
    (lit "vpp_curtailment",
     {| status := lit " This is normal winter behaviour";
        action := lit "No action needed";
        detail := lit "Your system is helping balance the grid during peak demand. Temperature will recover automatically.";
        g_confidence := lit "Definitely normal";
        tier := lit "normal" |});
    (lit "predictive_heating",
     {| status := lit " This is normal winter behaviour";
        action := lit "No action needed";
        detail := lit "Your system is optimizing for upcoming weather. This is more efficient than reactive heating.";
        g_confidence := lit "Definitely normal";
        tier := lit "normal" |});
    (lit "cold_weather_operation",
     {| status := lit " This is normal winter behaviour";
        action := lit "No action needed";
        detail := lit "Heat pumps use more electricity in very cold weather ("
                  ++ repr_float outdoor_temp
                  ++ deg ++ lit "C), but remain cost-effective.";
        g_confidence := lit "Definitely normal";
        tier := lit "normal" |});
    (lit "temperature_deficit",
     {| status := lit " Consider checking your insulation";
        action := lit "Check for drafts or poor insulation";
        detail := lit "Your home is struggling to maintain temperature. Improving insulation could help your heat pump work more efficiently.";
        g_confidence := lit "This might need attention";
        tier := lit "check" |});
    (lit "high_power_consumption",
     {| status := lit " Consider checking your insulation";
        action := lit "Review insulation and radiator sizing";
        detail := lit "Power usage (" ++ format_f 1 power_kw
                  ++ lit "kW) is higher than typical. Better insulation could reduce this.";
        g_confidence := lit "This might need attention";
        tier := lit "check" |});
    (lit "efficiency_anomaly",
     {| status := lit " This might indicate a fault";
        action := lit "Book a service check with your installer";
        detail := lit "Efficiency (" ++ format_f 1 cop
                  ++ lit ") is lower than expected for "
                  ++ repr_float outdoor_temp
                  ++ deg ++ lit "C. Could indicate refrigerant levels, sensor issues, or airflow problems.";
        g_confidence := lit "This might indicate a fault";
        tier := lit "fault" |})
  ].

(** The default entry of the lookup. *)
Definition guidance_default : Guidance :=
  {| status := lit " This is normal winter behaviour";
     action := lit "No action needed";
     detail := lit "Your heat pump is operating within expected parameters.";
     g_confidence := lit "Probably normal";
     tier := lit "normal" |}.

Definition get_actionable_guidance (pattern : Pattern) (scenario_data : Scenario)
  : result Guidance :=
  data <- require "data" (data scenario_data) ;;
  (* the dict literal evaluates every entry, in order *)
  outdoor_temp <- require "outdoor_temp" (outdoor_temp data) ;;
  power_kw <- require "power_consumption_kw" (power_consumption_kw data) ;;
  cop <- require "cop" (cop data) ;;
  Ok (dict_get (guidance_map outdoor_temp power_kw cop) (pattern_type pattern)
        guidance_default).

(** ** Criterion 2: [generate_plain_language_explanation] *)

(** [str(v)] for a float read with a default that is an [int] literal, as in
    [{data.get('target_temp', 20)}]. *)
Definition repr_or (v : option float) (default : str) : str :=
  match v with
  | Some x => repr_float x
  | None => default
  end.

(** [str(data.get('vpp_signal'))]. *)
Definition str_of_signal (v : option (option str)) : str :=
  match v with
  | Some (Some s) => s
  | _ => lit "None"
  end.

Definition str_of_bool (b : bool) : str :=
  if b then lit "True" else lit "False".

Definition nl : str := [10%N].
Definition dquote : str := [34%N].

(** The prompt of [generate_plain_language_explanation]. *)
Definition build_prompt (scenario_data : Scenario) (data : Snapshot)
    (pattern : Pattern) (benefits : Benefits) : result str :=
  indoor_temp <- require "indoor_temp" (indoor_temp data) ;;
  outdoor_temp <- require "outdoor_temp" (outdoor_temp data) ;;
  cop <- require "cop" (cop data) ;;
  Ok (join nl [
    lit "You're explaining a heat pump's behaviour to a homeowner with no technical knowledge.";
    [];
    lit "SITUATION:";
    lit "- What happened: " ++ replace 95%N 32%N (pattern_type pattern);
    lit "- Indoor temperature: " ++ repr_float indoor_temp
      ++ deg ++ lit "C (target: " ++ repr_or (target_temp data) (lit "20") ++ deg ++ lit "C)";
    lit "- Outdoor temperature: " ++ repr_float outdoor_temp ++ deg ++ lit "C";
    lit "- System efficiency: " ++ format_f 1 cop
      ++ lit " (3+ is good, 2-3 is okay, <2 is concerning)";
    lit "- Time: " ++ get (timestamp scenario_data) (lit "today");
    [];
    lit "CONTEXT:";
    lit "- Is this normal? " ++ str_of_bool (negb (is_anomaly pattern));
    lit "- Trigger: " ++ trigger pattern;
    [];
    lit "BENEFITS (if applicable):";
    lit "- Money saved: " ++ pound ++ format_f 2 (cost_savings benefits);
    lit "- Carbon avoided: " ++ format_f 1 (carbon_kg benefits) ++ lit "kg CO2";
    [];
    lit "YOUR TASK:";
    lit "Write ONE explanation in UNDER 50 WORDS that:";
    lit "1. Explains WHY this happened in everyday language";
    lit "2. Mentions the benefit if there is one (savings/carbon)";
    lit "3. Is reassuring if normal, or flags if needs attention";
    [];
    lit "RULES:";
    lit "- NO technical jargon (don't say: COP, VPP, kWh, thermal mass, SPF, refrigerant)";
    lit "- DO use everyday words (say: efficiency, heating schedule, electricity price, weather)";
    lit "- Keep it conversational and friendly";
    lit "- Be specific with numbers (e.g., " ++ dquote ++ lit "saved " ++ pound ++ lit "1.20"
      ++ dquote ++ lit " not " ++ dquote ++ lit "saved money" ++ dquote ++ lit ")";
    [];
    lit "EXPLANATION (under 50 words):"
  ]).

(** The dict [templates] of [_fallback_explanation], with the values its
    entries interpolate. *)
Definition templates (data : Snapshot) (benefits : Benefits)
    (outdoor_temp cop : float) : list (str * str) := [
    (lit "tariff_optimization",
     lit "Your smart tariff shifted heating to cheap-rate hours, saving you " ++ pound
     ++ format_f 2 (cost_savings benefits)
     ++ lit " today. The system ran efficiently despite "
     ++ repr_float outdoor_temp ++ deg ++ lit "C outside.");
    (lit "vpp_curtailment",
     lit "The grid asked your heat pump to reduce during peak demand. Your house will reach "
     ++ repr_or (target_temp data) (lit "20")
     ++ deg ++ lit "C by morning as usual. This helps prevent blackouts.");
    (lit "predictive_heating",
     lit "Your system is pre-heating before tonight's cold snap ("
     ++ repr_or (weather_forecast_temp data) (lit "-8")
     ++ deg ++ lit "C forecast). This uses less energy than playing catch-up later.");
    (lit "cold_weather_operation",
     lit "Your heat pump is using more electricity because outdoor temperature dropped to "
     ++ repr_float outdoor_temp
     ++ deg ++ lit "C. This is normal winter behaviour - still cheaper than gas.");
    (lit "efficiency_anomaly",
     lit "Your system's efficiency (" ++ format_f 1 cop
     ++ lit ") is lower than expected for " ++ repr_float outdoor_temp
     ++ deg ++ lit "C weather. Consider checking your insulation or booking a service check.")
  ].

(** [_fallback_explanation]: the template of the pattern_type, or the default
    text. *)
Definition _fallback_explanation (pattern : Pattern) (data : Snapshot)
    (benefits : Benefits) : result str :=
  outdoor_temp <- require "outdoor_temp" (outdoor_temp data) ;;
  cop <- require "cop" (cop data) ;;
  Ok (dict_get (templates data benefits outdoor_temp cop) (pattern_type pattern)
        (lit "Your heat pump is operating normally.")).

(** The [try] block after a reply could be read: strip, count, truncate. *)
Definition bound_words (text : str) : str :=
  let explanation := strip text in
  let word_count := List.length (split explanation) in
  if Nat.ltb 50 word_count then
    join (lit " ") (firstn 50 (split explanation)) ++ lit "..."
  else explanation.

Definition generate_plain_language_explanation (scenario_data : Scenario)
    (pattern : Pattern) (benefits : Benefits) : prog (result str) :=
  match
    data <- require "data" (data scenario_data) ;;
    prompt <- build_prompt scenario_data data pattern benefits ;;
    Ok (data, prompt)
  with
  | Err e => Ret (Err e)
  | Ok (data, prompt) =>
    (* try: one call of the client; except Exception: the template *)
    Call prompt (fun r =>
      match r with
      | Reply text => Ret (Ok (bound_words text))
      | Failure => Ret (_fallback_explanation pattern data benefits)
      end)
  end.

(** ** Criterion 4: [build_transparency_data] *)

Definition _interpret_cop (cop : float) : str :=
  if 3.5 <=? cop then lit "Excellent efficiency"
  else if 3.0 <=? cop then lit "Good efficiency"
  else if 2.5 <=? cop then lit "Moderate efficiency"
  else if 2.0 <=? cop then lit "Acceptable for cold weather"
  else lit "Lower than expected - may need attention".

(** The dict [logic_map] of [_explain_conclusion_logic]. *)
Definition logic_map (data : Snapshot) (indoor_temp outdoor_temp cop : float)
  : list (str * str) := [
    (lit "tariff_optimization",
     lit "Detected heating during off-peak hours (cheap electricity at " ++ pound
     ++ format_f 2 (get (electricity_price_current data) 0.08)
     ++ lit "/kWh vs peak " ++ pound
     ++ format_f 2 (get (electricity_price_peak data) 0.28)
     ++ lit "/kWh)");
    (lit "vpp_curtailment",
     lit "Grid signal '" ++ str_of_signal (vpp_signal data)
     ++ lit "' active with temperature " ++ repr_float indoor_temp
     ++ deg ++ lit "C below target");
    (lit "predictive_heating",
     lit "Forecast shows temperature drop to "
     ++ repr_or (weather_forecast_temp data) (lit "None")
     ++ deg ++ lit "C, system pre-heating while current outdoor temp is "
     ++ repr_float outdoor_temp ++ deg ++ lit "C");
    (lit "cold_weather_operation",
     lit "Outdoor temperature " ++ repr_float outdoor_temp
     ++ deg ++ lit "C with COP " ++ format_f 1 cop
     ++ lit " is within normal range for winter");
    (lit "efficiency_anomaly",
     lit "COP " ++ format_f 1 cop
     ++ lit " is below expected range (2.5-3.5) for outdoor temperature "
     ++ repr_float outdoor_temp ++ deg ++ lit "C")
  ].

Definition _explain_conclusion_logic (pattern : Pattern) (data : Snapshot)
  : result str :=
  indoor_temp <- require "indoor_temp" (indoor_temp data) ;;
  outdoor_temp <- require "outdoor_temp" (outdoor_temp data) ;;
  cop <- require "cop" (cop data) ;;
  Ok (dict_get (logic_map data indoor_temp outdoor_temp cop) (pattern_type pattern)
        (lit "Analysis of operational parameters suggests normal behaviour")).

(** ['Peak Price']: the formatted price when
    [data.get('electricity_price_peak')] is truthy, ['N/A'] otherwise. *)
Definition peak_price_text (v : option float) : str :=
  match v with
  | Some x => if truthy x then pound ++ format_f 2 x ++ lit "/kWh" else lit "N/A"
  | None => lit "N/A"
  end.

(** ['Weather Forecast']. *)
Definition weather_forecast_text (v : option float) : str :=
  match v with
  | Some x => if truthy x then repr_float x ++ deg ++ lit "C" else lit "N/A"
  | None => lit "N/A"
  end.

(** ['Grid Signal']: [data.get('vpp_signal', 'None')]. *)
Definition grid_signal_value (v : option (option str)) : option str :=
  match v with
  | Some s => s
  | None => Some (lit "None")
  end.

Definition build_transparency_data (scenario_data : Scenario)
    (pattern : Pattern) (benefits : Benefits) : result Transparency :=
  data <- require "data" (data scenario_data) ;;
  let profile := property_profile scenario_data in
  let profile_get {A : Type} (f : Profile -> option A) : option A :=
    match profile with Some p => f p | None => None end in
  indoor_temp <- require "indoor_temp" (indoor_temp data) ;;
  outdoor_temp <- require "outdoor_temp" (outdoor_temp data) ;;
  cop <- require "cop" (cop data) ;;
  power_kw <- require "power_consumption_kw" (power_consumption_kw data) ;;
  why <- _explain_conclusion_logic pattern data ;;
  Ok {|
    detection_details := {|
      dd_pattern_detected := title (replace 95%N 32%N (pattern_type pattern));
      dd_detection_confidence := title (confidence pattern);
      dd_is_anomaly := if is_anomaly pattern then lit "Yes" else lit "No";
      dd_trigger := trigger pattern |};
    measurements := {|
      m_indoor_temperature := repr_float indoor_temp ++ deg ++ lit "C";
      m_target_temperature := repr_float (get (target_temp data) 20.0) ++ deg ++ lit "C";
      m_temperature_gap :=
        format_f 1 (get (target_temp data) 20.0 - indoor_temp) ++ deg ++ lit "C";
      m_outdoor_temperature := repr_float outdoor_temp ++ deg ++ lit "C";
      m_system_efficiency := format_f 1 cop;
      m_cop_interpretation := _interpret_cop cop;
      m_power_consumption := format_f 1 power_kw ++ lit " kW";
      m_flow_temperature := repr_or (flow_temp data) (lit "40") ++ deg ++ lit "C" |};
    context := {|
      c_timestamp := get (timestamp scenario_data) (lit "Unknown");
      c_electricity_price :=
        pound ++ format_f 2 (get (electricity_price_current data) 0.15)
        ++ lit "/kWh";
      c_peak_price := peak_price_text (electricity_price_peak data);
      c_grid_signal := grid_signal_value (vpp_signal data);
      c_weather_forecast := weather_forecast_text (weather_forecast_temp data) |};
    property_details := {|
      p_property_type := get (profile_get house_type) (lit "Unknown");
      p_heat_pump := get (profile_get brand) (lit "Unknown") ++ lit " "
                     ++ get (profile_get model) [];
      p_heat_pump_size := repr_float (get (profile_get size_kw) 7.0) ++ lit " kW";
      p_typical_annual_efficiency :=
        format_f 2 (get (profile_get annual_spf) 2.8) |};
    calculated_benefits := {|
      b_cost_savings_today := pound ++ format_f 2 (cost_savings benefits);
      b_carbon_avoided := format_f 1 (carbon_kg benefits) ++ lit " kg CO2";
      b_equivalent_to :=
        if 0 <? carbon_kg benefits
        then format_f 1 (carbon_kg benefits / 25) ++ lit " trees planted"
        else lit "N/A" |};
    why_this_conclusion := why |}.

(** ** Main analysis: [analyze_scenario] *)
Definition analyze_scenario (scenario_data : Scenario)
  : prog (result AnalysisResult) :=
  pattern <~ Ret (detect_pattern scenario_data) ;;
  benefits <~ Ret (calculate_benefits scenario_data pattern) ;;
  explanation <~
    generate_plain_language_explanation scenario_data pattern benefits ;;
  guidance <~ Ret (get_actionable_guidance pattern scenario_data) ;;
  transparency <~
    Ret (build_transparency_data scenario_data pattern benefits) ;;
  Ret (Ok {|
    scenario_name := get (name scenario_data) (lit "Unknown Scenario");
    pattern_detection := pattern;
    explanation := explanation;
    word_count := List.length (split explanation);
    actionable_guidance := guidance;
    benefits := benefits;
    transparency_data := transparency |}).

(* ================================================================== *)
(** * The ordered rule list, as a table *)
(* ================================================================== *)

(** What [detect_pattern] has read when it reaches its rules. *)
Record Extracted : Type := {
  x_data : Snapshot;
  x_indoor_temp : float;
  x_target_temp : float;
  x_outdoor_temp : float;
  x_cop : float;
  x_power_kw : float;
  x_hour : Z
}.

(** The predicates of rules 1 to 7, written on the fields themselves. *)

(** [cop < 1.8 AND outdoor_temp > 0]. *)
Definition rule1 (x : Extracted) : bool :=
  (x_cop x <? 1.8) && (0 <? x_outdoor_temp x).

(** [indoor_temp < target_temp - 2.0 AND status == heating]. *)
Definition rule2 (x : Extracted) : bool :=
  (x_indoor_temp x <? x_target_temp x - 2.0)
  && match heat_pump_status (x_data x) with
     | Some s => str_eqb s (lit "heating")
     | None => false
     end.

(** [power_consumption_kw > 4.5]. *)
Definition rule3 (x : Extracted) : bool := 4.5 <? x_power_kw x.

(** [hour in [0,5] AND electricity_price_current < 0.12], the price being
    0.15 when the field is absent. *)
Definition rule4 (x : Extracted) : bool :=
  (0 <=? x_hour x)%Z && (x_hour x <=? 5)%Z
  && (get (electricity_price_current (x_data x)) 0.15 <? 0.12).

(** Rule 5 as section 4.1 of the specification words it:
    [vpp_signal present AND indoor_temp < target_temp]. *)
Definition spec_rule5 (x : Extracted) : bool :=
  match vpp_signal (x_data x) with
  | Some _ => true
  | None => false
  end
  && (x_indoor_temp x <? x_target_temp x).

(** Rule 6 as section 4.1 of the specification words it:
    [weather_forecast_temp present AND
     weather_forecast_temp < outdoor_temp - 5]. *)
Definition spec_rule6 (x : Extracted) : bool :=
  match weather_forecast_temp (x_data x) with
  | Some w => w <? x_outdoor_temp x - 5
  | None => false
  end.

(** Rule 5 with the condition of the source: the signal is present and is a
    non-empty string. *)
Definition rule5 (x : Extracted) : bool :=
  match vpp_signal (x_data x) with
  | Some (Some (_ :: _)) => true
  | _ => false
  end
  && (x_indoor_temp x <? x_target_temp x).

(** Rule 6 with the condition of the source: the forecast is present and is
    not zero. *)
Definition rule6 (x : Extracted) : bool :=
  match weather_forecast_temp (x_data x) with
  | Some w => negb (w =? 0) && (w <? x_outdoor_temp x - 5)
  | None => false
  end.

(** [outdoor_temp < 0 AND 2.0 <= cop < 2.8]. *)
Definition rule7 (x : Extracted) : bool :=
  (x_outdoor_temp x <? 0) && (2.0 <=? x_cop x) && (x_cop x <? 2.8).

(** The ordered list of (predicate, pattern_type) pairs of section 4.1, in
    the words of the specification. *)
Definition spec_rule_table : list ((Extracted -> bool) * str) := [
  (rule1, lit "efficiency_anomaly");
  (rule2, lit "temperature_deficit");
  (rule3, lit "high_power_consumption");
  (rule4, lit "tariff_optimization");
  (spec_rule5, lit "vpp_curtailment");
  (spec_rule6, lit "predictive_heating");
  (rule7, lit "cold_weather_operation")
].

(** The same list with rules 5 and 6 as the source tests them. *)
Definition rule_table : list ((Extracted -> bool) * str) := [
  (rule1, lit "efficiency_anomaly");
  (rule2, lit "temperature_deficit");
  (rule3, lit "high_power_consumption");
  (rule4, lit "tariff_optimization");
  (rule5, lit "vpp_curtailment");
  (rule6, lit "predictive_heating");
  (rule7, lit "cold_weather_operation")
].

(** First match wins; [normal_operation] when no predicate holds. *)
Definition first_match (table : list ((Extracted -> bool) * str))
    (x : Extracted) : str :=
  match find (fun r => fst r x) table with
  | Some r => snd r
  | None => lit "normal_operation"
  end.

Definition classify_by_spec (x : Extracted) : str := first_match spec_rule_table x.

Definition classify_by_table (x : Extracted) : str := first_match rule_table x.

(** The values read from a scenario whose required fields are present. *)
Definition extracted (d : Snapshot) (indoor outdoor c power : float) (h : Z)
  : Extracted :=
  {| x_data := d;
     x_indoor_temp := indoor;
     x_target_temp := get (target_temp d) 20.0;
     x_outdoor_temp := outdoor;
     x_cop := c;
     x_power_kw := power;
     x_hour := h |}.

(** One of the three anomaly rules, which are tried before the timestamp is
    read, applies. *)
Definition anomaly_rule_fires (d : Snapshot) (indoor outdoor c power : float)
  : bool :=
  rule1 (extracted d indoor outdoor c power 0)
  || rule2 (extracted d indoor outdoor c power 0)
  || rule3 (extracted d indoor outdoor c power 0).

(** The tier table of the specification, keyed by pattern_type. *)
Definition tier_of (pt : str) : str :=
  if str_eqb pt (lit "efficiency_anomaly") then lit "fault"
  else if str_eqb pt (lit "temperature_deficit")
          || str_eqb pt (lit "high_power_consumption") then lit "check"
  else lit "normal".

(* ================================================================== *)
(** * Word counting *)
(* ================================================================== *)

(** Number of words of [s] read by a scanner that is inside a word iff
    [inw]. *)
Fixpoint wc_go (s : str) (inw : bool) : nat :=
  match s with
  | [] => O
  | c :: r =>
    if isspace c then wc_go r false
    else ((if inw then 0 else 1) + wc_go r true)%nat
  end.

(** Whether the scanner is inside a word after reading [s]. *)
Fixpoint end_inw (s : str) (inw : bool) : bool :=
  match s with
  | [] => inw
  | c :: r => end_inw r (negb (isspace c))
  end.

(** No whitespace in [s]. *)
Definition graphic (s : str) : bool := forallb (fun c => negb (isspace c)) s.

(** A word: non-empty and free of whitespace. *)
Definition is_word (s : str) : Prop := s <> [] /\ graphic s = true.

(** No decimal digit in [s]. *)
Definition digit_free (s : str) : bool := forallb (fun c => negb (is_digit c)) s.

(* ================================================================== *)
(** * Sample scenarios and clients *)
(* ================================================================== *)

Definition with_required (indoor outdoor c power : float) : Snapshot :=
  {| indoor_temp := Some indoor; target_temp := None;
     outdoor_temp := Some outdoor;
     heat_pump_status := None; power_consumption_kw := Some power;
     cop := Some c;
     flow_temp := None; electricity_price_current := None;
     electricity_price_peak := None; vpp_signal := None;
     weather_forecast_temp := None |}.

Definition with_prices (d : Snapshot) (current peak : option float) : Snapshot :=
  {| indoor_temp := indoor_temp d; target_temp := target_temp d;
     outdoor_temp := outdoor_temp d;
     heat_pump_status := heat_pump_status d;
     power_consumption_kw := power_consumption_kw d; cop := cop d;
     flow_temp := flow_temp d; electricity_price_current := current;
     electricity_price_peak := peak; vpp_signal := vpp_signal d;
     weather_forecast_temp := weather_forecast_temp d |}.

Definition with_signals (d : Snapshot) (vpp : option (option str))
    (forecast : option float) : Snapshot :=
  {| indoor_temp := indoor_temp d; target_temp := target_temp d;
     outdoor_temp := outdoor_temp d;
     heat_pump_status := heat_pump_status d;
     power_consumption_kw := power_consumption_kw d; cop := cop d;
     flow_temp := flow_temp d;
     electricity_price_current := electricity_price_current d;
     electricity_price_peak := electricity_price_peak d; vpp_signal := vpp;
     weather_forecast_temp := forecast |}.

Definition scenario_at (ts : option str) (d : Snapshot) : Scenario :=
  {| name := None; timestamp := ts; data := Some d; property_profile := None |}.

(** Section 8, priority order: cop 1.5 at 3.0 degrees outside, at 02:00 on a
    cheap rate. *)
Definition priority_scenario : Scenario :=
  scenario_at (Some (lit "2024-01-15T02:00:00"))
    (with_prices (with_required 19.0 3.0 1.5 2.0) (Some 0.08) (Some 0.28)).

(** Section 8, tariff optimization, completed with an indoor temperature and
    a date. *)
Definition tariff_scenario (date : str) (indoor : float) : Scenario :=
  scenario_at (Some (date ++ lit "T02:30:00"))
    (with_prices (with_required indoor (-3.0) 3.0 2.1) (Some 0.08) (Some 0.28)).

(** A cheap-rate night reading whose current price exceeds its peak price. *)
Definition inverted_price_scenario : Scenario :=
  scenario_at (Some (lit "2024-01-15T02:30:00"))
    (with_prices (with_required 19.2 (-3.0) 3.0 2.0) (Some 0.1) (Some 0.05)).

(** Two cheap-rate night readings with different hours and prices. *)
Definition night_scenario_a : Scenario :=
  scenario_at (Some (lit "2024-01-15T02:30:00"))
    (with_prices (with_required 19.2 (-3.0) 3.0 2.1) (Some 0.08) (Some 0.28)).

Definition night_scenario_b : Scenario :=
  scenario_at (Some (lit "2024-01-16T04:45:00"))
    (with_prices (with_required 19.2 (-3.0) 3.0 2.1) (Some 0.05) (Some 0.28)).


(** All four required fields, and a timestamp that is a date only. *)
Definition date_only_scenario : Scenario :=
  scenario_at (Some (lit "2024-01-15")) (with_required 19.2 4.0 3.0 2.1).

(** The same reading without a timestamp and without [cop]. *)
Definition no_cop_scenario : Scenario :=
  scenario_at None
    {| indoor_temp := Some 19.2; target_temp := None; outdoor_temp := Some 4.0;
       heat_pump_status := None; power_consumption_kw := Some 2.1; cop := None;
       flow_temp := None; electricity_price_current := None;
       electricity_price_peak := None; vpp_signal := None;
       weather_forecast_temp := None |}.

(** A daytime reading with an empty grid signal and a forecast of exactly
    0.0 degrees, 6.0 degrees outside and 19.0 inside. *)
Definition falsy_signals_scenario : Scenario :=
  scenario_at (Some (lit "2024-01-16T14:00:00"))
    (with_signals (with_required 19.0 6.0 3.0 2.1) (Some (Some [])) (Some 0.0)).

(** A daytime reading without grid signal and with a forecast of exactly 0.0
    degrees, 6.0 degrees outside. *)
Definition zero_forecast_scenario : Scenario :=
  scenario_at (Some (lit "2024-01-16T14:00:00"))
    (with_signals (with_required 20.5 6.0 3.0 2.1) None (Some 0.0)).

(** Two daytime readings in frost that differ in their cop only. *)
Definition frost_scenario_a : Scenario :=
  scenario_at (Some (lit "2024-01-16T14:00:00")) (with_required 19.8 (-5.0) 2.1 2.0).

Definition frost_scenario_b : Scenario :=
  scenario_at (Some (lit "2024-01-16T14:00:00")) (with_required 19.8 (-5.0) 2.7 2.0).


(** A reading without [indoor_temp] and without [cop]. *)
Definition no_indoor_no_cop_scenario : Scenario :=
  scenario_at None
    {| indoor_temp := None; target_temp := None; outdoor_temp := Some 4.0;
       heat_pump_status := None; power_consumption_kw := Some 2.1; cop := None;
       flow_temp := None; electricity_price_current := None;
       electricity_price_peak := None; vpp_signal := None;
       weather_forecast_temp := None |}.

(** A mild daytime reading: no rule but the default applies. *)
Definition mild_scenario : Scenario :=
  scenario_at (Some (lit "2024-01-16T14:00:00")) (with_required 20.5 8.0 3.2 1.5).

(** A client that always fails, and one that echoes a long reply. *)
Definition failing_client : client := fun _ _ => Failure.

Definition long_reply : str :=
  join (lit " ") (repeat (lit "warm") 60).

Definition chatty_client : client := fun _ _ => Reply long_reply.

(* ================================================================== *)
(** * The classifications, and the order of floats *)
(* ================================================================== *)

(** The eight classifications [detect_pattern] can return, without their
    triggers: pattern_type, severity, confidence, is_anomaly, category. *)
Definition classifications : list (str * (str * str * bool * str)) := [
  (lit "efficiency_anomaly", (lit "high", lit "high", true, lit "potential_fault"));
  (lit "temperature_deficit",
   (lit "medium", lit "high", true, lit "performance_issue"));
  (lit "high_power_consumption",
   (lit "medium", lit "medium", true, lit "efficiency_concern"));
  (lit "tariff_optimization", (lit "none", lit "high", false, lit "smart_behavior"));
  (lit "vpp_curtailment", (lit "none", lit "high", false, lit "smart_behavior"));
  (lit "predictive_heating", (lit "none", lit "high", false, lit "smart_behavior"));
  (lit "cold_weather_operation",
   (lit "none", lit "high", false, lit "normal_operation"));
  (lit "normal_operation", (lit "none", lit "medium", false, lit "normal_operation"))
].

(** The order of the floats that are numbers, read on their sign, exponent
    and mantissa: the key of a float, and the lexicographic order of keys.
    NaN has no key. *)
Definition sf_key (f : spec_float) : option (Z * Z * Z) :=
  match f with
  | S754_nan => None
  | S754_zero _ => Some (0, 0, 0)%Z
  | S754_infinity s => Some (if s then (-2) else 2, 0, 0)%Z
  | S754_finite s m e =>
    Some (if s then ((-1), - e, - Zpos m) else (1, e, Zpos m))%Z
  end.

Definition float_key (x : float) : option (Z * Z * Z) := sf_key (Prim2SF x).

Definition key_ltb (a b : Z * Z * Z) : bool :=
  let '(a1, a2, a3) := a in
  let '(b1, b2, b3) := b in
  ((a1 <? b1) || (a1 =? b1) && ((a2 <? b2) || (a2 =? b2) && (a3 <? b3)))%Z.

Definition key_eqb (a b : Z * Z * Z) : bool :=
  let '(a1, a2, a3) := a in
  let '(b1, b2, b3) := b in
  ((a1 =? b1) && (a2 =? b2) && (a3 =? b3))%Z.

(* ================================================================== *)
(** * The scenario generator of [property_profiles.py] *)
(* ================================================================== *)

(** [profile['heat_pump_specs']], [profile['performance_data']] and
    [profile['property_details']]: the keys that
    [generate_scenarios_from_profile] or the explainer read. *)
Record HeatPumpSpecs : Type := {
  hp_brand : option str;
  hp_model : option str;
  hp_size_kw : option float
}.

Record PerformanceData : Type := {
  pf_annual_spf : option float;
  pf_mean_flow_temp : option float;
  pf_winter_flow_temp : option float;
  pf_coldest_day_cop : option float;
  pf_coldest_day_outdoor_temp : option float
}.

Record PropertyDetailsOf : Type := {
  pd_house_type : option str
}.

(** The profile dict [create_profile] builds.  The keys nobody reads after it
    is built (profile_name, house_age, postcode_area, type, refrigerant,
    typical_cop_range, energy_consumption) are left out. *)
Record PropertyProfile : Type := {
  property_id : option str;
  pp_property_details : option PropertyDetailsOf;
  pp_heat_pump_specs : option HeatPumpSpecs;
  pp_performance_data : option PerformanceData
}.

(** What the explainer reads in a profile: its nested [get]s. *)
Definition profile_view (profile : PropertyProfile) : Profile :=
  {| house_type :=
       match pp_property_details profile with
       | Some pd => pd_house_type pd
       | None => None
       end;
     brand :=
       match pp_heat_pump_specs profile with
       | Some hp => hp_brand hp
       | None => None
       end;
     model :=
       match pp_heat_pump_specs profile with
       | Some hp => hp_model hp
       | None => None
       end;
     size_kw :=
       match pp_heat_pump_specs profile with
       | Some hp => hp_size_kw hp
       | None => None
       end;
     annual_spf :=
       match pp_performance_data profile with
       | Some pf => pf_annual_spf pf
       | None => None
       end |}.

(** The keys of a generated [data] dict that the explainer never reads. *)
Record UnreadData : Type := {
  grid_carbon_intensity : option Z;
  mode : option str;
  forecast_time : option str;
  return_temp : option float
}.

(** One generated scenario, a dict with the keys [id], [name],
    [property_profile], [timestamp], [event_type] and [data]; of [data], the
    keys the explainer reads are a [Snapshot] and the others are
    [unread_data]. *)
Record GeneratedScenario : Type := {
  scenario_id : str;
  g_name : str;
  g_property_profile : PropertyProfile;
  g_timestamp : str;
  event_type : str;
  g_data : Snapshot;
  unread_data : UnreadData
}.

(** A generated scenario as [analyze_scenario] reads it. *)
Definition as_scenario (g : GeneratedScenario) : Scenario :=
  {| name := Some (g_name g);
     timestamp := Some (g_timestamp g);
     data := Some (g_data g);
     property_profile := Some (profile_view (g_property_profile g)) |}.

(** [max(a, b)] on floats: [b] when [b > a], else [a]. *)
Definition py_max (a b : float) : float := if a <? b then b else a.

(** The five dict displays of [generate_scenarios_from_profile], with the
    values they read from the profile. *)

(** Scenario 1: Tariff Optimization (Night heating). *)
Definition scenario_tariff_opt (profile : PropertyProfile) (pid : str)
    (size spf winter_flow : float) : GeneratedScenario :=
  {| scenario_id := pid ++ lit "_tariff_opt";
     g_name := lit "Early Morning Heating on Cheap Tariff";
     g_property_profile := profile;
     g_timestamp := lit "2024-01-15T02:30:00";
     event_type := lit "tariff_optimization";
     g_data :=
       {| indoor_temp := Some 19.2;
          target_temp := Some 20.0;
          outdoor_temp := Some (-3.0);
          heat_pump_status := Some (lit "heating");
          power_consumption_kw := Some (size * 0.3);
          cop := Some (spf - 0.2);
          flow_temp := Some winter_flow;
          electricity_price_current := Some 0.08;
          electricity_price_peak := Some 0.28;
          vpp_signal := Some None;
          weather_forecast_temp := None |};
     unread_data :=
       {| grid_carbon_intensity := Some 150%Z; mode := Some (lit "heating");
          forecast_time := None; return_temp := None |} |}.

(** Scenario 2: VPP Demand Response. *)
Definition scenario_vpp (profile : PropertyProfile) (pid : str)
    (size spf mean_flow : float) : GeneratedScenario :=
  {| scenario_id := pid ++ lit "_vpp";
     g_name := lit "Grid Demand Response (Peak Period)";
     g_property_profile := profile;
     g_timestamp := lit "2024-01-15T18:15:00";
     event_type := lit "vpp_curtailment";
     g_data :=
       {| indoor_temp := Some 19.1;
          target_temp := Some 20.0;
          outdoor_temp := Some 4.0;
          heat_pump_status := Some (lit "reduced");
          power_consumption_kw := Some (size * 0.15);
          cop := Some (spf + 0.3);
          flow_temp := Some mean_flow;
          electricity_price_current := Some 0.32;
          electricity_price_peak := None;
          vpp_signal := Some (Some (lit "reduce_50%"));
          weather_forecast_temp := None |};
     unread_data :=
       {| grid_carbon_intensity := Some 420%Z; mode := Some (lit "heating");
          forecast_time := None; return_temp := None |} |}.

(** Scenario 3: Coldest Day Performance. *)
Definition scenario_cold_day (profile : PropertyProfile) (pid : str)
    (size winter_flow coldest_outdoor coldest_cop : float) : GeneratedScenario :=
  {| scenario_id := pid ++ lit "_cold_day";
     g_name := lit "Cold Weather Performance";
     g_property_profile := profile;
     g_timestamp := lit "2024-01-20T08:00:00";
     event_type := lit "normal_winter_behavior";
     g_data :=
       {| indoor_temp := Some 19.8;
          target_temp := Some 20.0;
          outdoor_temp := Some coldest_outdoor;
          heat_pump_status := Some (lit "heating");
          power_consumption_kw := Some (size * 0.5);
          cop := Some coldest_cop;
          flow_temp := Some (winter_flow + 2);
          electricity_price_current := Some 0.15;
          electricity_price_peak := None;
          vpp_signal := None;
          weather_forecast_temp := None |};
     unread_data :=
       {| grid_carbon_intensity := None; mode := Some (lit "heating");
          forecast_time := None; return_temp := None |} |}.

(** Scenario 4: Predictive Pre-heating. *)
Definition scenario_predictive (profile : PropertyProfile) (pid : str)
    (size spf mean_flow : float) : GeneratedScenario :=
  {| scenario_id := pid ++ lit "_predictive";
     g_name := lit "Pre-heating Before Cold Snap";
     g_property_profile := profile;
     g_timestamp := lit "2024-01-16T14:00:00";
     event_type := lit "predictive_heating";
     g_data :=
       {| indoor_temp := Some 21.2;
          target_temp := Some 20.0;
          outdoor_temp := Some 2.0;
          heat_pump_status := Some (lit "heating");
          power_consumption_kw := Some (size * 0.3);
          cop := Some (spf + 0.5);
          flow_temp := Some mean_flow;
          electricity_price_current := None;
          electricity_price_peak := None;
          vpp_signal := None;
          weather_forecast_temp := Some (-8.0) |};
     unread_data :=
       {| grid_carbon_intensity := None; mode := Some (lit "heating");
          forecast_time := Some (lit "tonight 22:00");
          return_temp := None |} |}.

(** Scenario 5: Potential Issue (Low COP). *)
Definition scenario_low_cop (profile : PropertyProfile) (pid : str)
    (size spf mean_flow : float) : GeneratedScenario :=
  {| scenario_id := pid ++ lit "_low_cop";
     g_name := lit "Lower Than Expected Efficiency";
     g_property_profile := profile;
     g_timestamp := lit "2024-01-22T10:30:00";
     event_type := lit "potential_fault";
     g_data :=
       {| indoor_temp := Some 18.5;
          target_temp := Some 20.0;
          outdoor_temp := Some 3.0;
          heat_pump_status := Some (lit "heating");
          power_consumption_kw := Some (size * 0.45);
          cop := Some (py_max 1.4 (spf - 1.5));
          flow_temp := Some (mean_flow + 5);
          electricity_price_current := Some 0.15;
          electricity_price_peak := None;
          vpp_signal := None;
          weather_forecast_temp := None |};
     unread_data :=
       {| grid_carbon_intensity := None; mode := Some (lit "heating");
          forecast_time := None; return_temp := Some mean_flow |} |}.

(** [generate_scenarios_from_profile].  The five dict displays are evaluated
    in order, and each from left to right: a key of the profile is looked up
    with [require] where it is first read, and read again afterwards without
    a check, since the profile is not modified in between. *)
Definition generate_scenarios_from_profile (profile : PropertyProfile)
  : result (list GeneratedScenario) :=
  pid <- require "property_id" (property_id profile) ;;
  specs <- require "heat_pump_specs" (pp_heat_pump_specs profile) ;;
  size <- require "size_kw" (hp_size_kw specs) ;;
  perf <- require "performance_data" (pp_performance_data profile) ;;
  spf <- require "annual_spf" (pf_annual_spf perf) ;;
  winter_flow <- require "winter_flow_temp" (pf_winter_flow_temp perf) ;;
  mean_flow <- require "mean_flow_temp" (pf_mean_flow_temp perf) ;;
  coldest_outdoor <-
    require "coldest_day_outdoor_temp" (pf_coldest_day_outdoor_temp perf) ;;
  coldest_cop <- require "coldest_day_cop" (pf_coldest_day_cop perf) ;;
  Ok [scenario_tariff_opt profile pid size spf winter_flow;
      scenario_vpp profile pid size spf mean_flow;
      scenario_cold_day profile pid size winter_flow coldest_outdoor coldest_cop;
      scenario_predictive profile pid size spf mean_flow;
      scenario_low_cop profile pid size spf mean_flow].

(* ================================================================== *)
(** * The scenario catalogue and its grouping in [app.py] *)
(* ================================================================== *)

(** The loop of the main program of [property_profiles.py]:
    [all_scenarios.extend(generate_scenarios_from_profile(profile))] for
    every profile, in order. *)
Definition extend_scenarios (acc : result (list GeneratedScenario))
    (profile : PropertyProfile) : result (list GeneratedScenario) :=
  all_scenarios <- acc ;;
  scenarios <- generate_scenarios_from_profile profile ;;
  Ok (all_scenarios ++ scenarios).

Definition all_scenarios (profiles : list PropertyProfile)
  : result (list GeneratedScenario) :=
  fold_left extend_scenarios profiles (Ok []).

(** [scenarios_by_property[prop_id].append(scenario)], the key being given
    the empty list first when it is not in the dict.  A dict keeps its keys
    in the order in which they were inserted. *)
Fixpoint append_to_group (prop_id : str) (scenario : GeneratedScenario)
    (groups : list (str * list GeneratedScenario))
  : list (str * list GeneratedScenario) :=
  match groups with
  | [] => [(prop_id, [scenario])]
  | (k, l) :: rest =>
    if str_eqb k prop_id then (k, l ++ [scenario]) :: rest
    else (k, l) :: append_to_group prop_id scenario rest
  end.

(** One turn of the loop "Group scenarios by property" of [app.py]. *)
Definition group_scenario (acc : result (list (str * list GeneratedScenario)))
    (scenario : GeneratedScenario)
  : result (list (str * list GeneratedScenario)) :=
  scenarios_by_property <- acc ;;
  prop_id <- require "property_id" (property_id (g_property_profile scenario)) ;;
  Ok (append_to_group prop_id scenario scenarios_by_property).

Definition scenarios_by_property (scenarios : list GeneratedScenario)
  : result (list (str * list GeneratedScenario)) :=
  fold_left group_scenario scenarios (Ok []).

(** [next(s for s in property_scenarios if s['name'] == name)]; [None] stands
    for [StopIteration]. *)
Definition select_scenario (property_scenarios : list GeneratedScenario)
    (selected_scenario_name : str) : option GeneratedScenario :=
  find (fun s => str_eqb (g_name s) selected_scenario_name) property_scenarios.

(** The scenario belongs to the property [k]. *)
Definition has_property (k : str) (g : GeneratedScenario) : bool :=
  match property_id (g_property_profile g) with
  | Some k' => str_eqb k' k
  | None => false
  end.

(** What the grouping loop keeps true: the keys are distinct, every list is
    the scenarios seen so far that belong to its key, in their order, and is
    not empty, and every scenario seen has its key among the keys. *)
Definition grouped (seen : list GeneratedScenario)
    (groups : list (str * list GeneratedScenario)) : Prop :=
  NoDup (List.map fst groups)
  /\ (forall k l, In (k, l) groups ->
        l <> [] /\ l = filter (has_property k) seen)
  /\ (forall g, In g seen ->
        exists k, property_id (g_property_profile g) = Some k
                  /\ In k (List.map fst groups)).

(* ================================================================== *)
(** * More sample scenarios, profiles and clients *)
(* ================================================================== *)

(** A reading classified [temperature_deficit]: 17.0 degrees inside while
    heating. *)
Definition deficit_scenario : Scenario :=
  scenario_at (Some (lit "2024-01-16T14:00:00"))
    {| indoor_temp := Some 17.0; target_temp := Some 20.0;
       outdoor_temp := Some 5.0; heat_pump_status := Some (lit "heating");
       power_consumption_kw := Some 2.5; cop := Some 3.0;
       flow_temp := None; electricity_price_current := None;
       electricity_price_peak := None; vpp_signal := None;
       weather_forecast_temp := None |}.

(** A reading without [outdoor_temp]. *)
Definition no_outdoor_scenario : Scenario :=
  scenario_at None
    {| indoor_temp := Some 19.2; target_temp := None; outdoor_temp := None;
       heat_pump_status := None; power_consumption_kw := Some 2.1;
       cop := Some 3.0;
       flow_temp := None; electricity_price_current := None;
       electricity_price_peak := None; vpp_signal := None;
       weather_forecast_temp := None |}.

(** A reading on a cheap rate, without a timestamp. *)
Definition cheap_undated_scenario : Scenario :=
  scenario_at None
    (with_prices (with_required 19.2 (-3.0) 3.0 2.1) (Some 0.08) (Some 0.28)).

(** A client that answers every call with one short sentence. *)
Definition terse_client : client := fun _ _ => Reply (lit "All is well.").

(** A profile with a 7.0 kW heat pump and a seasonal performance factor of
    2.8. *)
Definition sample_profile : PropertyProfile :=
  {| property_id := Some (lit "EOH0001");
     pp_property_details := Some {| pd_house_type := Some (lit "Semi-detached") |};
     pp_heat_pump_specs :=
       Some {| hp_brand := Some (lit "Acme"); hp_model := Some (lit "A7");
               hp_size_kw := Some 7.0 |};
     pp_performance_data :=
       Some {| pf_annual_spf := Some 2.8; pf_mean_flow_temp := Some 40.0;
               pf_winter_flow_temp := Some 42.0;
               pf_coldest_day_cop := Some 2.0;
               pf_coldest_day_outdoor_temp := Some (-5.0) |} |}.

(** The same profile without its performance data. *)
Definition bare_profile : PropertyProfile :=
  {| property_id := Some (lit "EOH0002");
     pp_property_details := None;
     pp_heat_pump_specs :=
       Some {| hp_brand := None; hp_model := None; hp_size_kw := Some 7.0 |};
     pp_performance_data := None |}.

(** A second profile, of another property. *)
Definition second_profile : PropertyProfile :=
  {| property_id := Some (lit "EOH0007");
     pp_property_details := Some {| pd_house_type := Some (lit "Detached") |};
     pp_heat_pump_specs :=
       Some {| hp_brand := Some (lit "Acme"); hp_model := Some (lit "A16");
               hp_size_kw := Some 16.0 |};
     pp_performance_data :=
       Some {| pf_annual_spf := Some 3.2; pf_mean_flow_temp := Some 38.0;
               pf_winter_flow_temp := Some 41.0;
               pf_coldest_day_cop := Some 2.4;
               pf_coldest_day_outdoor_temp := Some (-4.0) |} |}.

(* ================================================================== *)
(** * The model of Python's numbers and strings on known values *)
(* ================================================================== *)

Example repr_float_values :
  repr_float 0.1 = lit "0.1" /\ repr_float (-3.0) = lit "-3.0"
  /\ repr_float 19.2 = lit "19.2" /\ repr_float 1e16 = lit "1e+16"
  /\ repr_float 0.00001 = lit "1e-05"
  /\ repr_float ((0.28 - 0.08) * 2.1 * 3) = lit "1.2600000000000002".
Proof. repeat split; vm_compute; reflexivity. Qed.

(** Values halfway between two shortest decimals: the even last digit. *)
Example repr_float_ties :
  repr_float 0x1.3000300000000p+4 = lit "19.000045776367188"
  /\ repr_float 19.200057983398438 = lit "19.200057983398438"
  /\ repr_float 97130489237338.88 = lit "97130489237338.88"
  /\ repr_float 0x1.0000000000002p+3 = lit "8.000000000000004".
Proof. repeat split; vm_compute; reflexivity. Qed.

Example format_f_values :
  format_f 1 0.25 = lit "0.2" /\ format_f 1 0.35 = lit "0.3"
  /\ format_f 2 1.005 = lit "1.00" /\ format_f 2 0.125 = lit "0.12"
  /\ format_f 1 (-0.04) = lit "-0.0" /\ format_f 2 2.1 = lit "2.10".
Proof. repeat split; vm_compute; reflexivity. Qed.

Example py_round_values :
  py_round 2.675 2 = 2.67 /\ py_round 0.125 2 = 0.12
  /\ py_round 1.2600000000000002 2 = 1.26 /\ py_round 0.8 1 = 0.8
  /\ py_round (-0.30000000000000004) 2 = (-0.3)%float.
Proof. repeat split; vm_compute; reflexivity. Qed.

Example py_int_values :
  py_int (lit "02") = Ok 2%Z /\ py_int (lit " 7") = Ok 7%Z
  /\ py_int (lit "-1") = Ok (-1)%Z /\ py_int [] = Err ValueError
  /\ py_int (lit "T0") = Err ValueError
  /\ py_int (lit "1_0") = Ok 10%Z /\ py_int (lit "1__0") = Err ValueError
  (* ARABIC-INDIC DIGIT ONE, FULLWIDTH DIGIT SEVEN *)
  /\ py_int [1633%N; 65303%N] = Ok 17%Z
  (* SUPERSCRIPT TWO is no decimal digit *)
  /\ py_int [178%N] = Err ValueError.
Proof. repeat split; vm_compute; reflexivity. Qed.

Example split_strip_title_values :
  split (lit "  saved  1.20 today ") = [lit "saved"; lit "1.20"; lit "today"]
  /\ strip (lit "  ok. ") = lit "ok."
  /\ title (lit "tariff optimization") = lit "Tariff Optimization".
Proof. repeat split; vm_compute; reflexivity. Qed.

(** Section 8, COP banding boundary. *)
Example interpret_cop_boundary :
  _interpret_cop 3.0 = lit "Good efficiency"
  /\ _interpret_cop 2.9999 = lit "Moderate efficiency".
Proof. split; vm_compute; reflexivity. Qed.

(* ================================================================== *)
(** * Facts about strings and lookups *)
(* ================================================================== *)

Arguments lit : simpl never.
Arguments repr_float : simpl never.
Arguments format_f : simpl never.
Arguments py_round : simpl never.
Arguments py_int : simpl never.
Arguments isspace : simpl never.

Lemma str_eqb_eq (a b : str) : str_eqb a b = true <-> a = b.
Proof.
  revert b; induction a as [|x a IH]; intros [|y b]; simpl; split;
    try congruence; try reflexivity.
  - intros H. apply andb_true_iff in H as [Hxy Hab].
    apply N.eqb_eq in Hxy. apply IH in Hab. congruence.
  - intros H. injection H as -> ->. apply andb_true_iff. split.
    + apply N.eqb_refl.
    + now apply IH.
Qed.

Lemma str_eqb_refl (a : str) : str_eqb a a = true.
Proof. now apply str_eqb_eq. Qed.

Lemma str_eqb_neq (a b : str) : str_eqb a b = false -> a <> b.
Proof.
  intros H E. apply str_eqb_eq in E. congruence.
Qed.

(** Two different literals are different strings. *)
Ltac lit_neq :=
  apply str_eqb_neq; vm_compute; reflexivity.

Ltac lit_absurd H :=
  apply str_eqb_eq in H; vm_compute in H; discriminate H.

Lemma dict_get_cases {V : Type} (d : list (str * V)) (key : str) (default : V) :
  (dict_get d key default = default /\ ~ In key (List.map fst d))
  \/ In (key, dict_get d key default) d.
Proof.
  induction d as [|[k v] d IH]; simpl.
  - left. split; [reflexivity | tauto].
  - destruct (str_eqb k key) eqn:E.
    + right. left. apply str_eqb_eq in E. now subst.
    + destruct IH as [[H1 H2] | H].
      * left. split; [assumption|].
        intros [H | H]; [|tauto]. apply str_eqb_neq in E. contradiction.
      * right. now right.
Qed.

(* ================================================================== *)
(** * The classifier *)
(* ================================================================== *)

Section Classifier.

Variables (sd : Scenario) (d : Snapshot) (indoor outdoor c power : float).
Hypothesis Hdata : data sd = Some d.
Hypothesis Hindoor : indoor_temp d = Some indoor.
Hypothesis Houtdoor : outdoor_temp d = Some outdoor.
Hypothesis Hcop : cop d = Some c.
Hypothesis Hpower : power_consumption_kw d = Some power.

(** With its required fields read, [detect_pattern] is its rule cascade. *)
Lemma detect_pattern_rules :
  detect_pattern sd =
  pattern_detection_logic sd d indoor (get (target_temp d) 20.0) outdoor c power.
Proof using Hdata Hindoor Houtdoor Hcop Hpower.
  unfold detect_pattern.
  rewrite Hdata. cbn [bind require].
  rewrite Hindoor. cbn [bind require].
  rewrite Houtdoor. cbn [bind require].
  rewrite Hcop. cbn [bind require].
  rewrite Hpower. cbn [bind require].
  reflexivity.
Qed.

End Classifier.

Lemma find_lowest {A : Type} (f : A -> bool) (l : list A) (k : nat) (a : A) :
  nth_error l k = Some a -> f a = true ->
  (forall j b, (j < k)%nat -> nth_error l j = Some b -> f b = false) ->
  find f l = Some a.
Proof.
  revert k; induction l as [|x l IH]; intros [|k]; simpl; try discriminate.
  - intros E Fa _. injection E as ->. now rewrite Fa.
  - intros E Fa Hlt.
    rewrite (Hlt O x) by (simpl; auto; lia).
    apply (IH k E Fa). intros j b Hj Hb. apply (Hlt (S j) b); [lia|exact Hb].
Qed.

Lemma find_nowhere {A : Type} (f : A -> bool) (l : list A) :
  (forall a, In a l -> f a = false) -> find f l = None.
Proof.
  induction l as [|x l IH]; simpl; intros H; [reflexivity|].
  rewrite (H x) by now left. apply IH. intros a Ha. apply H. now right.
Qed.

(** The cascade of [detect_pattern] computes the first match of the table.
    The hour is read only when none of the three anomaly rules applies. *)
Lemma detect_pattern_table_early (sd : Scenario) (d : Snapshot)
    (indoor outdoor c power : float) (h : Z) :
  data sd = Some d -> indoor_temp d = Some indoor ->
  outdoor_temp d = Some outdoor -> cop d = Some c ->
  power_consumption_kw d = Some power ->
  anomaly_rule_fires d indoor outdoor c power = true \/ hour_of sd = Ok h ->
  exists p, detect_pattern sd = Ok p
            /\ pattern_type p
               = classify_by_table (extracted d indoor outdoor c power h).
Proof.
  intros Hd Hi Ho Hc Hp H.
  rewrite (detect_pattern_rules sd d indoor outdoor c power Hd Hi Ho Hc Hp).
  unfold pattern_detection_logic.
  unfold status_is_heating, truthy_signal, forecast_cold_snap, truthy.
  unfold classify_by_table, first_match, rule_table. cbn [find fst snd].
  unfold anomaly_rule_fires in H.
  unfold rule1, rule2, rule3, rule4, rule5, rule6, rule7, extracted in *.
  cbn [x_data x_indoor_temp x_target_temp x_outdoor_temp x_cop x_power_kw x_hour]
    in *.
  change (3.0 * 1.5) with 4.5.
  destruct ((c <? 1.8) && (0 <? outdoor)); [eexists; split; reflexivity|].
  destruct ((indoor <? get (target_temp d) 20.0 - 2.0)
            && match heat_pump_status d with
               | Some s => str_eqb s (lit "heating")
               | None => false
               end);
    [eexists; split; reflexivity|].
  cbv zeta.
  destruct (4.5 <? power); [eexists; split; reflexivity|].
  destruct H as [H | Hh]; [discriminate H|].
  rewrite Hh. cbn [bind].
  repeat match goal with
  | |- context [if ?b then Ok _ else _] =>
      destruct b; [eexists; split; reflexivity|]
  end.
  eexists; split; reflexivity.
Qed.

Lemma detect_pattern_table (sd : Scenario) (d : Snapshot)
    (indoor outdoor c power : float) (h : Z) :
  data sd = Some d -> indoor_temp d = Some indoor ->
  outdoor_temp d = Some outdoor -> cop d = Some c ->
  power_consumption_kw d = Some power -> hour_of sd = Ok h ->
  exists p, detect_pattern sd = Ok p
            /\ pattern_type p
               = classify_by_table (extracted d indoor outdoor c power h).
Proof.
  intros Hd Hi Ho Hc Hp Hh.
  apply (detect_pattern_table_early sd d indoor outdoor c power h Hd Hi Ho Hc Hp).
  right. exact Hh.
Qed.

(** The two tables give the same answer on a reading whose grid signal is
    absent or a non-empty string and whose forecast is absent or not zero. *)
Lemma classify_by_spec_agrees (x : Extracted) :
  (vpp_signal (x_data x) = None
   \/ exists s, vpp_signal (x_data x) = Some (Some s) /\ s <> []) ->
  (weather_forecast_temp (x_data x) = None
   \/ exists w, weather_forecast_temp (x_data x) = Some w /\ (w =? 0) = false) ->
  classify_by_table x = classify_by_spec x.
Proof.
  intros Hv Hw.
  assert (E5 : rule5 x = spec_rule5 x).
  { unfold rule5, spec_rule5.
    destruct Hv as [-> | (s & -> & Hs)]; [reflexivity|].
    destruct s; [congruence|reflexivity]. }
  assert (E6 : rule6 x = spec_rule6 x).
  { unfold rule6, spec_rule6.
    destruct Hw as [-> | (w & -> & Hz)]; [reflexivity|].
    rewrite Hz. reflexivity. }
  unfold classify_by_table, classify_by_spec, first_match, rule_table,
    spec_rule_table.
  cbn [find fst snd]. rewrite E5, E6.
  destruct (rule1 x); [reflexivity|]. destruct (rule2 x); [reflexivity|].
  destruct (rule3 x); [reflexivity|]. destruct (rule4 x); [reflexivity|].
  destruct (spec_rule5 x); [reflexivity|].
  destruct (spec_rule6 x); [reflexivity|].
  destruct (rule7 x); reflexivity.
Qed.

(** C1, as the code has it.  The classifier evaluates its rules in order and
    the first predicate that holds decides, rule 5 asking for a grid signal
    that is present and a non-empty string and rule 6 for a forecast that is
    present and not zero: on a scenario whose four required fields are
    present and whose hour can be read (or on which one of the three anomaly
    rules, tried before the hour is read, applies), [detect_pattern] returns
    a classification whose pattern_type is that of the lowest-numbered rule
    of the table whose predicate holds, and [normal_operation] when none
    holds; in particular a reading on which both the rule-1 predicate and the
    rule-4 predicate hold is classified [efficiency_anomaly] and not
    [tariff_optimization].  On a reading whose grid signal is absent or
    non-empty and whose forecast is absent or not zero this is the first
    match of the rule list as section 4.1 of the specification words it. *)
Theorem detect_pattern_first_match :
  forall (sd : Scenario) (d : Snapshot) (indoor outdoor c power : float) (h : Z),
    data sd = Some d -> indoor_temp d = Some indoor ->
    outdoor_temp d = Some outdoor -> cop d = Some c ->
    power_consumption_kw d = Some power ->
    anomaly_rule_fires d indoor outdoor c power = true \/ hour_of sd = Ok h ->
    exists p, detect_pattern sd = Ok p
      /\ (forall k pred pt,
             nth_error rule_table k = Some (pred, pt) ->
             pred (extracted d indoor outdoor c power h) = true ->
             (forall j pred' pt', (j < k)%nat ->
                nth_error rule_table j = Some (pred', pt') ->
                pred' (extracted d indoor outdoor c power h) = false) ->
             pattern_type p = pt)
      /\ ((forall pred pt, In (pred, pt) rule_table ->
             pred (extracted d indoor outdoor c power h) = false) ->
          pattern_type p = lit "normal_operation")
      /\ (rule1 (extracted d indoor outdoor c power h) = true ->
          rule4 (extracted d indoor outdoor c power h) = true ->
          pattern_type p = lit "efficiency_anomaly"
          /\ pattern_type p <> lit "tariff_optimization")
      /\ ((vpp_signal d = None
           \/ exists s, vpp_signal d = Some (Some s) /\ s <> []) ->
          (weather_forecast_temp d = None
           \/ exists w, weather_forecast_temp d = Some w /\ (w =? 0) = false) ->
          pattern_type p
          = classify_by_spec (extracted d indoor outdoor c power h)).
Proof.
  intros sd d indoor outdoor c power h Hd Hi Ho Hc Hp Hh.
  destruct (detect_pattern_table_early sd d indoor outdoor c power h
              Hd Hi Ho Hc Hp Hh) as (p & Hdet & Hpt).
  exists p. split; [exact Hdet|].
  set (x := extracted d indoor outdoor c power h) in *.
  assert (Hlow : forall k pred pt,
             nth_error rule_table k = Some (pred, pt) ->
             pred x = true ->
             (forall j pred' pt', (j < k)%nat ->
                nth_error rule_table j = Some (pred', pt') ->
                pred' x = false) ->
             pattern_type p = pt).
  { intros k pred pt Hk Hpred Hbefore.
    rewrite Hpt. unfold classify_by_table, first_match.
    rewrite (find_lowest (fun r => fst r x) rule_table k (pred, pt) Hk Hpred).
    - reflexivity.
    - intros j [pred' pt'] Hj Hnth. exact (Hbefore j pred' pt' Hj Hnth). }
  split; [exact Hlow|]. split; [|split].
  - intros Hnone. rewrite Hpt. unfold classify_by_table, first_match.
    rewrite find_nowhere; [reflexivity|].
    intros [pred pt] Hin. exact (Hnone pred pt Hin).
  - intros H1 _.
    assert (E : pattern_type p = lit "efficiency_anomaly").
    { apply (Hlow O rule1 (lit "efficiency_anomaly") eq_refl H1).
      intros j pred' pt' Hj. lia. }
    split; [exact E|]. rewrite E. lit_neq.
  - intros Hv Hw. rewrite Hpt. apply classify_by_spec_agrees.
    + exact Hv.
    + exact Hw.
Qed.

Lemma detect_pattern_first_match_witness :
  exists p, detect_pattern priority_scenario = Ok p
            /\ pattern_type p = lit "efficiency_anomaly"
            /\ pattern_type p <> lit "tariff_optimization"
            /\ hour_of priority_scenario = Ok 2%Z
            /\ classify_by_spec
                 (extracted
                    (with_prices (with_required 19.0 3.0 1.5 2.0)
                       (Some 0.08) (Some 0.28))
                    19.0 3.0 1.5 2.0 2%Z)
               = pattern_type p.
Proof.
  destruct (detect_pattern_first_match priority_scenario
              (with_prices (with_required 19.0 3.0 1.5 2.0) (Some 0.08) (Some 0.28))
              19.0 3.0 1.5 2.0 2%Z
              eq_refl eq_refl eq_refl eq_refl eq_refl (or_intror eq_refl))
    as (p & Hdet & _ & _ & Hprio & Hspec).
  exists p. split; [exact Hdet|].
  destruct Hprio as [E N]; [vm_compute; reflexivity | vm_compute; reflexivity|].
  split; [exact E|]. split; [exact N|]. split; [reflexivity|].
  symmetry. apply Hspec; left; reflexivity.
Defined.

(** C1 does not hold with rules 5 and 6 as section 4.1 words them.  On a
    daytime reading with an empty grid signal, 19.0 degrees inside and the
    default target, rules 1 to 4 do not hold and rule 5 ("vpp_signal present
    and indoor_temp < target_temp") does, yet the classification is
    [normal_operation]; on a reading with a forecast of 0.0 degrees and 6.0
    degrees outside, rules 1 to 5 do not hold and rule 6 does, yet the
    classification is [normal_operation].  And on a reading on which no rule
    holds but whose timestamp is a date only, there is no classification. *)
Lemma first_match_by_presence_counterexample :
  (exists p,
      hour_of falsy_signals_scenario = Ok 14%Z
      /\ nth_error spec_rule_table 4 = Some (spec_rule5, lit "vpp_curtailment")
      /\ spec_rule5
           (extracted
              (with_signals (with_required 19.0 6.0 3.0 2.1) (Some (Some []))
                 (Some 0.0))
              19.0 6.0 3.0 2.1 14%Z) = true
      /\ (forall j pred pt, (j < 4)%nat ->
            nth_error spec_rule_table j = Some (pred, pt) ->
            pred (extracted
                    (with_signals (with_required 19.0 6.0 3.0 2.1)
                       (Some (Some [])) (Some 0.0))
                    19.0 6.0 3.0 2.1 14%Z) = false)
      /\ classify_by_spec
           (extracted
              (with_signals (with_required 19.0 6.0 3.0 2.1) (Some (Some []))
                 (Some 0.0))
              19.0 6.0 3.0 2.1 14%Z) = lit "vpp_curtailment"
      /\ detect_pattern falsy_signals_scenario = Ok p
      /\ pattern_type p = lit "normal_operation"
      /\ pattern_type p <> lit "vpp_curtailment")
  /\ (exists p,
      hour_of zero_forecast_scenario = Ok 14%Z
      /\ nth_error spec_rule_table 5 = Some (spec_rule6, lit "predictive_heating")
      /\ spec_rule6
           (extracted
              (with_signals (with_required 20.5 6.0 3.0 2.1) None (Some 0.0))
              20.5 6.0 3.0 2.1 14%Z) = true
      /\ (forall j pred pt, (j < 5)%nat ->
            nth_error spec_rule_table j = Some (pred, pt) ->
            pred (extracted
                    (with_signals (with_required 20.5 6.0 3.0 2.1) None
                       (Some 0.0))
                    20.5 6.0 3.0 2.1 14%Z) = false)
      /\ classify_by_spec
           (extracted
              (with_signals (with_required 20.5 6.0 3.0 2.1) None (Some 0.0))
              20.5 6.0 3.0 2.1 14%Z) = lit "predictive_heating"
      /\ detect_pattern zero_forecast_scenario = Ok p
      /\ pattern_type p = lit "normal_operation"
      /\ pattern_type p <> lit "predictive_heating")
  /\ ((forall h pred pt, In (pred, pt) spec_rule_table ->
          pred (extracted (with_required 19.2 4.0 3.0 2.1)
                  19.2 4.0 3.0 2.1 h) = false)
      /\ data date_only_scenario = Some (with_required 19.2 4.0 3.0 2.1)
      /\ hour_of date_only_scenario = Err ValueError
      /\ detect_pattern date_only_scenario = Err ValueError).
Proof.
  split; [|split].
  - eexists.
    split; [vm_compute; reflexivity|]. split; [reflexivity|].
    split; [vm_compute; reflexivity|]. split.
    { intros j pred pt Hj Hnth.
      destruct j as [|[|[|[|j]]]]; [| | | |lia];
        cbn [nth_error spec_rule_table] in Hnth; injection Hnth as <- <-;
        vm_compute; reflexivity. }
    split; [vm_compute; reflexivity|].
    split; [vm_compute; reflexivity|].
    split; [vm_compute; reflexivity|].
    apply str_eqb_neq. vm_compute. reflexivity.
  - eexists.
    split; [vm_compute; reflexivity|]. split; [reflexivity|].
    split; [vm_compute; reflexivity|]. split.
    { intros j pred pt Hj Hnth.
      destruct j as [|[|[|[|[|j]]]]]; [| | | | |lia];
        cbn [nth_error spec_rule_table] in Hnth; injection Hnth as <- <-;
        vm_compute; reflexivity. }
    split; [vm_compute; reflexivity|].
    split; [vm_compute; reflexivity|].
    split; [vm_compute; reflexivity|].
    apply str_eqb_neq. vm_compute. reflexivity.
  - split; [|repeat split; vm_compute; reflexivity].
    intros h pred pt Hin. unfold spec_rule_table in Hin. cbn [In] in Hin.
    repeat (destruct Hin as [Hin | Hin];
            [injection Hin as <- <-;
             first [ vm_compute; reflexivity
                   | unfold rule4, extracted, with_required;
                     cbn [x_data x_hour electricity_price_current get];
                     apply andb_false_r ]|]).
    destruct Hin.
Qed.

(** The pattern_type the table returns names a rule whose predicate held. *)
Lemma classify_by_table_sound (x : Extracted) (pred : Extracted -> bool) (pt : str) :
  In (pred, pt) rule_table -> classify_by_table x = pt -> pred x = true.
Proof.
  unfold classify_by_table, first_match, rule_table. cbn [find fst snd In].
  intros Hin.
  destruct (rule1 x) eqn:R1; [|destruct (rule2 x) eqn:R2;
    [|destruct (rule3 x) eqn:R3; [|destruct (rule4 x) eqn:R4;
      [|destruct (rule5 x) eqn:R5; [|destruct (rule6 x) eqn:R6;
        [|destruct (rule7 x) eqn:R7]]]]]];
    intros E;
    repeat (destruct Hin as [Hin | Hin];
            [injection Hin as <- <-; first [assumption | lit_absurd E]|]);
    destruct Hin.
Qed.

Lemma tier_of_cases (pt : str) :
  (tier_of pt = lit "normal" \/ tier_of pt = lit "check"
   \/ tier_of pt = lit "fault")
  /\ (pt = lit "efficiency_anomaly" -> tier_of pt = lit "fault")
  /\ (pt = lit "temperature_deficit" \/ pt = lit "high_power_consumption" ->
      tier_of pt = lit "check")
  /\ (pt <> lit "efficiency_anomaly" -> pt <> lit "temperature_deficit" ->
      pt <> lit "high_power_consumption" -> tier_of pt = lit "normal").
Proof.
  unfold tier_of.
  destruct (str_eqb pt (lit "efficiency_anomaly")) eqn:E1.
  - apply str_eqb_eq in E1.
    split; [right; right; reflexivity|].
    split; [intros _; reflexivity|].
    split.
    + intros [H|H]; rewrite E1 in H; lit_absurd H.
    + congruence.
  - apply str_eqb_neq in E1.
    destruct (str_eqb pt (lit "temperature_deficit")) eqn:E2; cbn [orb].
    + apply str_eqb_eq in E2.
      split; [right; left; reflexivity|].
      split; [congruence|].
      split; [intros _; reflexivity|congruence].
    + apply str_eqb_neq in E2.
      destruct (str_eqb pt (lit "high_power_consumption")) eqn:E3.
      * apply str_eqb_eq in E3.
        split; [right; left; reflexivity|].
        split; [congruence|].
        split; [intros _; reflexivity|congruence].
      * apply str_eqb_neq in E3.
        split; [left; reflexivity|].
        split; [congruence|].
        split; [intros [H|H]; congruence|intros; reflexivity].
Qed.



(** A pattern_type the classifier returned names a rule whose predicate
    held. *)
Lemma detect_pattern_sound (sd : Scenario) (d : Snapshot)
    (indoor outdoor c power : float) (h : Z) (p : Pattern)
    (pred : Extracted -> bool) (pt : str) :
  data sd = Some d -> indoor_temp d = Some indoor ->
  outdoor_temp d = Some outdoor -> cop d = Some c ->
  power_consumption_kw d = Some power ->
  anomaly_rule_fires d indoor outdoor c power = true \/ hour_of sd = Ok h ->
  detect_pattern sd = Ok p ->
  In (pred, pt) rule_table -> pattern_type p = pt ->
  pred (extracted d indoor outdoor c power h) = true.
Proof.
  intros Hd Hi Ho Hc Hp Hh Hdet Hin Hpt.
  destruct (detect_pattern_table_early sd d indoor outdoor c power h
              Hd Hi Ho Hc Hp Hh) as (p' & Hdet' & Hpt').
  rewrite Hdet in Hdet'. injection Hdet' as <-.
  apply (classify_by_table_sound _ pred pt Hin). congruence.
Qed.

(** C10. The optional fields [vpp_signal] and [weather_forecast_temp] are
    tested by truth value, not by presence: when [vpp_signal] is present but
    [None] or the empty string the predicate of rule 5 is false and the
    classification is not [vpp_curtailment], whatever the temperatures; when
    [weather_forecast_temp] is present and equal to 0.0 the predicate of
    rule 6 is false and the classification is not [predictive_heating],
    whatever the outdoor temperature.  The classification is then the one the
    other rules give. *)
Theorem optional_fields_tested_by_truth_value :
  forall (sd : Scenario) (d : Snapshot) (indoor outdoor c power : float) (h : Z),
    data sd = Some d -> indoor_temp d = Some indoor ->
    outdoor_temp d = Some outdoor -> cop d = Some c ->
    power_consumption_kw d = Some power ->
    anomaly_rule_fires d indoor outdoor c power = true \/ hour_of sd = Ok h ->
    exists p, detect_pattern sd = Ok p
      /\ pattern_type p
         = classify_by_table (extracted d indoor outdoor c power h)
      /\ (vpp_signal d = Some None \/ vpp_signal d = Some (Some []) ->
          rule5 (extracted d indoor outdoor c power h) = false
          /\ pattern_type p <> lit "vpp_curtailment")
      /\ (forall w, weather_forecast_temp d = Some w -> (w =? 0) = true ->
          rule6 (extracted d indoor outdoor c power h) = false
          /\ pattern_type p <> lit "predictive_heating").
Proof.
  intros sd d indoor outdoor c power h Hd Hi Ho Hc Hp Hh.
  destruct (detect_pattern_table_early sd d indoor outdoor c power h
              Hd Hi Ho Hc Hp Hh) as (p & Hdet & Hpt).
  exists p. split; [exact Hdet|]. split; [exact Hpt|]. split.
  - intros Hv.
    assert (R : rule5 (extracted d indoor outdoor c power h) = false).
    { unfold rule5, extracted. cbn [x_data].
      destruct Hv as [-> | ->]; reflexivity. }
    split; [exact R|]. intros E.
    rewrite (detect_pattern_sound sd d indoor outdoor c power h p rule5
               (lit "vpp_curtailment") Hd Hi Ho Hc Hp Hh Hdet) in R.
    + discriminate R.
    + unfold rule_table. cbn [In]. do 4 right. left. reflexivity.
    + exact E.
  - intros w Hw Hz.
    assert (R : rule6 (extracted d indoor outdoor c power h) = false).
    { unfold rule6, extracted.
      cbn [x_data x_outdoor_temp]. rewrite Hw, Hz. reflexivity. }
    split; [exact R|]. intros E.
    rewrite (detect_pattern_sound sd d indoor outdoor c power h p rule6
               (lit "predictive_heating") Hd Hi Ho Hc Hp Hh Hdet) in R.
    + discriminate R.
    + unfold rule_table. cbn [In]. do 5 right. left. reflexivity.
    + exact E.
Qed.

Lemma optional_fields_tested_by_truth_value_witness :
  (* the predicates of the specification hold on this reading *)
  (19.0 <? 20.0) = true /\ (0.0 <? 6.0 - 5) = true
  /\ exists p, detect_pattern falsy_signals_scenario = Ok p
       /\ pattern_type p = lit "normal_operation"
       /\ pattern_type p <> lit "vpp_curtailment"
       /\ pattern_type p <> lit "predictive_heating".
Proof.
  split; [reflexivity|]. split; [reflexivity|].
  destruct (optional_fields_tested_by_truth_value falsy_signals_scenario
              (with_signals (with_required 19.0 6.0 3.0 2.1) (Some (Some []))
                 (Some 0.0))
              19.0 6.0 3.0 2.1 14%Z
              eq_refl eq_refl eq_refl eq_refl eq_refl (or_intror eq_refl))
    as (p & Hdet & Hpt & Hvpp & Hfc).
  exists p. split; [exact Hdet|]. split.
  - rewrite Hpt. vm_compute. reflexivity.
  - split.
    + apply Hvpp. right. reflexivity.
    + apply (Hfc 0.0); reflexivity.
Defined.

(** C3, as the code has it.  The triggers of rules 1, 2 and 3 are built from
    the values of the snapshot that satisfied the predicate (rule 1: cop to
    one decimal and outdoor_temp; rule 2: indoor_temp and the gap
    target_temp - indoor_temp to one decimal; rule 3: power_consumption_kw to
    one decimal); the trigger of rule 7 is built from outdoor_temp alone and
    does not show the cop, which its predicate also tests; the triggers of
    rules 4, 5, 6 and of the default are fixed texts. *)
Theorem trigger_by_rule :
  forall (sd : Scenario) (d : Snapshot) (indoor outdoor c power : float)
         (p : Pattern),
    data sd = Some d -> indoor_temp d = Some indoor ->
    outdoor_temp d = Some outdoor -> cop d = Some c ->
    power_consumption_kw d = Some power ->
    detect_pattern sd = Ok p ->
    (pattern_type p = lit "efficiency_anomaly" ->
       (c <? 1.8) = true /\ (0 <? outdoor) = true
       /\ trigger p = lit "COP of " ++ format_f 1 c
                      ++ lit " is unusually low for "
                      ++ repr_float outdoor ++ deg ++ lit "C")
    /\ (pattern_type p = lit "temperature_deficit" ->
       (indoor <? get (target_temp d) 20.0 - 2.0) = true
       /\ trigger p = lit "Indoor temp " ++ repr_float indoor
                      ++ deg ++ lit "C is "
                      ++ format_f 1 (get (target_temp d) 20.0 - indoor)
                      ++ deg ++ lit "C below target")
    /\ (pattern_type p = lit "high_power_consumption" ->
       (4.5 <? power) = true
       /\ trigger p = lit "Power usage " ++ format_f 1 power
                      ++ lit "kW exceeds typical range")
    /\ (pattern_type p = lit "cold_weather_operation" ->
       (outdoor <? 0) = true /\ (2.0 <=? c) = true /\ (c <? 2.8) = true
       /\ trigger p = lit "Normal efficiency for "
                      ++ repr_float outdoor ++ deg ++ lit "C weather")
    /\ (pattern_type p = lit "tariff_optimization" ->
       trigger p = lit "Operating during cheap-rate hours")
    /\ (pattern_type p = lit "vpp_curtailment" ->
       trigger p = lit "Grid demand response active")
    /\ (pattern_type p = lit "predictive_heating" ->
       trigger p = lit "Pre-heating before forecast cold snap")
    /\ (pattern_type p = lit "normal_operation" ->
       trigger p = lit "Standard heating operation").
Proof.
  intros sd d indoor outdoor c power p Hd Hi Ho Hc Hp Hdet.
  rewrite (detect_pattern_rules sd d indoor outdoor c power Hd Hi Ho Hc Hp) in Hdet.
  unfold pattern_detection_logic in Hdet.
  change (3.0 * 1.5) with 4.5 in Hdet.
  destruct (hour_of sd) as [h|e]; cbn [bind] in Hdet.
  all: repeat match type of Hdet with
       | (if ?b then _ else _) = _ => destruct b eqn:?
       end.
  all: try discriminate Hdet.
  all: injection Hdet as <-; cbn [pattern_type trigger].
  all: repeat match goal with
       | H : (_ && _) = true |- _ => apply andb_true_iff in H; destruct H
       end.
  all: repeat apply conj; intros E;
       first [ lit_absurd E
             | repeat apply conj;
               lazymatch goal with
               | |- _ = true => first [assumption | reflexivity]
               | |- _ => reflexivity
               end ].
Qed.

Lemma trigger_by_rule_witness :
  (exists p, detect_pattern priority_scenario = Ok p
     /\ trigger p = lit "COP of 1.5 is unusually low for 3.0" ++ deg ++ lit "C")
  /\ (exists p, detect_pattern frost_scenario_a = Ok p
     /\ (2.0 <=? 2.1) = true /\ (2.1 <? 2.8) = true
     /\ trigger p = lit "Normal efficiency for -5.0" ++ deg ++ lit "C weather").
Proof.
  split.
  - destruct (trigger_by_rule priority_scenario
                (with_prices (with_required 19.0 3.0 1.5 2.0)
                   (Some 0.08) (Some 0.28))
                19.0 3.0 1.5 2.0 _
                eq_refl eq_refl eq_refl eq_refl eq_refl
                ltac:(vm_compute; reflexivity))
      as (H1 & _).
    eexists. split; [vm_compute; reflexivity|].
    destruct (H1 ltac:(vm_compute; reflexivity)) as (_ & _ & Ht).
    etransitivity; [exact Ht|]. vm_compute. reflexivity.
  - destruct (trigger_by_rule frost_scenario_a
                (with_required 19.8 (-5.0) 2.1 2.0)
                19.8 (-5.0) 2.1 2.0 _
                eq_refl eq_refl eq_refl eq_refl eq_refl
                ltac:(vm_compute; reflexivity))
      as (_ & _ & _ & H7 & _).
    eexists. split; [vm_compute; reflexivity|].
    destruct (H7 ltac:(vm_compute; reflexivity)) as (_ & Hlo & Hhi & Ht).
    split; [exact Hlo|]. split; [exact Hhi|].
    etransitivity; [exact Ht|]. vm_compute. reflexivity.
Defined.

(** C3 does not hold for rule 4: two night readings with different hours and
    different prices are both classified [tariff_optimization], with one and
    the same trigger, which holds no digit at all.  Nor does it hold for
    rule 7: two readings in frost with a cop of 2.1 and of 2.7 are both
    classified [cold_weather_operation], with one and the same trigger. *)
Lemma trigger_hard_coded_counterexample :
  (exists pa pb,
      detect_pattern night_scenario_a = Ok pa
      /\ detect_pattern night_scenario_b = Ok pb
      /\ pattern_type pa = lit "tariff_optimization"
      /\ pattern_type pb = lit "tariff_optimization"
      /\ hour_of night_scenario_a = Ok 2%Z
      /\ hour_of night_scenario_b = Ok 4%Z
      /\ trigger pa = lit "Operating during cheap-rate hours"
      /\ trigger pb = lit "Operating during cheap-rate hours"
      /\ digit_free (trigger pa) = true)
  /\ (exists pa pb da db,
      detect_pattern frost_scenario_a = Ok pa
      /\ detect_pattern frost_scenario_b = Ok pb
      /\ pattern_type pa = lit "cold_weather_operation"
      /\ pattern_type pb = lit "cold_weather_operation"
      /\ data frost_scenario_a = Some da /\ cop da = Some 2.1
      /\ data frost_scenario_b = Some db /\ cop db = Some 2.7
      /\ trigger pa = lit "Normal efficiency for -5.0" ++ deg ++ lit "C weather"
      /\ trigger pb = trigger pa).
Proof.
  split.
  - do 2 eexists.
    repeat split; vm_compute; reflexivity.
  - do 4 eexists.
    repeat split; vm_compute; reflexivity.
Qed.

(* ================================================================== *)
(** * Totality of the components on a validated snapshot *)
(* ================================================================== *)

Lemma calculate_benefits_ok (sd : Scenario) (d : Snapshot) (p : Pattern) :
  data sd = Some d ->
  exists b, calculate_benefits sd p = Ok b.
Proof.
  intros Hd. unfold calculate_benefits. rewrite Hd. cbn [bind require].
  destruct (str_eqb _ _); [|destruct (str_eqb _ _); [|destruct (str_eqb _ _)]];
    eexists; reflexivity.
Qed.

Section Validated.

Variables (sd : Scenario) (d : Snapshot) (indoor outdoor c power : float).
Hypothesis Hdata : data sd = Some d.
Hypothesis Hindoor : indoor_temp d = Some indoor.
Hypothesis Houtdoor : outdoor_temp d = Some outdoor.
Hypothesis Hcop : cop d = Some c.
Hypothesis Hpower : power_consumption_kw d = Some power.

Lemma build_prompt_ok (p : Pattern) (b : Benefits) :
  exists prompt, build_prompt sd d p b = Ok prompt.
Proof using Hindoor Houtdoor Hcop.
  unfold build_prompt.
  rewrite Hindoor. cbn [bind require].
  rewrite Houtdoor. cbn [bind require].
  rewrite Hcop. cbn [bind require].
  eexists. reflexivity.
Qed.

Lemma fallback_explanation_ok (p : Pattern) (b : Benefits) :
  _fallback_explanation p d b
  = Ok (dict_get (templates d b outdoor c) (pattern_type p)
          (lit "Your heat pump is operating normally.")).
Proof using Houtdoor Hcop.
  unfold _fallback_explanation.
  rewrite Houtdoor. cbn [bind require].
  rewrite Hcop. cbn [bind require].
  reflexivity.
Qed.

Lemma get_actionable_guidance_ok (p : Pattern) :
  get_actionable_guidance p sd
  = Ok (dict_get (guidance_map outdoor power c) (pattern_type p)
          guidance_default).
Proof using Hdata Houtdoor Hcop Hpower.
  unfold get_actionable_guidance.
  rewrite Hdata. cbn [bind require].
  rewrite Houtdoor. cbn [bind require].
  rewrite Hpower. cbn [bind require].
  rewrite Hcop. cbn [bind require].
  reflexivity.
Qed.

Lemma explain_conclusion_logic_ok (p : Pattern) :
  exists why, _explain_conclusion_logic p d = Ok why.
Proof using Hindoor Houtdoor Hcop.
  unfold _explain_conclusion_logic.
  rewrite Hindoor. cbn [bind require].
  rewrite Houtdoor. cbn [bind require].
  rewrite Hcop. cbn [bind require].
  eexists. reflexivity.
Qed.

Lemma build_transparency_data_ok (p : Pattern) (b : Benefits) :
  exists t, build_transparency_data sd p b = Ok t.
Proof using Hdata Hindoor Houtdoor Hcop Hpower.
  destruct (explain_conclusion_logic_ok p) as [why Hwhy].
  unfold build_transparency_data.
  rewrite Hdata. cbn [bind require].
  rewrite Hindoor. cbn [bind require].
  rewrite Houtdoor. cbn [bind require].
  rewrite Hcop. cbn [bind require].
  rewrite Hpower. cbn [bind require].
  rewrite Hwhy. cbn [bind].
  eexists. reflexivity.
Qed.

(** A run of [analyze_scenario] on a classified scenario: one call of the
    client, whose reply is bounded or replaced by the template, and a result
    assembled from the classification [p] and its benefits [b]. *)
Lemma analyze_scenario_run (p : Pattern) (b : Benefits) (cl : client) :
  detect_pattern sd = Ok p ->
  calculate_benefits sd p = Ok b ->
  exists prompt g t,
    build_prompt sd d p b = Ok prompt
    /\ get_actionable_guidance p sd = Ok g
    /\ build_transparency_data sd p b = Ok t
    /\ run cl (analyze_scenario sd) =
       (let e := match cl O prompt with
                 | Reply text => bound_words text
                 | Failure =>
                     dict_get (templates d b outdoor c) (pattern_type p)
                       (lit "Your heat pump is operating normally.")
                 end in
        Ok {| scenario_name := get (name sd) (lit "Unknown Scenario");
              pattern_detection := p;
              explanation := e;
              word_count := List.length (split e);
              actionable_guidance := g;
              benefits := b;
              transparency_data := t |}, 1%nat).
Proof using Hdata Hindoor Houtdoor Hcop Hpower.
  intros Hdet Hben.
  destruct (build_prompt_ok p b) as [prompt Hprompt].
  pose proof (get_actionable_guidance_ok p) as Hg.
  destruct (build_transparency_data_ok p b) as [t Ht].
  exists prompt. eexists. exists t.
  split; [exact Hprompt|]. split; [exact Hg|]. split; [exact Ht|].
  unfold run, analyze_scenario.
  rewrite Hdet. cbn [pbind].
  rewrite Hben. cbn [pbind].
  unfold generate_plain_language_explanation.
  rewrite Hdata. cbn [bind require].
  rewrite Hprompt. cbn [bind pbind run_from].
  destruct (cl O prompt) as [text|].
  - cbn [pbind run_from]. rewrite Hg. cbn [pbind run_from].
    rewrite Ht. cbn [pbind run_from]. reflexivity.
  - rewrite fallback_explanation_ok.
    cbn [pbind run_from]. rewrite Hg. cbn [pbind run_from].
    rewrite Ht. cbn [pbind run_from]. reflexivity.
Qed.

End Validated.

(* ================================================================== *)
(** * The benefit estimator *)
(* ================================================================== *)

(** C2, as the code has it.  [calculate_benefits] rounds its two outputs
    (cost to 2 decimals, carbon to 1) and does not clamp them: carbon_kg is
    never negative, cost_savings is never negative for a pattern_type other
    than [tariff_optimization], and for [tariff_optimization] cost_savings is
    the rounded product (peak - current) * power * 3 itself (with 0.28, 0.08
    and 2.0 for an absent peak price, current price and power), whatever its
    sign. *)
Theorem benefits_rounded_not_clamped :
  forall (sd : Scenario) (d : Snapshot) (p : Pattern),
    data sd = Some d ->
    exists b, calculate_benefits sd p = Ok b
      /\ (exists raw_cost raw_carbon,
             cost_savings b = py_round raw_cost 2
             /\ carbon_kg b = py_round raw_carbon 1)
      /\ (0 <=? carbon_kg b) = true
      /\ (pattern_type p <> lit "tariff_optimization" ->
          (0 <=? cost_savings b) = true)
      /\ (pattern_type p = lit "tariff_optimization" ->
          cost_savings b
          = py_round ((get (electricity_price_peak d) 0.28
                       - get (electricity_price_current d) 0.08)
                      * get (power_consumption_kw d) 2.0 * 3) 2).
Proof.
  intros sd d p Hd.
  unfold calculate_benefits. rewrite Hd. cbn [bind require].
  destruct (str_eqb (pattern_type p) (lit "tariff_optimization")) eqn:E1;
    [|destruct (str_eqb (pattern_type p) (lit "vpp_curtailment")) eqn:E2;
      [|destruct (str_eqb (pattern_type p) (lit "predictive_heating")) eqn:E3]];
    (eexists; split; [reflexivity|]);
    cbn [cost_savings carbon_kg];
    (split; [do 2 eexists; split; reflexivity|]);
    (split; [vm_compute; reflexivity|]).
  - apply str_eqb_eq in E1. split; [congruence|]. intros _. reflexivity.
  - apply str_eqb_neq in E1. split; [intros _; vm_compute; reflexivity|congruence].
  - apply str_eqb_neq in E1. split; [intros _; vm_compute; reflexivity|congruence].
  - apply str_eqb_neq in E1. split; [intros _; vm_compute; reflexivity|congruence].
Qed.

Lemma benefits_rounded_not_clamped_witness :
  (exists b, calculate_benefits mild_scenario
               {| pattern_type := lit "vpp_curtailment"; severity := [];
                  confidence := []; trigger := []; is_anomaly := false;
                  category := [] |} = Ok b
     /\ (0 <=? carbon_kg b) = true /\ (0 <=? cost_savings b) = true)
  /\ (exists b, calculate_benefits inverted_price_scenario
                 {| pattern_type := lit "tariff_optimization"; severity := [];
                    confidence := []; trigger := []; is_anomaly := false;
                    category := [] |} = Ok b
       /\ cost_savings b = py_round ((0.05 - 0.1) * 2.0 * 3) 2
       /\ cost_savings b = (-0.3)%float).
Proof.
  split.
  - destruct (benefits_rounded_not_clamped mild_scenario
                (with_required 20.5 8.0 3.2 1.5)
                {| pattern_type := lit "vpp_curtailment"; severity := [];
                   confidence := []; trigger := []; is_anomaly := false;
                   category := [] |} eq_refl)
      as (b & Hb & _ & Hcarbon & Hcost & _).
    exists b. split; [exact Hb|]. split; [exact Hcarbon|].
    apply Hcost. lit_neq.
  - destruct (benefits_rounded_not_clamped inverted_price_scenario
                (with_prices (with_required 19.2 (-3.0) 3.0 2.0)
                   (Some 0.1) (Some 0.05))
                {| pattern_type := lit "tariff_optimization"; severity := [];
                   confidence := []; trigger := []; is_anomaly := false;
                   category := [] |} eq_refl)
      as (b & Hb & _ & _ & _ & Htariff).
    exists b. split; [exact Hb|].
    rewrite (Htariff eq_refl). split; [reflexivity|].
    vm_compute. reflexivity.
Defined.

(** C2 does not hold: a night reading on a cheap rate whose current price
    (0.1) exceeds its peak price (0.05) is classified [tariff_optimization]
    and gets cost_savings -0.3. *)
Lemma negative_cost_savings_counterexample :
  exists p b,
    detect_pattern inverted_price_scenario = Ok p
    /\ pattern_type p = lit "tariff_optimization"
    /\ calculate_benefits inverted_price_scenario p = Ok b
    /\ cost_savings b = (-0.3)%float
    /\ (cost_savings b <? 0) = true
    /\ (0 <=? cost_savings b) = false.
Proof.
  do 2 eexists.
  split; [vm_compute; reflexivity|].
  split; [vm_compute; reflexivity|].
  split; [vm_compute; reflexivity|].
  split; [vm_compute; reflexivity|].
  split; vm_compute; reflexivity.
Qed.

(* ================================================================== *)
(** * The guidance resolver *)
(* ================================================================== *)

(** The tier of the record the lookup returns. *)
Lemma guidance_lookup_tier (pt : str) (outdoor power c : float) :
  tier (dict_get (guidance_map outdoor power c) pt guidance_default)
  = tier_of pt.
Proof.
  unfold guidance_map, guidance_default. cbn [dict_get].
  repeat match goal with
  | |- context [if str_eqb (lit ?k) pt then _ else _] =>
      let K := fresh "K" in
      destruct (str_eqb (lit k) pt) eqn:K;
      [apply str_eqb_eq in K; rewrite <- K; cbn [tier];
       vm_compute; reflexivity
      |apply str_eqb_neq in K]
  end.
  cbn [tier]. symmetry. apply tier_of_cases; congruence.
Qed.

Lemma get_actionable_guidance_tier (p : Pattern) (sd : Scenario) (g : Guidance) :
  get_actionable_guidance p sd = Ok g -> tier g = tier_of (pattern_type p).
Proof.
  unfold get_actionable_guidance.
  destruct (data sd) as [d|]; cbn [bind require]; [|discriminate].
  destruct (outdoor_temp d) as [outdoor|]; cbn [bind require]; [|discriminate].
  destruct (power_consumption_kw d) as [power|]; cbn [bind require]; [|discriminate].
  destruct (cop d) as [c|]; cbn [bind require]; [|discriminate].
  intros H. injection H as <-. apply guidance_lookup_tier.
Qed.

(** C9. The guidance tier is a function of pattern_type alone and is one of
    normal, check and fault: on a snapshot whose interpolated fields are
    present, [get_actionable_guidance] returns a record whose tier is
    [tier_of (pattern_type p)], that is fault for [efficiency_anomaly], check
    for [temperature_deficit] and [high_power_consumption], and normal for
    every other pattern_type; a pattern_type that is not a key of the table
    gets the default entry, whose tier is normal. *)
Theorem guidance_tier_by_pattern_type :
  forall (p : Pattern) (sd : Scenario) (d : Snapshot) (outdoor power c : float),
    data sd = Some d -> outdoor_temp d = Some outdoor ->
    power_consumption_kw d = Some power -> cop d = Some c ->
    exists g, get_actionable_guidance p sd = Ok g
      /\ tier g = tier_of (pattern_type p)
      /\ (tier g = lit "normal" \/ tier g = lit "check" \/ tier g = lit "fault")
      /\ (pattern_type p = lit "efficiency_anomaly" -> tier g = lit "fault")
      /\ (pattern_type p = lit "temperature_deficit"
          \/ pattern_type p = lit "high_power_consumption" ->
          tier g = lit "check")
      /\ (pattern_type p = lit "tariff_optimization"
          \/ pattern_type p = lit "vpp_curtailment"
          \/ pattern_type p = lit "predictive_heating"
          \/ pattern_type p = lit "cold_weather_operation"
          \/ pattern_type p = lit "normal_operation" ->
          tier g = lit "normal")
      /\ (~ In (pattern_type p) (List.map fst (guidance_map outdoor power c)) ->
          g = guidance_default /\ tier g = lit "normal").
Proof.
  intros p sd d outdoor power c Hd Ho Hp Hc.
  pose proof (get_actionable_guidance_ok sd d outdoor c power Hd Ho Hc Hp p)
    as Hg.
  pose proof (guidance_lookup_tier (pattern_type p) outdoor power c) as Htier.
  destruct (tier_of_cases (pattern_type p)) as (T1 & T2 & T3 & T4).
  eexists. split; [exact Hg|].
  split; [exact Htier|].
  split; [rewrite Htier; exact T1|].
  split; [rewrite Htier; exact T2|].
  split; [rewrite Htier; exact T3|]. split.
  - intros H. rewrite Htier. apply T4; intros E; rewrite E in H;
      repeat (destruct H as [H | H]; [lit_absurd H|]); lit_absurd H.
  - intros Hnot.
    destruct (dict_get_cases (guidance_map outdoor power c) (pattern_type p)
                guidance_default) as [[Hdef _] | Hin].
    + rewrite Hdef. split; reflexivity.
    + exfalso. apply Hnot.
      apply (in_map fst) in Hin. exact Hin.
Qed.

Lemma guidance_tier_by_pattern_type_witness :
  exists g,
    get_actionable_guidance
      {| pattern_type := lit "high_power_consumption"; severity := [];
         confidence := []; trigger := []; is_anomaly := true; category := [] |}
      mild_scenario = Ok g
    /\ tier g = lit "check".
Proof.
  destruct (guidance_tier_by_pattern_type
              {| pattern_type := lit "high_power_consumption"; severity := [];
                 confidence := []; trigger := []; is_anomaly := true;
                 category := [] |}
              mild_scenario (with_required 20.5 8.0 3.2 1.5) 8.0 1.5 3.2
              eq_refl eq_refl eq_refl eq_refl)
    as (g & Hg & _ & _ & _ & Hcheck & _).
  exists g. split; [exact Hg|]. apply Hcheck. right. reflexivity.
Defined.

(* ================================================================== *)
(** * The tariff case *)
(* ================================================================== *)

(** A scenario [detect_pattern] classifies has its four required fields. *)
Lemma detect_pattern_fields (sd : Scenario) (p : Pattern) :
  detect_pattern sd = Ok p ->
  exists d indoor outdoor c power,
    data sd = Some d /\ indoor_temp d = Some indoor
    /\ outdoor_temp d = Some outdoor /\ cop d = Some c
    /\ power_consumption_kw d = Some power.
Proof.
  unfold detect_pattern.
  destruct (data sd) as [d|] eqn:Hd; cbn [bind require]; [|discriminate].
  destruct (indoor_temp d) as [indoor|] eqn:Hi; cbn [bind require];
    [|discriminate].
  destruct (outdoor_temp d) as [outdoor|] eqn:Ho; cbn [bind require];
    [|discriminate].
  destruct (cop d) as [c|] eqn:Hc; cbn [bind require]; [|discriminate].
  destruct (power_consumption_kw d) as [power|] eqn:Hp; cbn [bind require];
    [|discriminate].
  intros _. exists d, indoor, outdoor, c, power. repeat split; assumption.
Qed.

Lemma calculate_benefits_tariff (sd : Scenario) (d : Snapshot) (p : Pattern) :
  data sd = Some d -> pattern_type p = lit "tariff_optimization" ->
  calculate_benefits sd p
  = Ok {| cost_savings :=
            py_round ((get (electricity_price_peak d) 0.28
                       - get (electricity_price_current d) 0.08)
                      * get (power_consumption_kw d) 2.0 * 3) 2;
          carbon_kg := 0.8 |}.
Proof.
  intros Hd Hpt. unfold calculate_benefits.
  rewrite Hd. cbn [bind require]. rewrite Hpt.
  replace (str_eqb (lit "tariff_optimization") (lit "tariff_optimization"))
    with true by (symmetry; apply str_eqb_refl).
  do 2 f_equal; vm_compute; reflexivity.
Qed.

(** The hour of a timestamp made of a 10-character date and [T02:30:00]. *)
Lemma hour_of_tariff_scenario (date : str) (indoor : float) :
  List.length date = 10%nat -> hour_of (tariff_scenario date indoor) = Ok 2%Z.
Proof.
  intros Hlen.
  do 10 (destruct date as [|? date]; [discriminate Hlen|]).
  destruct date; [|discriminate Hlen].
  vm_compute. reflexivity.
Qed.

Lemma detect_pattern_tariff_scenario (date : str) (indoor : float) :
  List.length date = 10%nat ->
  exists p, detect_pattern (tariff_scenario date indoor) = Ok p
            /\ pattern_type p = lit "tariff_optimization".
Proof.
  intros Hlen.
  destruct (detect_pattern_table (tariff_scenario date indoor)
              (with_prices (with_required indoor (-3.0) 3.0 2.1)
                 (Some 0.08) (Some 0.28))
              indoor (-3.0) 3.0 2.1 2%Z
              eq_refl eq_refl eq_refl eq_refl eq_refl
              (hour_of_tariff_scenario date indoor Hlen))
    as (p & Hdet & Hpt).
  exists p. split; [exact Hdet|]. rewrite Hpt.
  unfold classify_by_table, first_match, rule_table. cbn [find fst snd].
  replace (rule1 _) with false by reflexivity.
  replace (rule2 _) with false
    by (unfold rule2; cbn; symmetry; apply andb_false_r).
  replace (rule3 _) with false by reflexivity.
  replace (rule4 _) with true by reflexivity.
  reflexivity.
Qed.

(** C6. For a snapshot classified [tariff_optimization], the estimator
    returns cost_savings = round((peak - current) * power * 3, 2), with peak
    0.28 and current 0.08 when absent, and carbon_kg = 0.8.  In particular the
    scenario of section 8 (current 0.08, peak 0.28, power 2.1, cop 3.0,
    outdoor -3.0, at 02:30), completed with any indoor temperature and any
    10-character date, is analysed, whatever the client answers, as
    [tariff_optimization], tier normal, cost_savings 1.26. *)
Theorem tariff_optimization_benefit :
  (forall (sd : Scenario) (p : Pattern),
      detect_pattern sd = Ok p ->
      pattern_type p = lit "tariff_optimization" ->
      exists d power,
        data sd = Some d /\ power_consumption_kw d = Some power
        /\ calculate_benefits sd p
           = Ok {| cost_savings :=
                     py_round ((get (electricity_price_peak d) 0.28
                                - get (electricity_price_current d) 0.08)
                               * power * 3) 2;
                   carbon_kg := 0.8 |})
  /\ (forall (date : str) (indoor : float) (cl : client),
        List.length date = 10%nat ->
        exists r,
          fst (run cl (analyze_scenario (tariff_scenario date indoor))) = Ok r
          /\ pattern_type (pattern_detection r) = lit "tariff_optimization"
          /\ tier (actionable_guidance r) = lit "normal"
          /\ cost_savings (benefits r) = 1.26
          /\ carbon_kg (benefits r) = 0.8).
Proof.
  split.
  - intros sd p Hdet Hpt.
    destruct (detect_pattern_fields sd p Hdet)
      as (d & indoor & outdoor & c & power & Hd & _ & _ & _ & Hp).
    exists d, power. split; [exact Hd|]. split; [exact Hp|].
    rewrite (calculate_benefits_tariff sd d p Hd Hpt). rewrite Hp. reflexivity.
  - intros date indoor cl Hlen.
    destruct (detect_pattern_tariff_scenario date indoor Hlen) as (p & Hdet & Hpt).
    pose proof (calculate_benefits_tariff (tariff_scenario date indoor) _ p
                  eq_refl Hpt) as Hben.
    destruct (analyze_scenario_run (tariff_scenario date indoor) _
                indoor (-3.0) 3.0 2.1 eq_refl eq_refl eq_refl eq_refl eq_refl
                p _ cl Hdet Hben)
      as (prompt & g & t & _ & Hg & _ & Hrun).
    rewrite Hrun. cbn [fst]. eexists. split; [reflexivity|].
    cbn [pattern_detection actionable_guidance benefits cost_savings carbon_kg].
    split; [exact Hpt|].
    split.
    + rewrite (get_actionable_guidance_tier p _ g Hg), Hpt.
      vm_compute. reflexivity.
    + split; [vm_compute; reflexivity|reflexivity].
Qed.

Lemma tariff_optimization_benefit_witness :
  exists r,
    fst (run failing_client
           (analyze_scenario (tariff_scenario (lit "2024-01-15") 19.2))) = Ok r
    /\ pattern_type (pattern_detection r) = lit "tariff_optimization"
    /\ tier (actionable_guidance r) = lit "normal"
    /\ cost_savings (benefits r) = 1.26
    /\ carbon_kg (benefits r) = 0.8.
Proof.
  destruct tariff_optimization_benefit as [_ H].
  apply (H (lit "2024-01-15") 19.2 failing_client). reflexivity.
Defined.

(* ================================================================== *)
(** * Words *)
(* ================================================================== *)

Lemma split_go_length (s cur : str) :
  List.length (split_go s cur)
  = match cur with
    | [] => wc_go s false
    | _ => S (wc_go s true)
    end.
Proof.
  revert cur. induction s as [|ch r IH]; intros cur; simpl.
  - destruct cur; reflexivity.
  - destruct (isspace ch).
    + destruct cur; simpl; rewrite IH; reflexivity.
    + rewrite IH. destruct cur; reflexivity.
Qed.

(** [len(s.split())] is the number of words the scanner reads. *)
Lemma split_length (s : str) : List.length (split s) = wc_go s false.
Proof. unfold split. now rewrite split_go_length. Qed.

Lemma graphic_app (a b : str) : graphic (a ++ b) = graphic a && graphic b.
Proof. unfold graphic. apply forallb_app. Qed.

Lemma graphic_firstn (n : nat) (s : str) :
  graphic s = true -> graphic (firstn n s) = true.
Proof.
  revert n. induction s as [|ch r IH]; intros [|n]; simpl; auto.
  intros H. apply andb_true_iff in H as [H1 H2].
  rewrite H1. simpl. auto.
Qed.

Lemma graphic_skipn (n : nat) (s : str) :
  graphic s = true -> graphic (skipn n s) = true.
Proof.
  revert n. induction s as [|ch r IH]; intros [|n]; simpl; auto.
  intros H. apply andb_true_iff in H as [H1 H2]. auto.
Qed.

Lemma split_go_words (s cur : str) :
  graphic cur = true -> Forall is_word (split_go s cur).
Proof.
  revert cur. induction s as [|ch r IH]; intros cur Hcur; simpl.
  - destruct cur; constructor; [|constructor].
    split; [discriminate|exact Hcur].
  - destruct (isspace ch) eqn:Hsp.
    + destruct cur.
      * apply IH. reflexivity.
      * constructor; [split; [discriminate|exact Hcur]|].
        apply IH. reflexivity.
    + apply IH. rewrite graphic_app, Hcur. simpl. now rewrite Hsp.
Qed.

Lemma split_words (s : str) : Forall is_word (split s).
Proof. apply split_go_words. reflexivity. Qed.

Lemma wc_go_app (a b : str) (inw : bool) :
  wc_go (a ++ b) inw = (wc_go a inw + wc_go b (end_inw a inw))%nat.
Proof.
  revert inw. induction a as [|ch r IH]; intros inw; simpl; [reflexivity|].
  destruct (isspace ch); simpl; rewrite IH; lia.
Qed.

Lemma wc_go_le_false (s : str) (inw : bool) :
  (wc_go s inw <= wc_go s false)%nat.
Proof.
  destruct s as [|ch r]; simpl; [lia|].
  destruct (isspace ch); destruct inw; lia.
Qed.

Lemma wc_go_graphic (w : str) :
  graphic w = true -> wc_go w true = O /\ end_inw w true = true.
Proof.
  induction w as [|ch r IH]; simpl; intros H; [split; reflexivity|].
  apply andb_true_iff in H as [H1 H2].
  apply negb_true_iff in H1. rewrite H1. simpl. apply IH, H2.
Qed.

Lemma wc_go_word (w : str) (inw : bool) :
  is_word w ->
  wc_go w inw = (if inw then 0 else 1)%nat /\ end_inw w inw = true.
Proof.
  intros [Hne Hg]. destruct w as [|ch r]; [congruence|].
  simpl in *. apply andb_true_iff in Hg as [H1 H2].
  apply negb_true_iff in H1. rewrite H1. simpl.
  destruct (wc_go_graphic r H2) as [-> ->]. split; [lia|reflexivity].
Qed.

(** Words joined by single spaces, with a suffix free of whitespace glued to
    the last one, are read back as the same number of words. *)
Lemma wc_join_words (ws : list str) (t : str) :
  Forall is_word ws -> ws <> [] -> graphic t = true ->
  wc_go (join (lit " ") ws ++ t) false = List.length ws.
Proof.
  intros Hws. induction Hws as [|w ws Hw Hws IH]; intros Hne Ht; [congruence|].
  destruct ws as [|w2 rest].
  - simpl. rewrite wc_go_app.
    destruct (wc_go_word w false Hw) as [-> ->].
    destruct (wc_go_graphic t Ht) as [-> _]. reflexivity.
  - change (join (lit " ") (w :: w2 :: rest))
      with (w ++ lit " " ++ join (lit " ") (w2 :: rest)).
    rewrite <- !app_assoc. rewrite wc_go_app.
    destruct (wc_go_word w false Hw) as [-> ->].
    change (lit " " ++ join (lit " ") (w2 :: rest) ++ t)
      with (32%N :: (join (lit " ") (w2 :: rest) ++ t)).
    change (wc_go (32%N :: (join (lit " ") (w2 :: rest) ++ t)) true)
      with (wc_go (join (lit " ") (w2 :: rest) ++ t) false).
    rewrite IH by (congruence || assumption). reflexivity.
Qed.

Lemma Forall_take {A : Type} (P : A -> Prop) (n : nat) (l : list A) :
  Forall P l -> Forall P (firstn n l).
Proof.
  intros H. revert n. induction H as [|x l Hx Hl IH]; intros [|n]; simpl;
    constructor; auto.
Qed.

(** The truncation of [generate_plain_language_explanation] leaves at most
    50 words. *)
Lemma bound_words_length (text : str) :
  (List.length (split (bound_words text)) <= 50)%nat.
Proof.
  unfold bound_words.
  destruct (Nat.ltb 50 (List.length (split (strip text)))) eqn:E.
  - apply Nat.ltb_lt in E.
    rewrite split_length, wc_join_words.
    + rewrite length_firstn. lia.
    + apply Forall_take, split_words.
    + intros H. apply (f_equal (@List.length str)) in H.
      rewrite length_firstn in H. cbn [List.length] in H. lia.
    + reflexivity.
  - apply Nat.ltb_ge in E. exact E.
Qed.

(* ================================================================== *)
(** * A formatted number is one word *)
(* ================================================================== *)

Lemma isspace_digit (ch : N) : (48 <= ch <= 57)%N -> isspace ch = false.
Proof.
  intros H. unfold isspace.
  repeat match goal with
  | |- (_ || _) = false => apply orb_false_intro
  | |- (_ && _) = false =>
      apply andb_false_iff;
      first [left; apply N.leb_gt; lia | right; apply N.leb_gt; lia]
  | |- (_ =? _)%N = false => apply N.eqb_neq; lia
  end.
Qed.

Lemma word_intro (s : str) :
  graphic s = true -> (0 < List.length s)%nat -> is_word s.
Proof.
  intros Hg Hl. split; [|exact Hg].
  intros ->. simpl in Hl. lia.
Qed.

Lemma word_length (s : str) : is_word s -> (0 < List.length s)%nat.
Proof.
  intros [Hne _]. destruct s; [congruence|simpl; lia].
Qed.

Lemma graphic_cons (ch : N) (s : str) :
  graphic (ch :: s) = negb (isspace ch) && graphic s.
Proof. reflexivity. Qed.

Lemma digits_go_graphic (fuel : nat) (n : Z) (acc : str) :
  graphic acc = true -> graphic (digits_go fuel n acc) = true.
Proof.
  revert n acc. induction fuel as [|f IH]; intros n acc Hacc;
    cbn [digits_go]; [exact Hacc|].
  assert (Hc : graphic (Z.to_N (48 + n mod 10) :: acc) = true).
  { rewrite graphic_cons, Hacc, isspace_digit; [reflexivity|].
    pose proof (Z.mod_pos_bound n 10 eq_refl). lia. }
  destruct (n <? 10)%Z; [exact Hc|]. apply IH, Hc.
Qed.

Lemma digits_go_length (fuel : nat) (n : Z) (acc : str) :
  (List.length acc <= List.length (digits_go fuel n acc))%nat.
Proof.
  revert n acc. induction fuel as [|f IH]; intros n acc;
    cbn [digits_go]; [lia|].
  destruct (n <? 10)%Z; [cbn [List.length]; lia|].
  etransitivity; [|apply IH]. cbn [List.length]. lia.
Qed.

Lemma digits_word (n : Z) : is_word (digits n).
Proof.
  unfold digits. apply word_intro.
  - apply digits_go_graphic. reflexivity.
  - cbn [digits_go]. destruct (n <? 10)%Z; [cbn [List.length]; lia|].
    pose proof (digits_go_length (Z.to_nat (Z.log2 n)) (n / 10)
                  [Z.to_N (48 + n mod 10)]) as H.
    exact H.
Qed.

Lemma zeros_graphic (n : nat) : graphic (zeros n) = true.
Proof. induction n; simpl; [reflexivity|exact IHn]. Qed.

Lemma pad_zeros_graphic (w : nat) (s : str) :
  graphic s = true -> graphic (pad_zeros w s) = true.
Proof.
  intros H. unfold pad_zeros. now rewrite graphic_app, zeros_graphic, H.
Qed.

Lemma fixed_word (nd : nat) (n : Z) : is_word (fixed nd n).
Proof.
  unfold fixed.
  destruct (digits_word (n / 10 ^ Z.of_nat nd)) as [_ Hg1].
  pose proof (word_length _ (digits_word (n / 10 ^ Z.of_nat nd))) as Hl1.
  destruct (digits_word (n mod 10 ^ Z.of_nat nd)) as [_ Hg2].
  apply word_intro.
  - rewrite graphic_app, Hg1. destruct nd; [reflexivity|].
    change (graphic (46%N :: pad_zeros (S nd) (digits (n mod 10 ^ Z.of_nat (S nd)))))
      with (graphic (pad_zeros (S nd) (digits (n mod 10 ^ Z.of_nat (S nd))))).
    now rewrite pad_zeros_graphic.
  - rewrite length_app. lia.
Qed.

Lemma sign_word (s : bool) (w : str) : is_word w -> is_word (sign_str s ++ w).
Proof.
  intros Hw. pose proof (word_length w Hw) as Hl. destruct Hw as [_ Hg].
  apply word_intro.
  - rewrite graphic_app, Hg. destruct s; reflexivity.
  - rewrite length_app. lia.
Qed.

Lemma lit_word_check (s : str) :
  graphic s && negb (Nat.eqb (List.length s) 0) = true -> is_word s.
Proof.
  intros H. apply andb_true_iff in H as [Hg Hl].
  apply word_intro; [exact Hg|].
  apply negb_true_iff, Nat.eqb_neq in Hl. lia.
Qed.

Lemma format_f_word (nd : nat) (x : float) : is_word (format_f nd x).
Proof.
  unfold format_f. destruct (Prim2SF x) as [s|s| |s m e].
  - apply sign_word, fixed_word.
  - apply sign_word, lit_word_check. reflexivity.
  - apply lit_word_check. reflexivity.
  - apply sign_word, fixed_word.
Qed.

Lemma repr_layout_word (ds : str) (decpt : Z) :
  is_word ds -> is_word (repr_layout ds decpt).
Proof.
  intros Hw. pose proof (word_length ds Hw) as Hl. destruct Hw as [_ Hg].
  unfold repr_layout.
  destruct ((-4 <? decpt)%Z && (decpt <=? 16)%Z).
  - destruct (decpt <=? 0)%Z; [|destruct (Z.of_nat (List.length ds) <=? decpt)%Z].
    + apply word_intro.
      * rewrite !graphic_app, zeros_graphic, Hg. reflexivity.
      * rewrite !length_app. lia.
    + apply word_intro.
      * rewrite !graphic_app, zeros_graphic, Hg. reflexivity.
      * rewrite !length_app. lia.
    + apply word_intro.
      * rewrite graphic_app, graphic_firstn by exact Hg.
        change (graphic (46%N :: skipn (Z.to_nat decpt) ds))
          with (graphic (skipn (Z.to_nat decpt) ds)).
        now rewrite graphic_skipn.
      * rewrite length_app. simpl. lia.
  - apply word_intro.
    + assert (H101 : forall sg r, sg = 45%N \/ sg = 43%N -> graphic r = true ->
                       graphic (101%N :: sg :: r) = true).
      { intros sg r [-> | ->] Hr; rewrite !graphic_cons, Hr; reflexivity. }
      pose proof (graphic_skipn 1 ds Hg) as Hs.
      rewrite !graphic_app, graphic_firstn by exact Hg.
      rewrite H101.
      * destruct (skipn 1 ds) as [|c0 l0]; [reflexivity|].
        rewrite graphic_cons, Hs. reflexivity.
      * destruct (decpt - 1 <? 0)%Z; [left|right]; reflexivity.
      * apply pad_zeros_graphic, digits_word.
    + rewrite !length_app. simpl. lia.
Qed.

Lemma repr_float_word (x : float) : is_word (repr_float x).
Proof.
  unfold repr_float. destruct (Prim2SF x) as [s|s| |s m e].
  - apply sign_word, lit_word_check. reflexivity.
  - apply sign_word, lit_word_check. reflexivity.
  - apply lit_word_check. reflexivity.
  - destruct (shortest (Z.pos m) e) as [c k].
    apply sign_word, repr_layout_word, digits_word.
Qed.

Lemma repr_or_word (v : option float) (default : str) :
  is_word default -> is_word (repr_or v default).
Proof.
  intros H. destruct v; [apply repr_float_word|exact H].
Qed.

(* ================================================================== *)
(** * The narrative generator *)
(* ================================================================== *)

Lemma wc_app_bound (a b : str) (m n : nat) :
  (wc_go a false <= m)%nat -> (wc_go b false <= n)%nat ->
  (wc_go (a ++ b) false <= m + n)%nat.
Proof.
  intros Ha Hb. rewrite wc_go_app.
  pose proof (wc_go_le_false b (end_inw a false)). lia.
Qed.

Lemma wc_word_bound (w : str) : is_word w -> (wc_go w false <= 1)%nat.
Proof.
  intros Hw. destruct (wc_go_word w false Hw) as [-> _]. lia.
Qed.

(** Bounds the words of a concatenation of literals and formatted numbers by
    the sum of the words of its pieces. *)
Ltac wc_bound :=
  lazymatch goal with
  | |- (wc_go (_ ++ _) false <= _)%nat =>
      eapply wc_app_bound; [wc_bound | wc_bound]
  | |- (wc_go (repr_float _) false <= _)%nat =>
      apply wc_word_bound, repr_float_word
  | |- (wc_go (format_f _ _) false <= _)%nat =>
      apply wc_word_bound, format_f_word
  | |- (wc_go (repr_or _ _) false <= _)%nat =>
      apply wc_word_bound, repr_or_word, lit_word_check; reflexivity
  | |- _ => apply Nat.le_refl
  end.

(** Every fallback template, and the default text, has at most 50 words. *)
Lemma templates_words (d : Snapshot) (b : Benefits) (outdoor c : float) (pt : str) :
  (wc_go (dict_get (templates d b outdoor c) pt
            (lit "Your heat pump is operating normally.")) false <= 50)%nat.
Proof.
  unfold templates. cbn [dict_get].
  repeat match goal with
  | |- context [if str_eqb (lit ?k) pt then _ else _] =>
      destruct (str_eqb (lit k) pt);
      [eapply Nat.le_trans;
       [wc_bound | apply Nat.leb_le; vm_compute; reflexivity]|]
  end.
  apply Nat.leb_le. vm_compute. reflexivity.
Qed.

Lemma fallback_explanation_words (p : Pattern) (d : Snapshot) (b : Benefits)
    (t : str) :
  _fallback_explanation p d b = Ok t -> (List.length (split t) <= 50)%nat.
Proof.
  unfold _fallback_explanation.
  destruct (outdoor_temp d) as [outdoor|]; cbn [bind require]; [|discriminate].
  destruct (cop d) as [c|]; cbn [bind require]; [|discriminate].
  intros H. injection H as <-. rewrite split_length. apply templates_words.
Qed.

(** What a run of [analyze_scenario] that returns a result went through. *)
Lemma analyze_scenario_inv (sd : Scenario) (cl : client) (r : AnalysisResult) :
  fst (run cl (analyze_scenario sd)) = Ok r ->
  exists d indoor outdoor c power p b prompt g t,
    data sd = Some d /\ indoor_temp d = Some indoor
    /\ outdoor_temp d = Some outdoor /\ cop d = Some c
    /\ power_consumption_kw d = Some power
    /\ detect_pattern sd = Ok p /\ calculate_benefits sd p = Ok b
    /\ build_prompt sd d p b = Ok prompt
    /\ get_actionable_guidance p sd = Ok g
    /\ build_transparency_data sd p b = Ok t
    /\ run cl (analyze_scenario sd) = (Ok r, 1%nat)
    /\ r = (let e := match cl O prompt with
                     | Reply text => bound_words text
                     | Failure =>
                         dict_get (templates d b outdoor c) (pattern_type p)
                           (lit "Your heat pump is operating normally.")
                     end in
            {| scenario_name := get (name sd) (lit "Unknown Scenario");
               pattern_detection := p;
               explanation := e;
               word_count := List.length (split e);
               actionable_guidance := g;
               benefits := b;
               transparency_data := t |}).
Proof.
  intros Hrun.
  destruct (detect_pattern sd) as [p|e] eqn:Hdet.
  - destruct (detect_pattern_fields sd p Hdet)
      as (d & indoor & outdoor & c & power & Hd & Hi & Ho & Hc & Hp).
    destruct (calculate_benefits_ok sd d p Hd) as [b Hb].
    destruct (analyze_scenario_run sd d indoor outdoor c power Hd Hi Ho Hc Hp
                p b cl Hdet Hb) as (prompt & g & t & Hprompt & Hg & Ht & Hr).
    exists d, indoor, outdoor, c, power, p, b, prompt, g, t.
    cbv zeta in Hr |- *.
    rewrite Hr in Hrun. cbn [fst] in Hrun. injection Hrun as <-.
    repeat apply conj; first [assumption | reflexivity].
  - unfold run, analyze_scenario in Hrun. rewrite Hdet in Hrun.
    cbn [pbind run_from fst] in Hrun. discriminate Hrun.
Qed.

(** C7. The final narrative has at most 50 words, counted as
    [len(text.split())] on the final text: whatever the client replies, the
    generator strips the reply and, when it has more than 50 words, keeps the
    first 50 joined by spaces and appends the ellipsis; every fallback
    template, and the default text, has at most 50 words; so every result of
    [analyze_scenario] has [word_count = len(explanation.split()) <= 50]. *)
Theorem narrative_word_count_bound :
  (forall text : str,
      (List.length (split (bound_words text)) <= 50)%nat
      /\ ((List.length (split (strip text)) <= 50)%nat ->
          bound_words text = strip text)
      /\ ((50 < List.length (split (strip text)))%nat ->
          bound_words text
          = join (lit " ") (firstn 50 (split (strip text))) ++ lit "..."))
  /\ (forall (p : Pattern) (d : Snapshot) (b : Benefits) (t : str),
        _fallback_explanation p d b = Ok t ->
        (List.length (split t) <= 50)%nat)
  /\ (forall (sd : Scenario) (cl : client) (r : AnalysisResult),
        fst (run cl (analyze_scenario sd)) = Ok r ->
        word_count r = List.length (split (explanation r))
        /\ (word_count r <= 50)%nat).
Proof.
  split; [|split].
  - intros text. split; [apply bound_words_length|].
    unfold bound_words. split; intros H.
    + apply Nat.ltb_ge in H. now rewrite H.
    + apply Nat.ltb_lt in H. now rewrite H.
  - apply fallback_explanation_words.
  - intros sd cl r Hrun.
    destruct (analyze_scenario_inv sd cl r Hrun)
      as (d & indoor & outdoor & c & power & p & b & prompt & g & t
          & _ & _ & _ & _ & _ & _ & _ & _ & _ & _ & _ & ->).
    cbn [word_count explanation]. split; [reflexivity|].
    destruct (cl O prompt) as [text|].
    + apply bound_words_length.
    + rewrite split_length. apply templates_words.
Qed.

Lemma narrative_word_count_bound_witness :
  exists r,
    fst (run chatty_client (analyze_scenario mild_scenario)) = Ok r
    /\ List.length (split long_reply) = 60%nat
    /\ word_count r = 50%nat
    /\ (word_count r <= 50)%nat.
Proof.
  eexists. split; [vm_compute; reflexivity|].
  split; [vm_compute; reflexivity|].
  split; [vm_compute; reflexivity|].
  destruct narrative_word_count_bound as (_ & _ & H).
  apply (H mild_scenario chatty_client). vm_compute. reflexivity.
Defined.

(** C8. When the call of the text-generation client fails, the narrative is
    the fallback template of the pattern_type, verbatim (the default text
    when the pattern_type has no template); the client is called exactly
    once, whatever it would answer to later calls; and [analyze_scenario]
    returns a result, not the error. *)
Theorem fallback_on_client_failure :
  forall (sd : Scenario) (p : Pattern) (cl : client),
    detect_pattern sd = Ok p ->
    (forall prompt, cl O prompt = Failure) ->
    exists r d outdoor c b,
      data sd = Some d /\ outdoor_temp d = Some outdoor /\ cop d = Some c
      /\ calculate_benefits sd p = Ok b
      /\ run cl (analyze_scenario sd) = (Ok r, 1%nat)
      /\ pattern_detection r = p /\ benefits r = b
      /\ _fallback_explanation p d b = Ok (explanation r)
      /\ explanation r
         = dict_get (templates d b outdoor c) (pattern_type p)
             (lit "Your heat pump is operating normally.")
      /\ (In (pattern_type p, explanation r) (templates d b outdoor c)
          \/ (explanation r = lit "Your heat pump is operating normally."
              /\ ~ In (pattern_type p)
                     (List.map fst (templates d b outdoor c))))
      /\ (exists prompt k,
             generate_plain_language_explanation sd p b = Call prompt k
             /\ k Failure = Ret (Ok (explanation r))).
Proof.
  intros sd p cl Hdet Hfail.
  destruct (detect_pattern_fields sd p Hdet)
    as (d & indoor & outdoor & c & power & Hd & Hi & Ho & Hc & Hp).
  destruct (calculate_benefits_ok sd d p Hd) as [b Hb].
  destruct (analyze_scenario_run sd d indoor outdoor c power Hd Hi Ho Hc Hp
              p b cl Hdet Hb) as (prompt & g & t & Hprompt & Hg & Ht & Hr).
  rewrite Hfail in Hr. cbv zeta in Hr.
  eexists. exists d, outdoor, c, b.
  split; [exact Hd|]. split; [exact Ho|]. split; [exact Hc|].
  split; [exact Hb|]. split; [exact Hr|].
  cbn [pattern_detection benefits explanation].
  split; [reflexivity|]. split; [reflexivity|].
  split; [apply (fallback_explanation_ok d outdoor c Ho Hc)|].
  split; [reflexivity|]. split.
  - destruct (dict_get_cases (templates d b outdoor c) (pattern_type p)
                (lit "Your heat pump is operating normally."))
      as [[H1 H2] | H]; [right; split; assumption | left; exact H].
  - unfold generate_plain_language_explanation.
    rewrite Hd. cbn [bind require]. rewrite Hprompt. cbn [bind].
    do 2 eexists. split; [reflexivity|].
    cbv beta iota. rewrite (fallback_explanation_ok d outdoor c Ho Hc).
    reflexivity.
Qed.

Lemma fallback_on_client_failure_witness :
  exists r,
    run failing_client (analyze_scenario priority_scenario) = (Ok r, 1%nat)
    /\ explanation r
       = lit "Your system's efficiency (1.5) is lower than expected for 3.0"
         ++ deg ++ lit "C weather. Consider checking your insulation or booking a service check.".
Proof.
  destruct (fallback_on_client_failure priority_scenario
              {| pattern_type := lit "efficiency_anomaly";
                 severity := lit "high";
                 confidence := lit "high";
                 trigger := lit "COP of " ++ format_f 1 1.5
                            ++ lit " is unusually low for "
                            ++ repr_float 3.0 ++ deg ++ lit "C";
                 is_anomaly := true;
                 category := lit "potential_fault" |}
              failing_client)
    as (r & d & outdoor & c & b & _ & _ & _ & _ & Hrun & _).
  - vm_compute. reflexivity.
  - intros prompt. reflexivity.
  - exists r. split; [exact Hrun|].
    vm_compute in Hrun. injection Hrun as <-. vm_compute. reflexivity.
Defined.

(* ================================================================== *)
(** * The orchestrator and its errors *)
(* ================================================================== *)

Lemma detect_pattern_ok (sd : Scenario) (d : Snapshot)
    (indoor outdoor c power : float) :
  data sd = Some d -> indoor_temp d = Some indoor ->
  outdoor_temp d = Some outdoor -> cop d = Some c ->
  power_consumption_kw d = Some power ->
  anomaly_rule_fires d indoor outdoor c power = true
  \/ (exists h, hour_of sd = Ok h) ->
  exists p, detect_pattern sd = Ok p.
Proof.
  intros Hd Hi Ho Hc Hp H.
  rewrite (detect_pattern_rules sd d indoor outdoor c power Hd Hi Ho Hc Hp).
  unfold pattern_detection_logic, status_is_heating.
  unfold anomaly_rule_fires, rule1, rule2, rule3, extracted in H.
  cbn [x_data x_indoor_temp x_target_temp x_outdoor_temp x_cop x_power_kw] in H.
  change (3.0 * 1.5) with 4.5.
  destruct ((c <? 1.8) && (0 <? outdoor)); [eexists; reflexivity|].
  destruct ((indoor <? get (target_temp d) 20.0 - 2.0)
            && match heat_pump_status d with
               | Some s => str_eqb s (lit "heating")
               | None => false
               end); [eexists; reflexivity|].
  cbv zeta.
  destruct (4.5 <? power); [eexists; reflexivity|].
  destruct H as [H | [h Hh]]; [discriminate H|].
  rewrite Hh. cbn [bind].
  repeat match goal with
  | |- context [if ?b then Ok _ else _] => destruct b; [eexists; reflexivity|]
  end.
  eexists; reflexivity.
Qed.

(** C4, as the code has it.  When the snapshot is absent
    [analyze_scenario] raises [KeyError] for ['data']; when one of the four
    required fields is absent it raises [KeyError] (the missing-field error)
    for the first absent key, in the order indoor_temp, outdoor_temp, cop,
    power_consumption_kw.  The error is raised before any rule is evaluated
    and before the client is called: the computation is the error itself,
    with no result.  When the four fields are present and either one of the
    three anomaly rules applies or the hour of the timestamp can be read,
    [analyze_scenario] calls the client once and returns a result, whatever
    the client answers. *)
Theorem missing_field_or_result :
  (forall sd : Scenario,
      data sd = None ->
      detect_pattern sd = Err (KeyError "data")
      /\ analyze_scenario sd = Ret (Err (KeyError "data")))
  /\ (forall (sd : Scenario) (d : Snapshot),
        data sd = Some d ->
        (indoor_temp d = None ->
         detect_pattern sd = Err (KeyError "indoor_temp")
         /\ analyze_scenario sd = Ret (Err (KeyError "indoor_temp")))
        /\ (indoor_temp d <> None -> outdoor_temp d = None ->
            detect_pattern sd = Err (KeyError "outdoor_temp")
            /\ analyze_scenario sd = Ret (Err (KeyError "outdoor_temp")))
        /\ (indoor_temp d <> None -> outdoor_temp d <> None -> cop d = None ->
            detect_pattern sd = Err (KeyError "cop")
            /\ analyze_scenario sd = Ret (Err (KeyError "cop")))
        /\ (indoor_temp d <> None -> outdoor_temp d <> None ->
            cop d <> None -> power_consumption_kw d = None ->
            detect_pattern sd = Err (KeyError "power_consumption_kw")
            /\ analyze_scenario sd
               = Ret (Err (KeyError "power_consumption_kw"))))
  /\ (forall (sd : Scenario) (d : Snapshot) (indoor outdoor c power : float)
             (cl : client),
        data sd = Some d -> indoor_temp d = Some indoor ->
        outdoor_temp d = Some outdoor -> cop d = Some c ->
        power_consumption_kw d = Some power ->
        anomaly_rule_fires d indoor outdoor c power = true
        \/ (exists h, hour_of sd = Ok h) ->
        exists r, run cl (analyze_scenario sd) = (Ok r, 1%nat)).
Proof.
  assert (Hraise : forall sd e,
             detect_pattern sd = Err e ->
             detect_pattern sd = Err e /\ analyze_scenario sd = Ret (Err e)).
  { intros sd e Hdet. split; [exact Hdet|].
    unfold analyze_scenario. rewrite Hdet. reflexivity. }
  split; [|split].
  - intros sd Hd. apply Hraise. unfold detect_pattern.
    rewrite Hd. reflexivity.
  - intros sd d Hd. repeat apply conj.
    + intros Hi. apply Hraise. unfold detect_pattern.
      rewrite Hd. cbn [bind require]. rewrite Hi. reflexivity.
    + intros Hi Ho. apply Hraise. unfold detect_pattern.
      rewrite Hd. cbn [bind require].
      destruct (indoor_temp d) as [indoor|]; [|congruence]. cbn [bind require].
      rewrite Ho. reflexivity.
    + intros Hi Ho Hc. apply Hraise. unfold detect_pattern.
      rewrite Hd. cbn [bind require].
      destruct (indoor_temp d) as [indoor|]; [|congruence]. cbn [bind require].
      destruct (outdoor_temp d) as [outdoor|]; [|congruence].
      cbn [bind require]. rewrite Hc. reflexivity.
    + intros Hi Ho Hc Hp. apply Hraise. unfold detect_pattern.
      rewrite Hd. cbn [bind require].
      destruct (indoor_temp d) as [indoor|]; [|congruence]. cbn [bind require].
      destruct (outdoor_temp d) as [outdoor|]; [|congruence].
      cbn [bind require].
      destruct (cop d) as [c|]; [|congruence]. cbn [bind require].
      rewrite Hp. reflexivity.
  - intros sd d indoor outdoor c power cl Hd Hi Ho Hc Hp H.
    destruct (detect_pattern_ok sd d indoor outdoor c power Hd Hi Ho Hc Hp H)
      as [p Hdet].
    destruct (calculate_benefits_ok sd d p Hd) as [b Hb].
    destruct (analyze_scenario_run sd d indoor outdoor c power Hd Hi Ho Hc Hp
                p b cl Hdet Hb) as (prompt & g & t & _ & _ & _ & Hr).
    eexists. exact Hr.
Qed.

Lemma missing_field_or_result_witness :
  analyze_scenario no_cop_scenario = Ret (Err (KeyError "cop"))
  /\ analyze_scenario no_indoor_no_cop_scenario
     = Ret (Err (KeyError "indoor_temp"))
  /\ exists r, run failing_client (analyze_scenario mild_scenario) = (Ok r, 1%nat).
Proof.
  destruct missing_field_or_result as (_ & Hmissing & Hresult).
  split; [|split].
  - destruct (Hmissing no_cop_scenario _ eq_refl) as (_ & _ & Hcop & _).
    apply Hcop; [discriminate | discriminate | reflexivity].
  - destruct (Hmissing no_indoor_no_cop_scenario _ eq_refl) as (Hindoor & _).
    apply Hindoor. reflexivity.
  - apply (Hresult mild_scenario _ 20.5 8.0 3.2 1.5 failing_client
             eq_refl eq_refl eq_refl eq_refl eq_refl).
    right. exists 14%Z. reflexivity.
Defined.

(** C4 does not hold for every record with the four fields: with a timestamp
    that is a date only, and no anomaly rule applying, reading the hour
    raises [ValueError] and [analyze_scenario] returns no result. *)
Lemma date_only_timestamp_counterexample :
  (exists d indoor outdoor c power,
      data date_only_scenario = Some d /\ indoor_temp d = Some indoor
      /\ outdoor_temp d = Some outdoor /\ cop d = Some c
      /\ power_consumption_kw d = Some power)
  /\ slice 11 13 (lit "2024-01-15") = []
  /\ detect_pattern date_only_scenario = Err ValueError
  /\ analyze_scenario date_only_scenario = Ret (Err ValueError).
Proof.
  split.
  - do 5 eexists. repeat split; reflexivity.
  - repeat split; vm_compute; reflexivity.
Qed.

(* ================================================================== *)
(** * The transparency report *)
(* ================================================================== *)





(* ================================================================== *)
(** * The classification record and what follows from it *)
(* ================================================================== *)

(** Evaluates the comparisons of literals met by a lookup. *)
Ltac lit_lookup :=
  repeat (cbn [dict_get];
          match goal with
          | |- context [str_eqb (lit ?a) (lit ?b)] =>
              let v := eval vm_compute in (str_eqb (lit a) (lit b)) in
              change (str_eqb (lit a) (lit b)) with v; cbv iota
          end).

(** Every classification is one of the eight records of the source. *)
Lemma detect_pattern_cases (sd : Scenario) (p : Pattern) :
  detect_pattern sd = Ok p ->
  In (pattern_type p, (severity p, confidence p, is_anomaly p, category p))
     classifications.
Proof.
  intros Hdet.
  destruct (detect_pattern_fields sd p Hdet)
    as (d & indoor & outdoor & c & power & Hd & Hi & Ho & Hc & Hp).
  rewrite (detect_pattern_rules sd d indoor outdoor c power Hd Hi Ho Hc Hp) in Hdet.
  unfold pattern_detection_logic in Hdet.
  destruct (hour_of sd) as [h|e]; cbn [bind] in Hdet.
  all: repeat match type of Hdet with
       | (if ?b then _ else _) = _ => destruct b
       end.
  all: try discriminate Hdet.
  all: injection Hdet as <-;
       cbn [pattern_type severity confidence is_anomaly category];
       unfold classifications; cbn [In].
  all: repeat (first [left; reflexivity | right]).
Qed.


(** Settles goals made of equalities and disequalities of literals. *)
Ltac lit_fact :=
  match goal with
  | |- ?a = ?a => reflexivity
  | |- lit _ <> lit _ => lit_neq
  | H : lit _ = lit _ |- _ => lit_absurd H
  | H : false = true |- _ => discriminate H
  | H : true = false |- _ => discriminate H
  | H : ?x <> ?x |- _ => exfalso; apply H; reflexivity
  | |- _ <-> _ => split; intros ?H; lit_fact
  | |- _ /\ _ => split; lit_fact
  | H : _ \/ _ |- _ => destruct H; lit_fact
  | |- _ \/ _ => first [left; lit_fact | right; lit_fact]
  | |- _ -> _ => intros ?H; lit_fact
  end.

(** Reads an equation between tuples of a table as values of the fields. *)
Ltac pairs_of H :=
  repeat match type of H with
  | (_, _) = (_, _) =>
      let H1 := fresh in
      apply pair_equal_spec in H; destruct H as [H1 H]; pairs_of H1
  end;
  try (rewrite <- H in *; clear H).

Lemma app_lit_nonempty (a : str) (t : str) :
  str_eqb a [] = false -> a ++ t <> [].
Proof.
  destruct a; [discriminate|]. intros _. discriminate.
Qed.

Lemma detect_pattern_trigger (sd : Scenario) (p : Pattern) :
  detect_pattern sd = Ok p -> trigger p <> [].
Proof.
  intros Hdet.
  destruct (detect_pattern_fields sd p Hdet)
    as (d & indoor & outdoor & c & power & Hd & Hi & Ho & Hc & Hp).
  rewrite (detect_pattern_rules sd d indoor outdoor c power Hd Hi Ho Hc Hp) in Hdet.
  unfold pattern_detection_logic in Hdet.
  destruct (hour_of sd) as [h|e]; cbn [bind] in Hdet.
  all: repeat match type of Hdet with
       | (if ?b then _ else _) = _ => destruct b
       end.
  all: try discriminate Hdet.
  all: injection Hdet as <-; cbn [trigger].
  all: first [ apply app_lit_nonempty; vm_compute; reflexivity
             | apply str_eqb_neq; vm_compute; reflexivity ].
Qed.

(** X1. The classifier's result is never partially populated and its
    pattern_type comes from a closed enumeration: every classification
    [detect_pattern] returns is one of eight records (pattern_type, severity,
    confidence, is_anomaly, category), its pattern_type is a name of the rule
    table or [normal_operation], it is an anomaly exactly when its severity
    is not [none], exactly for the three anomaly pattern_types, and its
    trigger is not empty. *)
Theorem classification_closed_enumeration :
  forall (sd : Scenario) (p : Pattern),
    detect_pattern sd = Ok p ->
    In (pattern_type p, (severity p, confidence p, is_anomaly p, category p))
       classifications
    /\ In (pattern_type p) (List.map snd rule_table ++ [lit "normal_operation"])
    /\ (is_anomaly p = true <-> severity p <> lit "none")
    /\ (is_anomaly p = true <->
        pattern_type p = lit "efficiency_anomaly"
        \/ pattern_type p = lit "temperature_deficit"
        \/ pattern_type p = lit "high_power_consumption")
    /\ (category p = lit "smart_behavior" <->
        pattern_type p = lit "tariff_optimization"
        \/ pattern_type p = lit "vpp_curtailment"
        \/ pattern_type p = lit "predictive_heating")
    /\ trigger p <> [].
Proof.
  intros sd p Hdet.
  pose proof (detect_pattern_cases sd p Hdet) as Hin.
  split; [exact Hin|].
  split; [|split; [|split; [|split; [|exact (detect_pattern_trigger sd p Hdet)]]]].
  all: unfold classifications in Hin; cbn [In] in Hin.
  all: repeat (destruct Hin as [Hin | Hin]; [pairs_of Hin|]); try destruct Hin.
  all: try (unfold rule_table; cbn [List.map snd app In];
            repeat (first [left; reflexivity | right])).
  all: lit_fact.
Qed.

Lemma classification_closed_enumeration_witness :
  exists p, detect_pattern deficit_scenario = Ok p
    /\ pattern_type p = lit "temperature_deficit"
    /\ (is_anomaly p = true <-> severity p <> lit "none")
    /\ is_anomaly p = true.
Proof.
  eexists. split; [vm_compute; reflexivity|].
  destruct (classification_closed_enumeration deficit_scenario _
              ltac:(vm_compute; reflexivity)) as (_ & _ & Hsev & _).
  split; [vm_compute; reflexivity|]. split; [exact Hsev|].
  reflexivity.
Defined.

(** X2. The tier of the guidance follows the classification: for every
    classification [detect_pattern] returns, [get_actionable_guidance]
    returns a record, whose tier is [normal] exactly when the reading is not
    an anomaly, [fault] exactly when the severity is [high] and [check]
    exactly when it is [medium]. *)
Theorem guidance_tier_follows_severity :
  forall (sd : Scenario) (p : Pattern),
    detect_pattern sd = Ok p ->
    exists g, get_actionable_guidance p sd = Ok g
      /\ (tier g = lit "normal" <-> is_anomaly p = false)
      /\ (tier g = lit "fault" <-> severity p = lit "high")
      /\ (tier g = lit "check" <-> severity p = lit "medium")
      /\ (g_confidence g = lit "Probably normal" <->
          pattern_type p = lit "normal_operation").
Proof.
  intros sd p Hdet.
  destruct (detect_pattern_fields sd p Hdet)
    as (d & indoor & outdoor & c & power & Hd & Hi & Ho & Hc & Hp).
  pose proof (detect_pattern_cases sd p Hdet) as Hin.
  eexists.
  split; [exact (get_actionable_guidance_ok sd d outdoor c power Hd Ho Hc Hp p)|].
  unfold classifications in Hin; cbn [In] in Hin.
  repeat (destruct Hin as [Hin | Hin]; [pairs_of Hin|]); try destruct Hin.
  all: unfold guidance_map, guidance_default; lit_lookup;
       cbn [tier g_confidence].
  all: repeat apply conj; lit_fact.
Qed.

Lemma guidance_tier_follows_severity_witness :
  exists p g, detect_pattern deficit_scenario = Ok p
    /\ get_actionable_guidance p deficit_scenario = Ok g
    /\ severity p = lit "medium" /\ tier g = lit "check".
Proof.
  destruct (guidance_tier_follows_severity deficit_scenario _
              ltac:(vm_compute; reflexivity))
    as (g & Hg & _ & _ & Hcheck & _).
  do 2 eexists. split; [vm_compute; reflexivity|].
  split; [exact Hg|].
  split; [vm_compute; reflexivity|].
  apply Hcheck. vm_compute. reflexivity.
Defined.

(** X3. Only the three smart behaviours carry a benefit: for a classification
    [detect_pattern] returned, [calculate_benefits] gives 0.15 and 1.2 for
    [vpp_curtailment], 0.85 and 0.5 for [predictive_heating], carbon 0.8 for
    [tariff_optimization], and 0.0 and 0.0 for every anomaly and for the two
    normal-operation classes; the transparency report then shows ['N/A']
    instead of a number of trees. *)
Theorem benefits_only_for_smart_behavior :
  forall (sd : Scenario) (p : Pattern),
    detect_pattern sd = Ok p ->
    exists b t,
      calculate_benefits sd p = Ok b
      /\ build_transparency_data sd p b = Ok t
      /\ (pattern_type p = lit "vpp_curtailment" ->
          cost_savings b = 0.15 /\ carbon_kg b = 1.2)
      /\ (pattern_type p = lit "predictive_heating" ->
          cost_savings b = 0.85 /\ carbon_kg b = 0.5)
      /\ (pattern_type p = lit "tariff_optimization" -> carbon_kg b = 0.8)
      /\ (category p <> lit "smart_behavior" ->
          cost_savings b = 0 /\ carbon_kg b = 0
          /\ b_cost_savings_today (calculated_benefits t) = pound ++ lit "0.00"
          /\ b_carbon_avoided (calculated_benefits t) = lit "0.0 kg CO2"
          /\ b_equivalent_to (calculated_benefits t) = lit "N/A")
      /\ (category p = lit "smart_behavior" ->
          b_equivalent_to (calculated_benefits t)
          = format_f 1 (carbon_kg b / 25) ++ lit " trees planted").
Proof.
  intros sd p Hdet.
  destruct (detect_pattern_fields sd p Hdet)
    as (d & indoor & outdoor & c & power & Hd & Hi & Ho & Hc & Hp).
  pose proof (detect_pattern_cases sd p Hdet) as Hin.
  destruct (calculate_benefits_ok sd d p Hd) as [b Hb].
  destruct (build_transparency_data_ok sd d indoor outdoor c power
              Hd Hi Ho Hc Hp p b) as [t Ht].
  exists b, t. split; [exact Hb|]. split; [exact Ht|].
  unfold build_transparency_data in Ht.
  rewrite Hd in Ht. cbn [bind require] in Ht.
  rewrite Hi in Ht. cbn [bind require] in Ht.
  rewrite Ho in Ht. cbn [bind require] in Ht.
  rewrite Hc in Ht. cbn [bind require] in Ht.
  rewrite Hp in Ht. cbn [bind require] in Ht.
  destruct (_explain_conclusion_logic p d) as [why|e];
    cbn [bind] in Ht; [|discriminate Ht].
  injection Ht as <-.
  cbn [calculated_benefits b_cost_savings_today b_carbon_avoided b_equivalent_to].
  unfold calculate_benefits in Hb. rewrite Hd in Hb. cbn [bind require] in Hb.
  unfold classifications in Hin; cbn [In] in Hin.
  repeat (destruct Hin as [Hin | Hin]; [pairs_of Hin|]); try destruct Hin.
  all: repeat match type of Hb with
       | context [str_eqb (lit ?a) (lit ?b)] =>
           let v := eval vm_compute in (str_eqb (lit a) (lit b)) in
           change (str_eqb (lit a) (lit b)) with v in Hb; cbv iota in Hb
       end.
  all: injection Hb as <-; cbn [cost_savings carbon_kg].
  all: repeat apply conj; intros E;
       first [ lit_absurd E
             | exfalso; apply E; reflexivity
             | repeat apply conj; vm_compute; reflexivity ].
Qed.

Lemma benefits_only_for_smart_behavior_witness :
  exists p b t, detect_pattern deficit_scenario = Ok p
    /\ calculate_benefits deficit_scenario p = Ok b
    /\ build_transparency_data deficit_scenario p b = Ok t
    /\ cost_savings b = 0 /\ carbon_kg b = 0
    /\ b_equivalent_to (calculated_benefits t) = lit "N/A".
Proof.
  destruct (benefits_only_for_smart_behavior deficit_scenario _
              ltac:(vm_compute; reflexivity))
    as (b & t & Hb & Ht & _ & _ & _ & Hzero & _).
  eexists. exists b, t. split; [vm_compute; reflexivity|].
  split; [exact Hb|]. split; [exact Ht|].
  destruct Hzero as (H1 & H2 & _ & _ & H3); [lit_neq|].
  split; [exact H1|]. split; [exact H2|exact H3].
Defined.

(** X4. The client decides the narrative and nothing else: when an analysis
    succeeds against one client it succeeds against every client, with the
    same scenario name, classification, guidance, benefits and transparency
    report; and two clients that answer the first call alike give the same
    result. *)
Theorem client_decides_narrative_only :
  forall (sd : Scenario) (cl1 cl2 : client) (r1 : AnalysisResult),
    fst (run cl1 (analyze_scenario sd)) = Ok r1 ->
    exists r2, run cl2 (analyze_scenario sd) = (Ok r2, 1%nat)
      /\ scenario_name r2 = scenario_name r1
      /\ pattern_detection r2 = pattern_detection r1
      /\ actionable_guidance r2 = actionable_guidance r1
      /\ benefits r2 = benefits r1
      /\ transparency_data r2 = transparency_data r1
      /\ ((forall prompt, cl2 O prompt = cl1 O prompt) -> r2 = r1).
Proof.
  intros sd cl1 cl2 r1 Hrun.
  destruct (analyze_scenario_inv sd cl1 r1 Hrun)
    as (d & indoor & outdoor & c & power & p & b & prompt & g & t
        & Hd & Hi & Ho & Hc & Hp & Hdet & Hb & Hprompt & Hg & Ht & _ & ->).
  destruct (analyze_scenario_run sd d indoor outdoor c power Hd Hi Ho Hc Hp
              p b cl2 Hdet Hb) as (prompt' & g' & t' & Hprompt' & Hg' & Ht' & Hr).
  rewrite Hprompt in Hprompt'. injection Hprompt' as <-.
  rewrite Hg in Hg'. injection Hg' as <-.
  rewrite Ht in Ht'. injection Ht' as <-.
  eexists. split; [exact Hr|].
  cbv zeta.
  cbn [scenario_name pattern_detection actionable_guidance benefits
       transparency_data].
  repeat split.
  intros Hsame. rewrite Hsame. reflexivity.
Qed.

Lemma client_decides_narrative_only_witness :
  exists r1 r2,
    run failing_client (analyze_scenario mild_scenario) = (Ok r1, 1%nat)
    /\ run terse_client (analyze_scenario mild_scenario) = (Ok r2, 1%nat)
    /\ transparency_data r2 = transparency_data r1
    /\ explanation r1 = lit "Your heat pump is operating normally."
    /\ explanation r2 = lit "All is well.".
Proof.
  eexists.
  destruct (client_decides_narrative_only mild_scenario failing_client
              terse_client _ ltac:(vm_compute; reflexivity))
    as (r2 & Hr2 & _ & _ & _ & _ & Ht & _).
  exists r2. split; [vm_compute; reflexivity|].
  split; [exact Hr2|]. split; [exact Ht|].
  split; [vm_compute; reflexivity|].
  vm_compute in Hr2. injection Hr2 as <-. vm_compute. reflexivity.
Defined.

(** X5. An analysis fails before the client is called or not at all: for
    every scenario, either [detect_pattern] raises, and [analyze_scenario] is
    that error with no call made, or the analysis returns a result after
    exactly one call, whatever the client answers; none of the components
    that run after the classifier raises. *)
Theorem analysis_fails_before_the_call_or_never :
  forall sd : Scenario,
    (exists e, detect_pattern sd = Err e
       /\ analyze_scenario sd = Ret (Err e)
       /\ forall cl, run cl (analyze_scenario sd) = (Err e, O))
    \/ (exists p b g t,
          detect_pattern sd = Ok p
          /\ calculate_benefits sd p = Ok b
          /\ get_actionable_guidance p sd = Ok g
          /\ build_transparency_data sd p b = Ok t
          /\ forall cl, exists r, run cl (analyze_scenario sd) = (Ok r, 1%nat)).
Proof.
  intros sd. destruct (detect_pattern sd) as [p|e] eqn:Hdet.
  - right.
    destruct (detect_pattern_fields sd p Hdet)
      as (d & indoor & outdoor & c & power & Hd & Hi & Ho & Hc & Hp).
    destruct (calculate_benefits_ok sd d p Hd) as [b Hb].
    destruct (build_transparency_data_ok sd d indoor outdoor c power
                Hd Hi Ho Hc Hp p b) as [t Ht].
    exists p, b. eexists. exists t.
    split; [reflexivity|]. split; [exact Hb|].
    split; [exact (get_actionable_guidance_ok sd d outdoor c power
                     Hd Ho Hc Hp p)|].
    split; [exact Ht|].
    intros cl.
    destruct (analyze_scenario_run sd d indoor outdoor c power Hd Hi Ho Hc Hp
                p b cl Hdet Hb) as (prompt & g' & t' & _ & _ & _ & Hr).
    eexists. exact Hr.
  - left. exists e. split; [reflexivity|].
    assert (E : analyze_scenario sd = Ret (Err e)).
    { unfold analyze_scenario. rewrite Hdet. reflexivity. }
    split; [exact E|]. intros cl. rewrite E. reflexivity.
Qed.

(** X6. The two anomaly classes of tier [check] have no fallback template:
    when the client fails on a reading classified [temperature_deficit] or
    [high_power_consumption], the narrative is the default text of
    [normal_operation], "Your heat pump is operating normally.", six words,
    while the same result flags an anomaly with guidance of tier [check]. *)
Theorem check_tier_fallback_says_normal :
  forall (sd : Scenario) (p : Pattern) (cl : client),
    detect_pattern sd = Ok p ->
    pattern_type p = lit "temperature_deficit"
    \/ pattern_type p = lit "high_power_consumption" ->
    (forall prompt, cl O prompt = Failure) ->
    exists r, run cl (analyze_scenario sd) = (Ok r, 1%nat)
      /\ pattern_detection r = p
      /\ explanation r = lit "Your heat pump is operating normally."
      /\ word_count r = 6%nat
      /\ is_anomaly (pattern_detection r) = true
      /\ tier (actionable_guidance r) = lit "check".
Proof.
  intros sd p cl Hdet Hpt Hfail.
  destruct (detect_pattern_fields sd p Hdet)
    as (d & indoor & outdoor & c & power & Hd & Hi & Ho & Hc & Hp).
  destruct (calculate_benefits_ok sd d p Hd) as [b Hb].
  destruct (analyze_scenario_run sd d indoor outdoor c power Hd Hi Ho Hc Hp
              p b cl Hdet Hb) as (prompt & g & t & _ & Hg & _ & Hr).
  rewrite Hfail in Hr. cbv zeta in Hr.
  eexists. split; [exact Hr|].
  cbn [pattern_detection explanation word_count actionable_guidance].
  split; [reflexivity|].
  rewrite (get_actionable_guidance_ok sd d outdoor c power Hd Ho Hc Hp p) in Hg.
  injection Hg as <-.
  pose proof (detect_pattern_cases sd p Hdet) as Hin.
  unfold classifications in Hin; cbn [In] in Hin.
  repeat (destruct Hin as [Hin | Hin]; [pairs_of Hin|]); try destruct Hin.
  all: try (exfalso; destruct Hpt as [E | E]; lit_absurd E).
  all: unfold templates, guidance_map, guidance_default; lit_lookup;
       cbn [tier].
  all: repeat apply conj; vm_compute; reflexivity.
Qed.

Lemma check_tier_fallback_says_normal_witness :
  exists r, run failing_client (analyze_scenario deficit_scenario) = (Ok r, 1%nat)
    /\ pattern_type (pattern_detection r) = lit "temperature_deficit"
    /\ explanation r = lit "Your heat pump is operating normally."
    /\ tier (actionable_guidance r) = lit "check".
Proof.
  destruct (check_tier_fallback_says_normal deficit_scenario _ failing_client
              ltac:(vm_compute; reflexivity)
              ltac:(left; vm_compute; reflexivity)
              ltac:(intros prompt; reflexivity))
    as (r & Hr & Hp & He & _ & _ & Ht).
  exists r. split; [exact Hr|].
  split; [rewrite Hp; vm_compute; reflexivity|].
  split; [exact He|exact Ht].
Defined.

(** X7. [get_actionable_guidance] builds its whole lookup table before it
    looks the pattern_type up, so it needs [outdoor_temp],
    [power_consumption_kw] and [cop] whatever the pattern_type: called on a
    snapshot without one of them it raises [KeyError] for the first one
    absent, in that order, also for a pattern_type whose entry shows none of
    them; with the three present it returns a record for every
    pattern_type. *)
Theorem guidance_table_is_built_eagerly :
  forall (p : Pattern) (sd : Scenario),
    (data sd = None -> get_actionable_guidance p sd = Err (KeyError "data"))
    /\ (forall d, data sd = Some d ->
         (outdoor_temp d = None ->
          get_actionable_guidance p sd = Err (KeyError "outdoor_temp"))
         /\ (outdoor_temp d <> None -> power_consumption_kw d = None ->
             get_actionable_guidance p sd
             = Err (KeyError "power_consumption_kw"))
         /\ (outdoor_temp d <> None -> power_consumption_kw d <> None ->
             cop d = None ->
             get_actionable_guidance p sd = Err (KeyError "cop"))
         /\ (outdoor_temp d <> None -> power_consumption_kw d <> None ->
             cop d <> None ->
             exists g, get_actionable_guidance p sd = Ok g)).
Proof.
  intros p sd. split.
  - intros Hd. unfold get_actionable_guidance. rewrite Hd. reflexivity.
  - intros d Hd. unfold get_actionable_guidance. rewrite Hd.
    cbn [bind require].
    destruct (outdoor_temp d) as [outdoor|]; cbn [bind require];
      [|repeat apply conj; intros; first [reflexivity | congruence]].
    destruct (power_consumption_kw d) as [power|]; cbn [bind require];
      [|repeat apply conj; intros; first [reflexivity | congruence]].
    destruct (cop d) as [c|]; cbn [bind require];
      [|repeat apply conj; intros; first [reflexivity | congruence]].
    repeat apply conj; intros; first [congruence | eexists; reflexivity].
Qed.

Lemma guidance_table_is_built_eagerly_witness :
  get_actionable_guidance
    {| pattern_type := lit "tariff_optimization"; severity := [];
       confidence := []; trigger := []; is_anomaly := false; category := [] |}
    no_outdoor_scenario = Err (KeyError "outdoor_temp")
  /\ get_actionable_guidance
       {| pattern_type := lit "tariff_optimization"; severity := [];
          confidence := []; trigger := []; is_anomaly := false; category := [] |}
       no_cop_scenario = Err (KeyError "cop").
Proof.
  split.
  - destruct (guidance_table_is_built_eagerly
                {| pattern_type := lit "tariff_optimization"; severity := [];
                   confidence := []; trigger := []; is_anomaly := false;
                   category := [] |} no_outdoor_scenario) as (_ & H).
    destruct (H _ eq_refl) as (H1 & _). apply H1. reflexivity.
  - destruct (guidance_table_is_built_eagerly
                {| pattern_type := lit "tariff_optimization"; severity := [];
                   confidence := []; trigger := []; is_anomaly := false;
                   category := [] |} no_cop_scenario) as (_ & H).
    destruct (H _ eq_refl) as (_ & _ & H3 & _).
    apply H3; [discriminate | discriminate | reflexivity].
Defined.

(** X8. The fallback narrative and the why-sentence are looked up in tables
    that are built whole: [_fallback_explanation] raises [KeyError] for
    [outdoor_temp], then [cop], and [_explain_conclusion_logic] for
    [indoor_temp], then [outdoor_temp], then [cop], whatever the
    pattern_type; the optional fields they show never raise.  A pattern_type
    without an entry gets the default sentence. *)
Theorem narrative_tables_are_built_eagerly :
  forall (p : Pattern) (d : Snapshot) (b : Benefits),
    (outdoor_temp d = None ->
     _fallback_explanation p d b = Err (KeyError "outdoor_temp"))
    /\ (outdoor_temp d <> None -> cop d = None ->
        _fallback_explanation p d b = Err (KeyError "cop"))
    /\ (indoor_temp d = None ->
        _explain_conclusion_logic p d = Err (KeyError "indoor_temp"))
    /\ (indoor_temp d <> None -> outdoor_temp d = None ->
        _explain_conclusion_logic p d = Err (KeyError "outdoor_temp"))
    /\ (indoor_temp d <> None -> outdoor_temp d <> None -> cop d = None ->
        _explain_conclusion_logic p d = Err (KeyError "cop"))
    /\ (indoor_temp d <> None -> outdoor_temp d <> None -> cop d <> None ->
        (exists text why,
            _fallback_explanation p d b = Ok text
            /\ _explain_conclusion_logic p d = Ok why
            /\ (~ In (pattern_type p)
                     [lit "tariff_optimization"; lit "vpp_curtailment";
                      lit "predictive_heating"; lit "cold_weather_operation";
                      lit "efficiency_anomaly"] ->
                text = lit "Your heat pump is operating normally."
                /\ why = lit "Analysis of operational parameters suggests normal behaviour"))).
Proof.
  intros p d b.
  unfold _fallback_explanation, _explain_conclusion_logic.
  destruct (indoor_temp d) as [indoor|];
    destruct (outdoor_temp d) as [outdoor|];
    destruct (cop d) as [c|]; cbn [bind require];
    repeat apply conj; intros;
    try first [reflexivity | congruence].
  do 2 eexists. split; [reflexivity|]. split; [reflexivity|].
  intros Hnot.
  destruct (dict_get_cases (templates d b outdoor c) (pattern_type p)
              (lit "Your heat pump is operating normally."))
    as [[Hdef1 _] | Hin].
  - destruct (dict_get_cases (logic_map d indoor outdoor c) (pattern_type p)
                (lit "Analysis of operational parameters suggests normal behaviour"))
      as [[Hdef2 _] | Hin].
    + split; assumption.
    + exfalso. apply Hnot. apply (in_map fst) in Hin. exact Hin.
  - exfalso. apply Hnot. apply (in_map fst) in Hin. exact Hin.
Qed.

Lemma narrative_tables_are_built_eagerly_witness :
  _fallback_explanation
    {| pattern_type := lit "vpp_curtailment"; severity := [];
       confidence := []; trigger := []; is_anomaly := false; category := [] |}
    (with_required 19.2 4.0 3.0 2.1)
    {| cost_savings := 0.15; carbon_kg := 1.2 |}
  = Ok (lit "The grid asked your heat pump to reduce during peak demand. Your house will reach 20"
        ++ deg ++ lit "C by morning as usual. This helps prevent blackouts.")
  /\ exists d, data no_cop_scenario = Some d
       /\ _explain_conclusion_logic
            {| pattern_type := lit "vpp_curtailment"; severity := [];
               confidence := []; trigger := []; is_anomaly := false;
               category := [] |} d = Err (KeyError "cop").
Proof.
  split; [vm_compute; reflexivity|].
  eexists. split; [reflexivity|].
  destruct (narrative_tables_are_built_eagerly
              {| pattern_type := lit "vpp_curtailment"; severity := [];
                 confidence := []; trigger := []; is_anomaly := false;
                 category := [] |}
              {| indoor_temp := Some 19.2; target_temp := None;
                 outdoor_temp := Some 4.0;
                 heat_pump_status := None; power_consumption_kw := Some 2.1;
                 cop := None;
                 flow_temp := None; electricity_price_current := None;
                 electricity_price_peak := None; vpp_signal := None;
                 weather_forecast_temp := None |}
              {| cost_savings := 0.15; carbon_kg := 1.2 |})
    as (_ & _ & _ & _ & H & _).
  apply H; [discriminate | discriminate | reflexivity].
Defined.

(** X9. A scenario without a timestamp is read as taken at noon: the hour is
    12, so with its four required fields present it always gets a
    classification, never [tariff_optimization], however cheap the
    electricity; the report shows the timestamp "Unknown". *)
Theorem no_timestamp_is_noon :
  forall (sd : Scenario) (d : Snapshot) (indoor outdoor c power : float),
    timestamp sd = None ->
    data sd = Some d -> indoor_temp d = Some indoor ->
    outdoor_temp d = Some outdoor -> cop d = Some c ->
    power_consumption_kw d = Some power ->
    hour_of sd = Ok 12%Z
    /\ exists p b t,
         detect_pattern sd = Ok p
         /\ pattern_type p <> lit "tariff_optimization"
         /\ pattern_type p
            = classify_by_table (extracted d indoor outdoor c power 12)
         /\ calculate_benefits sd p = Ok b
         /\ build_transparency_data sd p b = Ok t
         /\ c_timestamp (context t) = lit "Unknown".
Proof.
  intros sd d indoor outdoor c power Hts Hd Hi Ho Hc Hp.
  assert (Hh : hour_of sd = Ok 12%Z).
  { unfold hour_of. rewrite Hts. vm_compute. reflexivity. }
  split; [exact Hh|].
  destruct (detect_pattern_table sd d indoor outdoor c power 12 Hd Hi Ho Hc Hp Hh)
    as (p & Hdet & Hpt).
  destruct (calculate_benefits_ok sd d p Hd) as [b Hb].
  destruct (build_transparency_data_ok sd d indoor outdoor c power
              Hd Hi Ho Hc Hp p b) as [t Ht].
  exists p, b, t. split; [exact Hdet|]. split.
  - intros E.
    assert (R : rule4 (extracted d indoor outdoor c power 12) = true).
    { apply (classify_by_table_sound _ rule4 (lit "tariff_optimization")).
      - unfold rule_table. cbn [In]. do 3 right. left. reflexivity.
      - congruence. }
    unfold rule4, extracted in R. cbn [x_hour] in R.
    discriminate R.
  - split; [exact Hpt|]. split; [exact Hb|]. split; [exact Ht|].
    unfold build_transparency_data in Ht.
    rewrite Hd in Ht. cbn [bind require] in Ht.
    rewrite Hi in Ht. cbn [bind require] in Ht.
    rewrite Ho in Ht. cbn [bind require] in Ht.
    rewrite Hc in Ht. cbn [bind require] in Ht.
    rewrite Hp in Ht. cbn [bind require] in Ht.
    destruct (_explain_conclusion_logic p d) as [why|e];
      cbn [bind] in Ht; [|discriminate Ht].
    injection Ht as <-. cbn [context c_timestamp].
    rewrite Hts. reflexivity.
Qed.

Lemma no_timestamp_is_noon_witness :
  exists p, detect_pattern cheap_undated_scenario = Ok p
    /\ pattern_type p = lit "normal_operation"
    /\ pattern_type p <> lit "tariff_optimization".
Proof.
  destruct (no_timestamp_is_noon cheap_undated_scenario
              (with_prices (with_required 19.2 (-3.0) 3.0 2.1)
                 (Some 0.08) (Some 0.28))
              19.2 (-3.0) 3.0 2.1
              eq_refl eq_refl eq_refl eq_refl eq_refl eq_refl)
    as (_ & p & b & t & Hdet & Hnot & Hpt & _).
  exists p. split; [exact Hdet|]. split; [|exact Hnot].
  rewrite Hpt. vm_compute. reflexivity.
Defined.

(* ================================================================== *)
(** * The order of floats and the bands of the cop *)
(* ================================================================== *)

Lemma SFcompare_key (x y : spec_float) :
  SFcompare x y =
  match sf_key x, sf_key y with
  | Some a, Some b =>
    Some (if key_ltb a b then Lt else if key_eqb a b then Eq else Gt)
  | _, _ => None
  end.
Proof.
  destruct x as [sx|sx| |sx mx ex], y as [sy|sy| |sy my ey];
    try destruct sx; try destruct sy; try reflexivity.
  all: cbn [SFcompare sf_key key_ltb key_eqb].
  all: f_equal.
  all: change (Pos.compare_cont Eq mx my) with (Pos.compare mx my).
  all: destruct (Z.compare_spec ex ey); destruct (Pos.compare_spec mx my);
       cbn [CompOpp].
  all: repeat match goal with
       | |- context [(?a <? ?b)%Z] => destruct (Z.ltb_spec a b)
       | |- context [(?a =? ?b)%Z] => destruct (Z.eqb_spec a b)
       end.
  all: cbn [orb andb]; try reflexivity; try lia.
Qed.

Lemma ltb_key (x y : float) :
  (x <? y) =
  match float_key x, float_key y with
  | Some a, Some b => key_ltb a b
  | _, _ => false
  end.
Proof.
  rewrite ltb_spec. unfold SFltb, float_key. rewrite SFcompare_key.
  destruct (sf_key (Prim2SF x)) as [a|]; [|reflexivity].
  destruct (sf_key (Prim2SF y)) as [b|]; [|reflexivity].
  destruct (key_ltb a b); [reflexivity|].
  destruct (key_eqb a b); reflexivity.
Qed.

Lemma leb_key (x y : float) :
  (x <=? y) =
  match float_key x, float_key y with
  | Some a, Some b => key_ltb a b || key_eqb a b
  | _, _ => false
  end.
Proof.
  rewrite leb_spec. unfold SFleb, float_key. rewrite SFcompare_key.
  destruct (sf_key (Prim2SF x)) as [a|]; [|reflexivity].
  destruct (sf_key (Prim2SF y)) as [b|]; [|reflexivity].
  destruct (key_ltb a b); [reflexivity|].
  destruct (key_eqb a b); reflexivity.
Qed.

Lemma key_ltb_iff (a1 a2 a3 b1 b2 b3 : Z) :
  key_ltb (a1, a2, a3) (b1, b2, b3) = true
  <-> (a1 < b1 \/ (a1 = b1 /\ (a2 < b2 \/ (a2 = b2 /\ a3 < b3))))%Z.
Proof.
  unfold key_ltb.
  destruct (Z.ltb_spec a1 b1), (Z.eqb_spec a1 b1), (Z.ltb_spec a2 b2),
    (Z.eqb_spec a2 b2), (Z.ltb_spec a3 b3); cbn [orb andb];
    split; intros; try reflexivity; try discriminate; lia.
Qed.

Lemma key_eqb_iff (a1 a2 a3 b1 b2 b3 : Z) :
  key_eqb (a1, a2, a3) (b1, b2, b3) = true
  <-> (a1 = b1 /\ a2 = b2 /\ a3 = b3)%Z.
Proof.
  unfold key_eqb.
  destruct (Z.eqb_spec a1 b1), (Z.eqb_spec a2 b2), (Z.eqb_spec a3 b3);
    cbn [andb]; split; intros; try reflexivity; try discriminate; lia.
Qed.

(** Turns the comparisons of keys in the context and the goal into
    arithmetic. *)
Ltac key_order :=
  repeat match goal with
  | a : (Z * Z * Z)%type |- _ => destruct a as [[? ?] ?]
  end;
  repeat match goal with
  | H : (_ || _) = true |- _ => apply orb_true_iff in H
  | H : (_ || _) = false |- _ => apply orb_false_iff in H; destruct H
  | H : key_ltb _ _ = true |- _ => apply key_ltb_iff in H
  | H : key_eqb _ _ = true |- _ => apply key_eqb_iff in H
  | H : key_ltb _ _ = false |- _ =>
      apply not_true_iff_false in H; rewrite key_ltb_iff in H
  | H : key_eqb _ _ = false |- _ =>
      apply not_true_iff_false in H; rewrite key_eqb_iff in H
  | H : key_ltb _ _ = true \/ key_eqb _ _ = true |- _ =>
      rewrite key_ltb_iff, key_eqb_iff in H
  end;
  repeat match goal with
  | |- (_ || _) = true => apply orb_true_iff
  | |- (_ || _) = false => apply orb_false_iff; split
  | |- key_ltb _ _ = true => apply key_ltb_iff
  | |- key_eqb _ _ = true => apply key_eqb_iff
  | |- key_ltb _ _ = false => apply not_true_iff_false; rewrite key_ltb_iff
  | |- key_eqb _ _ = false => apply not_true_iff_false; rewrite key_eqb_iff
  | |- key_ltb _ _ = true \/ key_eqb _ _ = true =>
      rewrite key_ltb_iff, key_eqb_iff
  end;
  try lia.

Lemma eqb_key (x y : float) :
  (x =? y) =
  match float_key x, float_key y with
  | Some a, Some b => key_eqb a b
  | _, _ => false
  end.
Proof.
  rewrite eqb_spec. unfold SFeqb, float_key. rewrite SFcompare_key.
  destruct (sf_key (Prim2SF x)) as [a|]; [|reflexivity].
  destruct (sf_key (Prim2SF y)) as [b|]; [|reflexivity].
  destruct (key_ltb a b) eqn:L; [|destruct (key_eqb a b); reflexivity].
  symmetry. key_order.
Qed.

(** [x < y] excludes [y <= x]. *)
Lemma ltb_not_leb (x y : float) : (x <? y) = true -> (y <=? x) = false.
Proof.
  rewrite ltb_key, leb_key.
  destruct (float_key x) as [a|]; [|discriminate].
  destruct (float_key y) as [b|]; [|discriminate].
  intros H. key_order.
Qed.

(** [x < a <= b] gives [x < b]. *)
Lemma ltb_leb_trans (x a b : float) :
  (x <? a) = true -> (a <=? b) = true -> (x <? b) = true.
Proof.
  rewrite !ltb_key, leb_key.
  destruct (float_key x) as [kx|]; [|discriminate].
  destruct (float_key a) as [ka|]; [|discriminate].
  destruct (float_key b) as [kb|]; [|discriminate].
  intros H1 H2. key_order.
Qed.

(** [x < a <= b] excludes [b <= x]. *)
Lemma below_excludes (x a b : float) :
  (x <? a) = true -> (a <=? b) = true -> (b <=? x) = false.
Proof.
  intros H1 H2. apply ltb_not_leb. exact (ltb_leb_trans x a b H1 H2).
Qed.

(** A float that is not equal to itself is below nothing and above nothing. *)
Lemma nan_compares_false (x a : float) :
  (x =? x) = false -> (a <=? x) = false /\ (x <? a) = false.
Proof.
  rewrite eqb_key, leb_key, ltb_key.
  destruct (float_key x) as [kx|].
  - intros H. exfalso. key_order.
  - intros _. destruct (float_key a); split; reflexivity.
Qed.

(** A number is below a bound or at least the bound. *)
Lemma ltb_or_leb (x a : float) :
  (x =? x) = true -> (a =? a) = true -> (x <? a) = true \/ (a <=? x) = true.
Proof.
  rewrite !eqb_key, leb_key, ltb_key.
  destruct (float_key x) as [kx|]; [|discriminate].
  destruct (float_key a) as [ka|]; [|discriminate].
  intros _ _.
  destruct (key_ltb kx ka) eqn:L; [left; reflexivity|right].
  key_order.
Qed.

(** X10. The bands of [_interpret_cop] are half-open and cover every float:
    a cop of at least 3.5 is "Excellent", one in [3.0, 3.5) "Good", one in
    [2.5, 3.0) "Moderate", one in [2.0, 2.5) "Acceptable for cold weather",
    one below 2.0 "Lower than expected - may need attention", which is also
    what a cop that is not a number gets. *)
Theorem interpret_cop_bands :
  forall cop : float,
    ((3.5 <=? cop) = true -> _interpret_cop cop = lit "Excellent efficiency")
    /\ ((3.0 <=? cop) = true -> (cop <? 3.5) = true ->
        _interpret_cop cop = lit "Good efficiency")
    /\ ((2.5 <=? cop) = true -> (cop <? 3.0) = true ->
        _interpret_cop cop = lit "Moderate efficiency")
    /\ ((2.0 <=? cop) = true -> (cop <? 2.5) = true ->
        _interpret_cop cop = lit "Acceptable for cold weather")
    /\ ((cop <? 2.0) = true ->
        _interpret_cop cop = lit "Lower than expected - may need attention")
    /\ ((cop =? cop) = false ->
        _interpret_cop cop = lit "Lower than expected - may need attention")
    /\ ((cop =? cop) = true ->
        (3.5 <=? cop) = true
        \/ ((3.0 <=? cop) = true /\ (cop <? 3.5) = true)
        \/ ((2.5 <=? cop) = true /\ (cop <? 3.0) = true)
        \/ ((2.0 <=? cop) = true /\ (cop <? 2.5) = true)
        \/ (cop <? 2.0) = true).
Proof.
  intros cop. unfold _interpret_cop. repeat apply conj.
  - intros H. rewrite H. reflexivity.
  - intros H1 H2. rewrite (ltb_not_leb _ _ H2), H1. reflexivity.
  - intros H1 H2.
    rewrite (below_excludes cop 3.0 3.5 H2 eq_refl).
    rewrite (ltb_not_leb _ _ H2), H1. reflexivity.
  - intros H1 H2.
    rewrite (below_excludes cop 2.5 3.5 H2 eq_refl).
    rewrite (below_excludes cop 2.5 3.0 H2 eq_refl).
    rewrite (ltb_not_leb _ _ H2), H1. reflexivity.
  - intros H.
    rewrite (below_excludes cop 2.0 3.5 H eq_refl).
    rewrite (below_excludes cop 2.0 3.0 H eq_refl).
    rewrite (below_excludes cop 2.0 2.5 H eq_refl).
    rewrite (ltb_not_leb _ _ H). reflexivity.
  - intros H.
    rewrite (proj1 (nan_compares_false cop 3.5 H)).
    rewrite (proj1 (nan_compares_false cop 3.0 H)).
    rewrite (proj1 (nan_compares_false cop 2.5 H)).
    rewrite (proj1 (nan_compares_false cop 2.0 H)). reflexivity.
  - intros H.
    destruct (ltb_or_leb cop 3.5 H eq_refl) as [L35 | G35]; [|left; exact G35].
    right.
    destruct (ltb_or_leb cop 3.0 H eq_refl) as [L30 | G30];
      [|left; split; assumption].
    right.
    destruct (ltb_or_leb cop 2.5 H eq_refl) as [L25 | G25];
      [|left; split; assumption].
    right.
    destruct (ltb_or_leb cop 2.0 H eq_refl) as [L20 | G20];
      [right; exact L20 | left; split; assumption].
Qed.

Lemma interpret_cop_bands_witness :
  _interpret_cop 3.4999 = lit "Good efficiency"
  /\ _interpret_cop 1.9999 = lit "Lower than expected - may need attention"
  /\ _interpret_cop nan = lit "Lower than expected - may need attention".
Proof.
  destruct (interpret_cop_bands 3.4999) as (_ & Hgood & _).
  destruct (interpret_cop_bands 1.9999) as (_ & _ & _ & _ & Hlow & _).
  destruct (interpret_cop_bands nan) as (_ & _ & _ & _ & _ & Hnan & _).
  split; [apply Hgood; reflexivity|].
  split; [apply Hlow; reflexivity | apply Hnan; reflexivity].
Defined.

(** The cop of a reading classified by rule 1 or by rule 7. *)
Lemma detect_pattern_cop_range (sd : Scenario) (d : Snapshot)
    (indoor outdoor c power : float) (p : Pattern) :
  data sd = Some d -> indoor_temp d = Some indoor ->
  outdoor_temp d = Some outdoor -> cop d = Some c ->
  power_consumption_kw d = Some power ->
  detect_pattern sd = Ok p ->
  (pattern_type p = lit "efficiency_anomaly" -> (c <? 1.8) = true)
  /\ (pattern_type p = lit "cold_weather_operation" ->
      (2.0 <=? c) = true /\ (c <? 2.8) = true).
Proof.
  intros Hd Hi Ho Hc Hp Hdet.
  rewrite (detect_pattern_rules sd d indoor outdoor c power Hd Hi Ho Hc Hp) in Hdet.
  unfold pattern_detection_logic in Hdet.
  destruct (hour_of sd) as [h|e]; cbn [bind] in Hdet.
  all: repeat match type of Hdet with
       | (if ?b then _ else _) = _ => destruct b eqn:?
       end.
  all: try discriminate Hdet.
  all: injection Hdet as <-; cbn [pattern_type].
  all: repeat match goal with
       | H : (_ && _) = true |- _ => apply andb_true_iff in H; destruct H
       end.
  all: split; intros E; first [lit_absurd E | split; assumption | assumption].
Qed.

(** X11. The band the report shows agrees with the classification: in the
    report of a reading classified [efficiency_anomaly] the cop is
    interpreted as "Lower than expected - may need attention", and in the
    report of a reading classified [cold_weather_operation] as "Acceptable
    for cold weather" or "Moderate efficiency", never as good or
    excellent. *)
Theorem cop_band_agrees_with_classification :
  forall (sd : Scenario) (p : Pattern) (b : Benefits) (t : Transparency),
    detect_pattern sd = Ok p ->
    build_transparency_data sd p b = Ok t ->
    exists d c,
      data sd = Some d /\ cop d = Some c
      /\ m_system_efficiency (measurements t) = format_f 1 c
      /\ m_cop_interpretation (measurements t) = _interpret_cop c
      /\ (pattern_type p = lit "efficiency_anomaly" ->
          m_cop_interpretation (measurements t)
          = lit "Lower than expected - may need attention")
      /\ (pattern_type p = lit "cold_weather_operation" ->
          m_cop_interpretation (measurements t)
          = lit "Acceptable for cold weather"
          \/ m_cop_interpretation (measurements t)
             = lit "Moderate efficiency").
Proof.
  intros sd p b t Hdet Ht.
  destruct (detect_pattern_fields sd p Hdet)
    as (d & indoor & outdoor & c & power & Hd & Hi & Ho & Hc & Hp).
  destruct (detect_pattern_cop_range sd d indoor outdoor c power p
              Hd Hi Ho Hc Hp Hdet) as (Hlow & Hcold).
  exists d, c. split; [exact Hd|]. split; [exact Hc|].
  unfold build_transparency_data in Ht.
  rewrite Hd in Ht. cbn [bind require] in Ht.
  rewrite Hi in Ht. cbn [bind require] in Ht.
  rewrite Ho in Ht. cbn [bind require] in Ht.
  rewrite Hc in Ht. cbn [bind require] in Ht.
  rewrite Hp in Ht. cbn [bind require] in Ht.
  destruct (_explain_conclusion_logic p d) as [why|e];
    cbn [bind] in Ht; [|discriminate Ht].
  injection Ht as <-.
  cbn [measurements m_system_efficiency m_cop_interpretation].
  split; [reflexivity|]. split; [reflexivity|]. split.
  - intros E. specialize (Hlow E). unfold _interpret_cop.
    rewrite (below_excludes c 1.8 3.5 Hlow eq_refl).
    rewrite (below_excludes c 1.8 3.0 Hlow eq_refl).
    rewrite (below_excludes c 1.8 2.5 Hlow eq_refl).
    rewrite (below_excludes c 1.8 2.0 Hlow eq_refl). reflexivity.
  - intros E. destruct (Hcold E) as [Hge Hlt]. unfold _interpret_cop.
    rewrite (below_excludes c 2.8 3.5 Hlt eq_refl).
    rewrite (below_excludes c 2.8 3.0 Hlt eq_refl).
    destruct (2.5 <=? c); [right; reflexivity|].
    rewrite Hge. left. reflexivity.
Qed.

Lemma cop_band_agrees_with_classification_witness :
  exists p b t,
    detect_pattern frost_scenario_b = Ok p
    /\ build_transparency_data frost_scenario_b p b = Ok t
    /\ pattern_type p = lit "cold_weather_operation"
    /\ m_cop_interpretation (measurements t) = lit "Moderate efficiency".
Proof.
  do 3 eexists.
  split; [vm_compute; reflexivity|].
  assert (Ht : build_transparency_data frost_scenario_b
                 {| pattern_type := lit "cold_weather_operation";
                    severity := lit "none"; confidence := lit "high";
                    trigger := lit "Normal efficiency for "
                               ++ repr_float (-5.0) ++ deg ++ lit "C weather";
                    is_anomaly := false;
                    category := lit "normal_operation" |}
                 {| cost_savings := 0; carbon_kg := 0 |}
               = Ok _) by (vm_compute; reflexivity).
  split; [exact Ht|].
  split; [vm_compute; reflexivity|].
  destruct (cop_band_agrees_with_classification frost_scenario_b _ _ _
              ltac:(vm_compute; reflexivity) Ht)
    as (d & c & Hd & Hc & _ & Hband & _).
  vm_compute in Hd. injection Hd as <-.
  vm_compute in Hc. injection Hc as <-.
  rewrite Hband. vm_compute. reflexivity.
Defined.

(* ================================================================== *)
(** * What the truncation keeps *)
(* ================================================================== *)

Lemma split_go_graphic (w s cur : str) :
  graphic w = true -> split_go (w ++ s) cur = split_go s (cur ++ w).
Proof.
  revert cur. induction w as [|ch w IH]; intros cur Hw.
  - rewrite app_nil_r. reflexivity.
  - unfold graphic in Hw. cbn [forallb] in Hw.
    apply andb_true_iff in Hw as [Hc Hw].
    apply negb_true_iff in Hc.
    cbn [app split_go]. rewrite Hc.
    rewrite (IH (cur ++ [ch]) Hw). rewrite <- app_assoc. reflexivity.
Qed.

Lemma split_word_alone (w : str) : is_word w -> split w = [w].
Proof.
  intros [Hne Hg]. unfold split.
  rewrite <- (app_nil_r w) at 1. rewrite (split_go_graphic w [] [] Hg).
  cbn [app split_go]. destruct w; [congruence|reflexivity].
Qed.

Lemma split_word_space (w s : str) :
  is_word w -> split (w ++ lit " " ++ s) = w :: split s.
Proof.
  intros [Hne Hg]. unfold split.
  rewrite (split_go_graphic w _ [] Hg).
  change (lit " " ++ s) with (32%N :: s).
  cbn [app split_go].
  change (isspace 32%N) with true. cbv iota.
  destruct w; [congruence|reflexivity].
Qed.

(** [' '.join(ws).split()] is [ws] when [ws] is a list of words. *)
Lemma split_join_words (ws : list str) :
  Forall is_word ws -> split (join (lit " ") ws) = ws.
Proof.
  intros H. induction H as [|w ws Hw Hws IH]; [reflexivity|].
  destruct ws as [|w2 rest].
  - apply split_word_alone. exact Hw.
  - change (join (lit " ") (w :: w2 :: rest))
      with (w ++ lit " " ++ join (lit " ") (w2 :: rest)).
    rewrite (split_word_space w _ Hw). rewrite IH. reflexivity.
Qed.

Lemma join_snoc_suffix (sep : str) (l : list str) (w t : str) :
  join sep (l ++ [w]) ++ t = join sep (l ++ [w ++ t]).
Proof.
  induction l as [|a l IH]; [reflexivity|].
  destruct l as [|a2 l].
  - cbn [app join]. rewrite <- !app_assoc. reflexivity.
  - change (join sep ((a :: a2 :: l) ++ [w]))
      with (a ++ sep ++ join sep ((a2 :: l) ++ [w])).
    change (join sep ((a :: a2 :: l) ++ [w ++ t]))
      with (a ++ sep ++ join sep ((a2 :: l) ++ [w ++ t])).
    rewrite <- IH. rewrite <- !app_assoc. reflexivity.
Qed.

Lemma firstn_succ_nth {A : Type} (n : nat) (l : list A) (default : A) :
  (n < List.length l)%nat ->
  firstn (S n) l = firstn n l ++ [nth n l default].
Proof.
  revert l. induction n as [|n IH]; intros [|x l] Hl;
    cbn [List.length] in Hl; try lia.
  - reflexivity.
  - rewrite 2!firstn_cons. cbn [nth app]. rewrite (IH l) by lia. reflexivity.
Qed.

Lemma Forall_nth_word (ws : list str) (n : nat) :
  Forall is_word ws -> (n < List.length ws)%nat -> is_word (nth n ws []).
Proof.
  intros H. revert n. induction H as [|w ws Hw Hws IH]; intros [|n] Hl;
    cbn [List.length] in Hl; try lia.
  - exact Hw.
  - cbn [nth]. apply IH. lia.
Qed.

(** X12. What the truncation keeps.  A reply of at most 50 words is returned
    as it is, stripped of the whitespace around it.  Of a longer reply the
    narrative keeps the first 50 words, joined by single spaces, with "..."
    glued to the fiftieth: read back with [split], the narrative is the
    first 49 words of the reply followed by the fiftieth with its ellipsis,
    50 words.  And words joined by single spaces are read back unchanged. *)
Theorem truncation_keeps_first_words :
  (forall ws : list str,
      Forall is_word ws -> split (join (lit " ") ws) = ws)
  /\ (forall text : str,
        (List.length (split (strip text)) <= 50)%nat ->
        bound_words text = strip text)
  /\ (forall text : str,
        (50 < List.length (split (strip text)))%nat ->
        bound_words text
        = join (lit " ") (firstn 50 (split (strip text))) ++ lit "..."
        /\ split (bound_words text)
           = firstn 49 (split (strip text))
             ++ [nth 49 (split (strip text)) [] ++ lit "..."]
        /\ List.length (split (bound_words text)) = 50%nat).
Proof.
  split; [exact split_join_words|]. split.
  - intros text H. unfold bound_words.
    apply Nat.ltb_ge in H. rewrite H. reflexivity.
  - intros text H. unfold bound_words.
    pose proof H as Hlt. apply Nat.ltb_lt in Hlt. rewrite Hlt.
    split; [reflexivity|].
    set (ws := split (strip text)) in *.
    assert (Hws : Forall is_word ws) by apply split_words.
    assert (E : split (join (lit " ") (firstn 50 ws) ++ lit "...")
                = firstn 49 ws ++ [nth 49 ws [] ++ lit "..."]).
    { rewrite (firstn_succ_nth 49 ws []) by lia.
      rewrite join_snoc_suffix. apply split_join_words.
      apply Forall_app. split; [apply Forall_take; exact Hws|].
      constructor; [|constructor].
      destruct (Forall_nth_word ws 49 Hws ltac:(lia)) as [Hne Hg].
      split.
      - destruct (nth 49 ws []); [congruence|discriminate].
      - rewrite graphic_app, Hg. reflexivity. }
    split; [exact E|].
    rewrite E, length_app, length_firstn. cbn [List.length]. lia.
Qed.

Lemma truncation_keeps_first_words_witness :
  (List.length (split long_reply) = 60)%nat
  /\ split (bound_words long_reply)
     = repeat (lit "warm") 49 ++ [lit "warm..."]
  /\ bound_words (lit "  All is well. ") = lit "All is well.".
Proof.
  destruct truncation_keeps_first_words as (_ & Hshort & Hlong).
  split; [vm_compute; reflexivity|]. split.
  - destruct (Hlong long_reply) as (_ & E & _).
    + vm_compute. lia.
    + rewrite E. vm_compute. reflexivity.
  - rewrite Hshort.
    + vm_compute. reflexivity.
    + vm_compute. lia.
Defined.

(** What [build_transparency_data] has read when it returns a report. *)
Lemma build_transparency_data_inv (sd : Scenario) (p : Pattern) (b : Benefits)
    (t : Transparency) :
  build_transparency_data sd p b = Ok t ->
  exists d indoor outdoor c power why,
    data sd = Some d /\ indoor_temp d = Some indoor
    /\ outdoor_temp d = Some outdoor /\ cop d = Some c
    /\ power_consumption_kw d = Some power
    /\ _explain_conclusion_logic p d = Ok why
    /\ build_transparency_data sd p b = Ok t.
Proof.
  intros Ht. pose proof Ht as Ht'. unfold build_transparency_data in Ht.
  destruct (data sd) as [d|]; cbn [bind require] in Ht; [|discriminate Ht].
  destruct (indoor_temp d) as [indoor|] eqn:Hi; cbn [bind require] in Ht;
    [|discriminate Ht].
  destruct (outdoor_temp d) as [outdoor|] eqn:Ho; cbn [bind require] in Ht;
    [|discriminate Ht].
  destruct (cop d) as [c|] eqn:Hc; cbn [bind require] in Ht; [|discriminate Ht].
  destruct (power_consumption_kw d) as [power|] eqn:Hp; cbn [bind require] in Ht;
    [|discriminate Ht].
  destruct (_explain_conclusion_logic p d) as [why|e] eqn:Hwhy;
    cbn [bind] in Ht; [|discriminate Ht].
  exists d, indoor, outdoor, c, power, why. repeat split; assumption.
Qed.

(** X13. What the report shows for fields that are absent or false.  Without
    a property profile it shows the type "Unknown", the heat pump "Unknown "
    (the default brand, a space and an empty model), the size "7.0 kW" and
    the efficiency "2.80".  The grid signal is the string "None" when the
    field is absent, Python's [None] when the field is present with the value
    [None], and the signal itself otherwise.  The forecast is "N/A" when the
    field is absent or zero.  An absent flow temperature is shown as 40 (an
    integer default) and an absent target temperature as 20.0, while the
    fallback narrative of [vpp_curtailment] shows the same absent target as
    20. *)
Theorem report_defaults :
  forall (sd : Scenario) (p : Pattern) (b : Benefits) (t : Transparency),
    build_transparency_data sd p b = Ok t ->
    exists d,
      data sd = Some d
      /\ (property_profile sd = None ->
          p_property_type (property_details t) = lit "Unknown"
          /\ p_heat_pump (property_details t) = lit "Unknown "
          /\ p_heat_pump_size (property_details t) = lit "7.0 kW"
          /\ p_typical_annual_efficiency (property_details t) = lit "2.80")
      /\ (vpp_signal d = None -> c_grid_signal (context t) = Some (lit "None"))
      /\ (vpp_signal d = Some None -> c_grid_signal (context t) = None)
      /\ (forall s, vpp_signal d = Some (Some s) ->
          c_grid_signal (context t) = Some s)
      /\ (weather_forecast_temp d = None ->
          c_weather_forecast (context t) = lit "N/A")
      /\ (forall w, weather_forecast_temp d = Some w -> (w =? 0) = true ->
          c_weather_forecast (context t) = lit "N/A")
      /\ (forall w, weather_forecast_temp d = Some w -> (w =? 0) = false ->
          c_weather_forecast (context t) = repr_float w ++ deg ++ lit "C")
      /\ (flow_temp d = None ->
          m_flow_temperature (measurements t) = lit "40" ++ deg ++ lit "C")
      /\ (target_temp d = None ->
          m_target_temperature (measurements t) = lit "20.0" ++ deg ++ lit "C"
          /\ forall text,
               pattern_type p = lit "vpp_curtailment" ->
               _fallback_explanation p d b = Ok text ->
               text = lit "The grid asked your heat pump to reduce during peak demand. Your house will reach 20"
                      ++ deg ++ lit "C by morning as usual. This helps prevent blackouts.").
Proof.
  intros sd p b t Ht.
  destruct (build_transparency_data_inv sd p b t Ht)
    as (d & indoor & outdoor & c & power & why & Hd & Hi & Ho & Hc & Hp & Hwhy & _).
  exists d. split; [exact Hd|].
  unfold build_transparency_data in Ht.
  rewrite Hd in Ht. cbn [bind require] in Ht.
  rewrite Hi in Ht. cbn [bind require] in Ht.
  rewrite Ho in Ht. cbn [bind require] in Ht.
  rewrite Hc in Ht. cbn [bind require] in Ht.
  rewrite Hp in Ht. cbn [bind require] in Ht.
  rewrite Hwhy in Ht. cbn [bind] in Ht.
  injection Ht as <-.
  cbn [property_details p_property_type p_heat_pump p_heat_pump_size
       p_typical_annual_efficiency context c_grid_signal c_weather_forecast
       measurements m_flow_temperature m_target_temperature].
  repeat apply conj.
  - intros ->. cbn [get]. repeat apply conj; vm_compute; reflexivity.
  - intros ->. reflexivity.
  - intros ->. reflexivity.
  - intros s ->. reflexivity.
  - intros ->. reflexivity.
  - intros w -> Hz. unfold weather_forecast_text, truthy. rewrite Hz. reflexivity.
  - intros w -> Hz. unfold weather_forecast_text, truthy. rewrite Hz. reflexivity.
  - intros ->. reflexivity.
  - intros Htarget. split.
    + rewrite Htarget. cbn [get]. vm_compute. reflexivity.
    + intros text Hpt Hf.
      rewrite (fallback_explanation_ok d outdoor c Ho Hc p b) in Hf.
      injection Hf as <-. rewrite Hpt. unfold templates. lit_lookup.
      rewrite Htarget. reflexivity.
Qed.

Lemma report_defaults_witness :
  exists p b t,
    detect_pattern mild_scenario = Ok p
    /\ calculate_benefits mild_scenario p = Ok b
    /\ build_transparency_data mild_scenario p b = Ok t
    /\ p_heat_pump (property_details t) = lit "Unknown "
    /\ c_grid_signal (context t) = Some (lit "None")
    /\ m_flow_temperature (measurements t) = lit "40" ++ deg ++ lit "C".
Proof.
  do 3 eexists.
  split; [vm_compute; reflexivity|].
  split; [vm_compute; reflexivity|].
  assert (Ht : build_transparency_data mild_scenario
                 {| pattern_type := lit "normal_operation";
                    severity := lit "none"; confidence := lit "medium";
                    trigger := lit "Standard heating operation";
                    is_anomaly := false;
                    category := lit "normal_operation" |}
                 {| cost_savings := 0; carbon_kg := 0 |}
               = Ok _) by (vm_compute; reflexivity).
  split; [exact Ht|].
  destruct (report_defaults mild_scenario _ _ _ Ht)
    as (d & Hd & Hprof & Hgrid & _ & _ & _ & _ & _ & Hflow & _).
  vm_compute in Hd. injection Hd as <-.
  split; [apply Hprof; reflexivity|].
  split; [apply Hgrid; reflexivity | apply Hflow; reflexivity].
Defined.

(* ================================================================== *)
(** * The generated scenarios *)
(* ================================================================== *)

(** Evaluates the conditions of the classifier that hold no variable. *)
Ltac eval_closed_bool b :=
  let v := eval vm_compute in b in
  lazymatch v with
  | true => change b with true
  | false => change b with false
  end.

Ltac eval_conditions :=
  repeat match goal with
  | |- context [PrimFloat.ltb ?a ?b] => eval_closed_bool (PrimFloat.ltb a b)
  | |- context [PrimFloat.leb ?a ?b] => eval_closed_bool (PrimFloat.leb a b)
  | |- context [status_is_heating ?a] => eval_closed_bool (status_is_heating a)
  | |- context [truthy_signal ?a] => eval_closed_bool (truthy_signal a)
  | |- context [forecast_cold_snap ?a ?b] =>
      eval_closed_bool (forecast_cold_snap a b)
  | |- context [py_int ?s] =>
      let v := eval vm_compute in (py_int s) in change (py_int s) with v
  end;
  cbn [bind]; rewrite ?andb_false_r, ?andb_true_r; cbn [andb].

(** Unfolds the classifier on a scenario given by its fields. *)
Ltac classify_display :=
  unfold detect_pattern, as_scenario;
  cbn [g_data g_timestamp data bind require indoor_temp outdoor_temp cop
       power_consumption_kw target_temp get];
  unfold pattern_detection_logic, hour_of;
  cbn [timestamp get heat_pump_status electricity_price_current vpp_signal
       weather_forecast_temp];
  change (3.0 * 1.5) with 4.5;
  eval_conditions.

Lemma generate_scenarios_inv (profile : PropertyProfile)
    (gs : list GeneratedScenario) :
  generate_scenarios_from_profile profile = Ok gs ->
  exists pid specs size perf spf winter_flow mean_flow coldest_outdoor coldest_cop,
    property_id profile = Some pid
    /\ pp_heat_pump_specs profile = Some specs /\ hp_size_kw specs = Some size
    /\ pp_performance_data profile = Some perf
    /\ pf_annual_spf perf = Some spf
    /\ pf_winter_flow_temp perf = Some winter_flow
    /\ pf_mean_flow_temp perf = Some mean_flow
    /\ pf_coldest_day_outdoor_temp perf = Some coldest_outdoor
    /\ pf_coldest_day_cop perf = Some coldest_cop
    /\ gs = [scenario_tariff_opt profile pid size spf winter_flow;
             scenario_vpp profile pid size spf mean_flow;
             scenario_cold_day profile pid size winter_flow coldest_outdoor
               coldest_cop;
             scenario_predictive profile pid size spf mean_flow;
             scenario_low_cop profile pid size spf mean_flow].
Proof.
  unfold generate_scenarios_from_profile. intros H.
  destruct (property_id profile) as [pid|]; cbn [bind require] in H;
    [|discriminate H].
  destruct (pp_heat_pump_specs profile) as [specs|]; cbn [bind require] in H;
    [|discriminate H].
  destruct (hp_size_kw specs) as [size|] eqn:Hsize; cbn [bind require] in H;
    [|discriminate H].
  destruct (pp_performance_data profile) as [perf|]; cbn [bind require] in H;
    [|discriminate H].
  destruct (pf_annual_spf perf) as [spf|] eqn:Hspf; cbn [bind require] in H;
    [|discriminate H].
  destruct (pf_winter_flow_temp perf) as [winter_flow|] eqn:Hwinter;
    cbn [bind require] in H; [|discriminate H].
  destruct (pf_mean_flow_temp perf) as [mean_flow|] eqn:Hmean;
    cbn [bind require] in H; [|discriminate H].
  destruct (pf_coldest_day_outdoor_temp perf) as [coldest_outdoor|] eqn:Hco;
    cbn [bind require] in H; [|discriminate H].
  destruct (pf_coldest_day_cop perf) as [coldest_cop|] eqn:Hcc;
    cbn [bind require] in H; [|discriminate H].
  injection H as <-.
  exists pid, specs, size, perf, spf, winter_flow, mean_flow, coldest_outdoor,
    coldest_cop.
  repeat split; assumption.
Qed.

(** A scenario with its four required fields and a readable hour is analysed
    to a result, after one call, whatever the client answers. *)
Lemma analyze_scenario_total (sd : Scenario) (d : Snapshot)
    (indoor outdoor c power : float) (h : Z) (cl : client) :
  data sd = Some d -> indoor_temp d = Some indoor ->
  outdoor_temp d = Some outdoor -> cop d = Some c ->
  power_consumption_kw d = Some power -> hour_of sd = Ok h ->
  exists r, run cl (analyze_scenario sd) = (Ok r, 1%nat)
    /\ scenario_name r = get (name sd) (lit "Unknown Scenario")
    /\ detect_pattern sd = Ok (pattern_detection r).
Proof.
  intros Hd Hi Ho Hc Hp Hh.
  destruct (detect_pattern_table sd d indoor outdoor c power h Hd Hi Ho Hc Hp Hh)
    as (p & Hdet & _).
  destruct (calculate_benefits_ok sd d p Hd) as [b Hb].
  destruct (analyze_scenario_run sd d indoor outdoor c power Hd Hi Ho Hc Hp
              p b cl Hdet Hb) as (prompt & g & t & _ & _ & _ & Hr).
  eexists. split; [exact Hr|]. cbv zeta.
  cbn [scenario_name pattern_detection]. split; [reflexivity|exact Hdet].
Qed.

(** X14. [generate_scenarios_from_profile] reads nine keys of the profile and
    raises [KeyError] for the first one absent, in the order property_id,
    heat_pump_specs, size_kw, performance_data, annual_spf, winter_flow_temp,
    mean_flow_temp, coldest_day_outdoor_temp, coldest_day_cop.  When it
    returns, it returns five scenarios, whose ids are the property id with
    the suffixes _tariff_opt, _vpp, _cold_day, _predictive and _low_cop,
    labelled with five event types, each carrying the profile it was made
    from. *)
Theorem generated_scenarios_shape :
  forall profile : PropertyProfile,
    (property_id profile = None ->
     generate_scenarios_from_profile profile = Err (KeyError "property_id"))
    /\ (property_id profile <> None -> pp_heat_pump_specs profile = None ->
        generate_scenarios_from_profile profile
        = Err (KeyError "heat_pump_specs"))
    /\ (forall specs, property_id profile <> None ->
        pp_heat_pump_specs profile = Some specs -> hp_size_kw specs = None ->
        generate_scenarios_from_profile profile = Err (KeyError "size_kw"))
    /\ (forall specs, property_id profile <> None ->
        pp_heat_pump_specs profile = Some specs -> hp_size_kw specs <> None ->
        (pp_performance_data profile = None ->
         generate_scenarios_from_profile profile
         = Err (KeyError "performance_data"))
        /\ (forall perf, pp_performance_data profile = Some perf ->
            (pf_annual_spf perf = None ->
             generate_scenarios_from_profile profile
             = Err (KeyError "annual_spf"))
            /\ (pf_annual_spf perf <> None -> pf_winter_flow_temp perf = None ->
                generate_scenarios_from_profile profile
                = Err (KeyError "winter_flow_temp"))
            /\ (pf_annual_spf perf <> None -> pf_winter_flow_temp perf <> None ->
                pf_mean_flow_temp perf = None ->
                generate_scenarios_from_profile profile
                = Err (KeyError "mean_flow_temp"))
            /\ (pf_annual_spf perf <> None -> pf_winter_flow_temp perf <> None ->
                pf_mean_flow_temp perf <> None ->
                pf_coldest_day_outdoor_temp perf = None ->
                generate_scenarios_from_profile profile
                = Err (KeyError "coldest_day_outdoor_temp"))
            /\ (pf_annual_spf perf <> None -> pf_winter_flow_temp perf <> None ->
                pf_mean_flow_temp perf <> None ->
                pf_coldest_day_outdoor_temp perf <> None ->
                pf_coldest_day_cop perf = None ->
                generate_scenarios_from_profile profile
                = Err (KeyError "coldest_day_cop"))))
    /\ (forall gs, generate_scenarios_from_profile profile = Ok gs ->
        exists pid, property_id profile = Some pid
          /\ List.map scenario_id gs
             = [pid ++ lit "_tariff_opt"; pid ++ lit "_vpp";
                pid ++ lit "_cold_day"; pid ++ lit "_predictive";
                pid ++ lit "_low_cop"]
          /\ List.map event_type gs
             = [lit "tariff_optimization"; lit "vpp_curtailment";
                lit "normal_winter_behavior"; lit "predictive_heating";
                lit "potential_fault"]
          /\ List.map (fun g => timestamp (as_scenario g)) gs
             = [Some (lit "2024-01-15T02:30:00");
                Some (lit "2024-01-15T18:15:00");
                Some (lit "2024-01-20T08:00:00");
                Some (lit "2024-01-16T14:00:00");
                Some (lit "2024-01-22T10:30:00")]
          /\ Forall (fun g => property_profile (as_scenario g)
                              = Some (profile_view profile)) gs).
Proof.
  intros profile. unfold generate_scenarios_from_profile at 1 2 3 4 5 6 7 8 9.
  repeat apply conj.
  - intros ->. reflexivity.
  - intros Hpid ->. destruct (property_id profile); [reflexivity|congruence].
  - intros specs Hpid Hspecs Hsize.
    destruct (property_id profile); [|congruence].
    cbn [bind require]. rewrite Hspecs. cbn [bind require].
    rewrite Hsize. reflexivity.
  - intros specs Hpid Hspecs Hsize.
    destruct (property_id profile) as [pid|]; [|congruence].
    cbn [bind require]. rewrite Hspecs. cbn [bind require].
    destruct (hp_size_kw specs) as [size|]; [|congruence].
    cbn [bind require]. split.
    + intros ->. reflexivity.
    + intros perf ->. cbn [bind require].
      destruct (pf_annual_spf perf) as [spf|]; cbn [bind require];
        [|repeat apply conj; intros; first [reflexivity | congruence]].
      destruct (pf_winter_flow_temp perf) as [winter_flow|]; cbn [bind require];
        [|repeat apply conj; intros; first [reflexivity | congruence]].
      destruct (pf_mean_flow_temp perf) as [mean_flow|]; cbn [bind require];
        [|repeat apply conj; intros; first [reflexivity | congruence]].
      destruct (pf_coldest_day_outdoor_temp perf) as [coldest_outdoor|];
        cbn [bind require];
        [|repeat apply conj; intros; first [reflexivity | congruence]].
      destruct (pf_coldest_day_cop perf) as [coldest_cop|]; cbn [bind require];
        repeat apply conj; intros; first [reflexivity | congruence].
  - intros gs Hgs.
    destruct (generate_scenarios_inv profile gs Hgs)
      as (pid & specs & size & perf & spf & winter_flow & mean_flow
          & coldest_outdoor & coldest_cop & Hpid & _ & _ & _ & _ & _ & _ & _ & _
          & ->).
    exists pid. split; [exact Hpid|].
    split; [reflexivity|]. split; [reflexivity|]. split; [reflexivity|].
    repeat constructor.
Qed.

Lemma generated_scenarios_shape_witness :
  generate_scenarios_from_profile bare_profile
  = Err (KeyError "performance_data")
  /\ exists gs, generate_scenarios_from_profile sample_profile = Ok gs
       /\ List.map scenario_id gs
          = [lit "EOH0001_tariff_opt"; lit "EOH0001_vpp";
             lit "EOH0001_cold_day"; lit "EOH0001_predictive";
             lit "EOH0001_low_cop"].
Proof.
  split.
  - destruct (generated_scenarios_shape bare_profile) as (_ & _ & _ & H & _).
    destruct (H _ ltac:(discriminate) eq_refl ltac:(discriminate)) as [Hperf _].
    apply Hperf. reflexivity.
  - destruct (generated_scenarios_shape sample_profile) as (_ & _ & _ & _ & H).
    eexists. split; [reflexivity|].
    destruct (H _ eq_refl) as (pid & Hpid & Hids & _).
    injection Hpid as <-. rewrite Hids. vm_compute. reflexivity.
Defined.

(** X15. Every generated scenario can be analysed: for every profile on
    which [generate_scenarios_from_profile] returns, each of its five
    scenarios has the four required fields and a timestamp whose hour is
    read, so [analyze_scenario] returns a result for it after one call,
    whatever the client answers, under the name the generator gave it. *)
Theorem generated_scenarios_are_analysed :
  forall (profile : PropertyProfile) (gs : list GeneratedScenario) (cl : client),
    generate_scenarios_from_profile profile = Ok gs ->
    List.map (fun g => hour_of (as_scenario g)) gs
    = [Ok 2%Z; Ok 18%Z; Ok 8%Z; Ok 14%Z; Ok 10%Z]
    /\ Forall (fun g =>
                 exists r,
                   run cl (analyze_scenario (as_scenario g)) = (Ok r, 1%nat)
                   /\ Some (scenario_name r) = name (as_scenario g)
                   /\ detect_pattern (as_scenario g) = Ok (pattern_detection r))
              gs.
Proof.
  intros profile gs cl Hgs.
  destruct (generate_scenarios_inv profile gs Hgs)
    as (pid & specs & size & perf & spf & winter_flow & mean_flow
        & coldest_outdoor & coldest_cop & _ & _ & _ & _ & _ & _ & _ & _ & _ & ->).
  assert (Hh : List.map (fun g => hour_of (as_scenario g))
                 [scenario_tariff_opt profile pid size spf winter_flow;
                  scenario_vpp profile pid size spf mean_flow;
                  scenario_cold_day profile pid size winter_flow
                    coldest_outdoor coldest_cop;
                  scenario_predictive profile pid size spf mean_flow;
                  scenario_low_cop profile pid size spf mean_flow]
               = [Ok 2%Z; Ok 18%Z; Ok 8%Z; Ok 14%Z; Ok 10%Z]).
  { cbn [List.map]. unfold hour_of.
    unfold as_scenario.
    cbn [timestamp g_timestamp scenario_tariff_opt scenario_vpp
         scenario_cold_day scenario_predictive scenario_low_cop get].
    repeat match goal with
    | |- context [py_int ?s] =>
        let v := eval vm_compute in (py_int s) in change (py_int s) with v
    end.
    reflexivity. }
  split; [exact Hh|].
  pose proof (f_equal (fun l => nth 0 l (Err ValueError)) Hh) as H1.
  pose proof (f_equal (fun l => nth 1 l (Err ValueError)) Hh) as H2.
  pose proof (f_equal (fun l => nth 2 l (Err ValueError)) Hh) as H3.
  pose proof (f_equal (fun l => nth 3 l (Err ValueError)) Hh) as H4.
  pose proof (f_equal (fun l => nth 4 l (Err ValueError)) Hh) as H5.
  cbn [nth List.map] in H1, H2, H3, H4, H5.
  repeat constructor.
  all: match goal with
       | |- exists r, run _ (analyze_scenario ?sd) = _ /\ _ =>
           match goal with
           | H : hour_of sd = Ok ?h |- _ =>
               destruct (analyze_scenario_total sd _ _ _ _ _ h cl
                           eq_refl eq_refl eq_refl eq_refl eq_refl H)
                 as (r & Hr & Hn & Hp);
               exists r; split; [exact Hr|];
               split; [rewrite Hn; reflexivity | exact Hp]
           end
       end.
Qed.

Lemma generated_scenarios_are_analysed_witness :
  exists gs, generate_scenarios_from_profile sample_profile = Ok gs
    /\ Forall (fun g =>
                 exists r,
                   run failing_client (analyze_scenario (as_scenario g))
                   = (Ok r, 1%nat))
              gs.
Proof.
  eexists. split; [reflexivity|].
  destruct (generated_scenarios_are_analysed sample_profile _ failing_client
              eq_refl) as [_ H].
  eapply Forall_impl; [|exact H].
  intros g (r & Hr & _). exists r. exact Hr.
Defined.

(** X16. How the classifier reads the five generated scenarios, in terms of
    the numbers of the profile.  The night scenario is classified
    [tariff_optimization] unless 0.3 of the heat pump size exceeds 4.5 kW;
    the grid scenario [vpp_curtailment] unless the seasonal performance
    factor plus 0.3 is below 1.8 or 0.15 of the size exceeds 4.5; the
    cold-day scenario by rules 1, 3 and 7 on the coldest-day figures; the
    pre-heating scenario [predictive_heating] unless the factor plus 0.5 is
    below 1.8 or 0.3 of the size exceeds 4.5; and the low-cop scenario
    [efficiency_anomaly] exactly when max(1.4, factor - 1.5) is below 1.8,
    otherwise [high_power_consumption] or [normal_operation]. *)
Theorem generated_scenarios_classification :
  forall (profile : PropertyProfile) (gs : list GeneratedScenario),
    generate_scenarios_from_profile profile = Ok gs ->
    exists specs perf size spf coldest_outdoor coldest_cop p1 p2 p3 p4 p5,
      pp_heat_pump_specs profile = Some specs /\ hp_size_kw specs = Some size
      /\ pp_performance_data profile = Some perf
      /\ pf_annual_spf perf = Some spf
      /\ pf_coldest_day_outdoor_temp perf = Some coldest_outdoor
      /\ pf_coldest_day_cop perf = Some coldest_cop
      /\ List.map (fun g => detect_pattern (as_scenario g)) gs
         = [Ok p1; Ok p2; Ok p3; Ok p4; Ok p5]
      /\ pattern_type p1
         = (if 4.5 <? size * 0.3 then lit "high_power_consumption"
            else lit "tariff_optimization")
      /\ pattern_type p2
         = (if spf + 0.3 <? 1.8 then lit "efficiency_anomaly"
            else if 4.5 <? size * 0.15 then lit "high_power_consumption"
            else lit "vpp_curtailment")
      /\ pattern_type p3
         = (if (coldest_cop <? 1.8) && (0 <? coldest_outdoor)
            then lit "efficiency_anomaly"
            else if 4.5 <? size * 0.5 then lit "high_power_consumption"
            else if (coldest_outdoor <? 0) && (2.0 <=? coldest_cop)
                    && (coldest_cop <? 2.8)
            then lit "cold_weather_operation"
            else lit "normal_operation")
      /\ pattern_type p4
         = (if spf + 0.5 <? 1.8 then lit "efficiency_anomaly"
            else if 4.5 <? size * 0.3 then lit "high_power_consumption"
            else lit "predictive_heating")
      /\ pattern_type p5
         = (if py_max 1.4 (spf - 1.5) <? 1.8 then lit "efficiency_anomaly"
            else if 4.5 <? size * 0.45 then lit "high_power_consumption"
            else lit "normal_operation").
Proof.
  intros profile gs Hgs.
  destruct (generate_scenarios_inv profile gs Hgs)
    as (pid & specs & size & perf & spf & winter_flow & mean_flow
        & coldest_outdoor & coldest_cop & _ & Hspecs & Hsize & Hperf & Hspf
        & _ & _ & Hco & Hcc & ->).
  exists specs, perf, size, spf, coldest_outdoor, coldest_cop.
  assert (C1 : exists p,
             detect_pattern
               (as_scenario (scenario_tariff_opt profile pid size spf winter_flow))
             = Ok p
             /\ pattern_type p
                = (if 4.5 <? size * 0.3 then lit "high_power_consumption"
                   else lit "tariff_optimization")).
  { unfold scenario_tariff_opt. classify_display.
    destruct (4.5 <? size * 0.3); eexists; split; reflexivity. }
  assert (C2 : exists p,
             detect_pattern (as_scenario (scenario_vpp profile pid size spf mean_flow))
             = Ok p
             /\ pattern_type p
                = (if spf + 0.3 <? 1.8 then lit "efficiency_anomaly"
                   else if 4.5 <? size * 0.15 then lit "high_power_consumption"
                   else lit "vpp_curtailment")).
  { unfold scenario_vpp. classify_display.
    destruct (spf + 0.3 <? 1.8); [eexists; split; reflexivity|].
    destruct (4.5 <? size * 0.15); eexists; split; reflexivity. }
  assert (C3 : exists p,
             detect_pattern
               (as_scenario (scenario_cold_day profile pid size winter_flow
                            coldest_outdoor coldest_cop)) = Ok p
             /\ pattern_type p
                = (if (coldest_cop <? 1.8) && (0 <? coldest_outdoor)
                   then lit "efficiency_anomaly"
                   else if 4.5 <? size * 0.5 then lit "high_power_consumption"
                   else if (coldest_outdoor <? 0) && (2.0 <=? coldest_cop)
                           && (coldest_cop <? 2.8)
                   then lit "cold_weather_operation"
                   else lit "normal_operation")).
  { unfold scenario_cold_day. classify_display.
    destruct ((coldest_cop <? 1.8) && (0 <? coldest_outdoor));
      [eexists; split; reflexivity|].
    destruct (4.5 <? size * 0.5); [eexists; split; reflexivity|].
    destruct ((coldest_outdoor <? 0) && (2.0 <=? coldest_cop)
              && (coldest_cop <? 2.8)); eexists; split; reflexivity. }
  assert (C4 : exists p,
             detect_pattern
               (as_scenario (scenario_predictive profile pid size spf mean_flow))
             = Ok p
             /\ pattern_type p
                = (if spf + 0.5 <? 1.8 then lit "efficiency_anomaly"
                   else if 4.5 <? size * 0.3 then lit "high_power_consumption"
                   else lit "predictive_heating")).
  { unfold scenario_predictive. classify_display.
    destruct (spf + 0.5 <? 1.8); [eexists; split; reflexivity|].
    destruct (4.5 <? size * 0.3); eexists; split; reflexivity. }
  assert (C5 : exists p,
             detect_pattern
               (as_scenario (scenario_low_cop profile pid size spf mean_flow))
             = Ok p
             /\ pattern_type p
                = (if py_max 1.4 (spf - 1.5) <? 1.8 then lit "efficiency_anomaly"
                   else if 4.5 <? size * 0.45 then lit "high_power_consumption"
                   else lit "normal_operation")).
  { unfold scenario_low_cop. classify_display.
    destruct (py_max 1.4 (spf - 1.5) <? 1.8); [eexists; split; reflexivity|].
    destruct (4.5 <? size * 0.45); eexists; split; reflexivity. }
  destruct C1 as (p1 & D1 & T1), C2 as (p2 & D2 & T2), C3 as (p3 & D3 & T3),
    C4 as (p4 & D4 & T4), C5 as (p5 & D5 & T5).
  exists p1, p2, p3, p4, p5.
  split; [exact Hspecs|]. split; [exact Hsize|]. split; [exact Hperf|].
  split; [exact Hspf|]. split; [exact Hco|]. split; [exact Hcc|].
  split; [cbn [List.map]; rewrite D1, D2, D3, D4, D5; reflexivity|].
  repeat split; assumption.
Qed.

Lemma generated_scenarios_classification_witness :
  exists gs, generate_scenarios_from_profile sample_profile = Ok gs
    /\ List.map (fun g => match detect_pattern (as_scenario g) with
                          | Ok p => pattern_type p
                          | Err _ => []
                          end) gs
       = [lit "tariff_optimization"; lit "vpp_curtailment";
          lit "cold_weather_operation"; lit "predictive_heating";
          lit "efficiency_anomaly"].
Proof.
  assert (Hgs : exists gs, generate_scenarios_from_profile sample_profile = Ok gs)
    by (eexists; reflexivity).
  destruct Hgs as [gs Hgs]. exists gs. split; [exact Hgs|].
  destruct (generated_scenarios_classification sample_profile gs Hgs)
    as (specs & perf & size & spf & co & cc & p1 & p2 & p3 & p4 & p5
        & Hspecs & Hsize & Hperf & Hspf & Hco & Hcc & Hmap
        & T1 & T2 & T3 & T4 & T5).
  cbn in Hspecs. injection Hspecs as <-.
  cbn in Hsize. injection Hsize as <-.
  cbn in Hperf. injection Hperf as <-.
  cbn in Hspf. injection Hspf as <-.
  cbn in Hco. injection Hco as <-.
  cbn in Hcc. injection Hcc as <-.
  rewrite <- (map_map (fun g => detect_pattern (as_scenario g))
                (fun r => match r with
                          | Ok p => pattern_type p
                          | Err _ => []
                          end)).
  rewrite Hmap. cbn [List.map]. rewrite T1, T2, T3, T4, T5.
  vm_compute. reflexivity.
Defined.

(** X17. The generated night scenario through the whole analysis.  For every
    profile whose heat pump draws at most 4.5 kW at 0.3 of its size, the
    first generated scenario is analysed as [tariff_optimization], tier
    [normal], with cost_savings = round((0.28 - 0.08) * (size * 0.3) * 3, 2)
    and carbon 0.8; the report shows the peak price 0.28 and, for the grid
    signal the generator wrote as [None], Python's [None]. *)
Theorem generated_night_scenario_analysis :
  forall (profile : PropertyProfile) (gs : list GeneratedScenario) (cl : client),
    generate_scenarios_from_profile profile = Ok gs ->
    exists specs size g,
      pp_heat_pump_specs profile = Some specs /\ hp_size_kw specs = Some size
      /\ nth_error gs 0 = Some g
      /\ event_type g = lit "tariff_optimization"
      /\ ((4.5 <? size * 0.3) = false ->
          exists r,
            run cl (analyze_scenario (as_scenario g)) = (Ok r, 1%nat)
            /\ pattern_type (pattern_detection r) = event_type g
            /\ tier (actionable_guidance r) = lit "normal"
            /\ cost_savings (benefits r)
               = py_round ((0.28 - 0.08) * (size * 0.3) * 3) 2
            /\ carbon_kg (benefits r) = 0.8
            /\ c_peak_price (context (transparency_data r))
               = pound ++ lit "0.28/kWh"
            /\ c_grid_signal (context (transparency_data r)) = None).
Proof.
  intros profile gs cl Hgs.
  destruct (generate_scenarios_inv profile gs Hgs)
    as (pid & specs & size & perf & spf & winter_flow & mean_flow
        & coldest_outdoor & coldest_cop & _ & Hspecs & Hsize & _ & _
        & _ & _ & _ & _ & ->).
  exists specs, size. eexists.
  split; [exact Hspecs|]. split; [exact Hsize|]. split; [reflexivity|].
  split; [reflexivity|].
  intros Hpower.
  set (sd := as_scenario (scenario_tariff_opt profile pid size spf winter_flow)).
  assert (Hdet : exists p, detect_pattern sd = Ok p
                           /\ pattern_type p = lit "tariff_optimization").
  { unfold sd, scenario_tariff_opt. classify_display.
    rewrite Hpower. eexists; split; reflexivity. }
  destruct Hdet as (p & Hdet & Hpt).
  pose proof (calculate_benefits_tariff sd _ p eq_refl Hpt) as Hb.
  cbn [electricity_price_peak electricity_price_current power_consumption_kw
       get] in Hb.
  destruct (analyze_scenario_run sd _ _ _ _ _
              eq_refl eq_refl eq_refl eq_refl eq_refl p _ cl Hdet Hb)
    as (prompt & g & t & _ & Hg & Ht & Hr).
  eexists. split; [exact Hr|]. cbv zeta.
  cbn [pattern_detection actionable_guidance benefits transparency_data
       cost_savings carbon_kg event_type scenario_tariff_opt].
  split; [exact Hpt|].
  rewrite (get_actionable_guidance_ok sd _ _ _ _
             eq_refl eq_refl eq_refl eq_refl p) in Hg.
  injection Hg as <-.
  split.
  { rewrite Hpt. unfold guidance_map. lit_lookup. reflexivity. }
  split; [reflexivity|]. split; [reflexivity|].
  unfold build_transparency_data in Ht.
  unfold sd, as_scenario in Ht.
  cbn [g_data scenario_tariff_opt data bind require indoor_temp
       outdoor_temp cop power_consumption_kw] in Ht.
  destruct (_explain_conclusion_logic p _) as [why|e];
    cbn [bind] in Ht; [|discriminate Ht].
  injection Ht as <-.
  cbn [context c_peak_price c_grid_signal electricity_price_peak vpp_signal].
  split; [vm_compute; reflexivity|reflexivity].
Qed.

Lemma generated_night_scenario_analysis_witness :
  exists gs g r,
    generate_scenarios_from_profile sample_profile = Ok gs
    /\ nth_error gs 0 = Some g
    /\ run failing_client (analyze_scenario (as_scenario g)) = (Ok r, 1%nat)
    /\ cost_savings (benefits r) = 1.26.
Proof.
  assert (Hgs : exists gs, generate_scenarios_from_profile sample_profile = Ok gs)
    by (eexists; reflexivity).
  destruct Hgs as [gs Hgs].
  destruct (generated_night_scenario_analysis sample_profile gs failing_client
              Hgs) as (specs & size & g & Hspecs & Hsize & Hg & _ & H).
  cbn in Hspecs. injection Hspecs as <-.
  cbn in Hsize. injection Hsize as <-.
  destruct (H eq_refl) as (r & Hr & _ & _ & Hcost & _).
  exists gs, g, r. split; [exact Hgs|]. split; [exact Hg|].
  split; [exact Hr|]. rewrite Hcost. vm_compute. reflexivity.
Defined.

(* ================================================================== *)
(** * The grouping of the catalogue *)
(* ================================================================== *)

Lemma fold_left_err {A B : Type} (f : result A -> B -> result A) (l : list B)
    (e : exn) :
  (forall b, f (Err e) b = Err e) -> fold_left f l (Err e) = Err e.
Proof.
  intros Hf. induction l as [|b l IH]; [reflexivity|].
  cbn [fold_left]. rewrite Hf. exact IH.
Qed.

Lemma append_to_group_keys (k : str) (g : GeneratedScenario)
    (groups : list (str * list GeneratedScenario)) :
  List.map fst (append_to_group k g groups)
  = if existsb (fun k' => str_eqb k' k) (List.map fst groups)
    then List.map fst groups else List.map fst groups ++ [k].
Proof.
  induction groups as [|[k' l] groups IH]; [reflexivity|].
  cbn [append_to_group List.map fst existsb].
  destruct (str_eqb k' k); cbn [orb List.map fst]; [reflexivity|].
  rewrite IH. destruct (existsb _ _); reflexivity.
Qed.

Lemma existsb_key (k : str) (keys : list str) :
  existsb (fun k' => str_eqb k' k) keys = true <-> In k keys.
Proof.
  rewrite existsb_exists. split.
  - intros (k' & Hin & E). apply str_eqb_eq in E. now subst.
  - intros Hin. exists k. split; [exact Hin|apply str_eqb_refl].
Qed.

(** Where a scenario lands: in the list of its key, at the end; the other
    lists are unchanged. *)
Lemma append_to_group_in (k : str) (g : GeneratedScenario)
    (groups : list (str * list GeneratedScenario)) (k' : str)
    (l' : list GeneratedScenario) :
  NoDup (List.map fst groups) ->
  In (k', l') (append_to_group k g groups) ->
  (k' <> k /\ In (k', l') groups)
  \/ (k' = k /\ ((exists l, In (k, l) groups /\ l' = l ++ [g])
                 \/ (~ In k (List.map fst groups) /\ l' = [g]))).
Proof.
  induction groups as [|[k0 l0] groups IH]; cbn [append_to_group List.map fst];
    intros Hnd.
  - intros [E | []]. injection E as <- <-. right. split; [reflexivity|].
    right. split; [intros []|reflexivity].
  - inversion Hnd as [|? ? Hk0 Hnd']; subst.
    destruct (str_eqb k0 k) eqn:E.
    + apply str_eqb_eq in E. subst k0.
      intros [H | H].
      * injection H as <- <-. right. split; [reflexivity|].
        left. exists l0. split; [left; reflexivity|reflexivity].
      * left. split; [|right; exact H].
        intros ->. apply Hk0. apply (in_map fst) in H. exact H.
    + apply str_eqb_neq in E.
      intros [H | H].
      * injection H as <- <-. left. split; [exact E|left; reflexivity].
      * destruct (IH Hnd' H) as [[Hne Hin] | [-> [(l & Hin & ->) | [Hnot ->]]]].
        -- left. split; [exact Hne|right; exact Hin].
        -- right. split; [reflexivity|]. left. exists l.
           split; [right; exact Hin|reflexivity].
        -- right. split; [reflexivity|]. right. split; [|reflexivity].
           intros [H0 | H0]; [congruence|contradiction].
Qed.

Lemma append_to_group_NoDup (k : str) (g : GeneratedScenario)
    (groups : list (str * list GeneratedScenario)) :
  NoDup (List.map fst groups) ->
  NoDup (List.map fst (append_to_group k g groups)).
Proof.
  intros Hnd. rewrite append_to_group_keys.
  destruct (existsb _ _) eqn:E; [exact Hnd|].
  apply NoDup_app; [exact Hnd | repeat constructor; intros [] |].
  intros x Hx [<- | []].
  apply existsb_key in Hx. congruence.
Qed.

Lemma append_to_group_has_key (k : str) (g : GeneratedScenario)
    (groups : list (str * list GeneratedScenario)) (k' : str) :
  In k' (List.map fst groups) \/ k' = k ->
  In k' (List.map fst (append_to_group k g groups)).
Proof.
  rewrite append_to_group_keys.
  destruct (existsb _ _) eqn:E.
  - intros [H | ->]; [exact H|]. apply existsb_key. exact E.
  - intros [H | ->]; apply in_or_app; [left; exact H|right; left; reflexivity].
Qed.

Lemma has_property_key (k k' : str) (g : GeneratedScenario) :
  property_id (g_property_profile g) = Some k ->
  has_property k' g = str_eqb k k'.
Proof. intros H. unfold has_property. rewrite H. reflexivity. Qed.

Lemma filter_none {A : Type} (f : A -> bool) (l : list A) :
  (forall x, In x l -> f x = false) -> filter f l = [].
Proof.
  induction l as [|x l IH]; intros H; [reflexivity|].
  cbn [filter]. rewrite (H x) by (left; reflexivity).
  apply IH. intros y Hy. apply H. right. exact Hy.
Qed.

(** One turn of the loop keeps [grouped]. *)
Lemma grouped_step (seen : list GeneratedScenario)
    (groups : list (str * list GeneratedScenario)) (g : GeneratedScenario)
    (k : str) :
  grouped seen groups ->
  property_id (g_property_profile g) = Some k ->
  grouped (seen ++ [g]) (append_to_group k g groups).
Proof.
  intros (Hnd & Hlists & Hkeys) Hk. split; [|split].
  - apply append_to_group_NoDup. exact Hnd.
  - intros k' l' Hin. rewrite filter_app. cbn [filter].
    rewrite (has_property_key k k' g Hk).
    destruct (append_to_group_in k g groups k' l' Hnd Hin)
      as [[Hne Hin'] | [-> [(l & Hin' & ->) | [Hnot ->]]]].
    + destruct (Hlists k' l' Hin') as [Hne' ->].
      replace (str_eqb k k') with false.
      * rewrite app_nil_r. split; [exact Hne'|reflexivity].
      * symmetry. destruct (str_eqb k k') eqn:E; [|reflexivity].
        apply str_eqb_eq in E. congruence.
    + destruct (Hlists k l Hin') as [Hne' ->].
      rewrite str_eqb_refl. split; [|reflexivity].
      intros E. apply app_eq_nil in E. destruct E as [_ E]. discriminate E.
    + rewrite str_eqb_refl. split; [discriminate|].
      replace (filter (has_property k) seen) with (@nil GeneratedScenario);
        [reflexivity|].
      symmetry. apply filter_none. intros g' Hg'.
      destruct (Hkeys g' Hg') as (k0 & Hk0 & Hin0).
      rewrite (has_property_key k0 k g' Hk0).
      destruct (str_eqb k0 k) eqn:E; [|reflexivity].
      apply str_eqb_eq in E. subst k0. contradiction.
  - intros g' Hg'. apply in_app_or in Hg'. destruct Hg' as [Hg' | [<- | []]].
    + destruct (Hkeys g' Hg') as (k0 & Hk0 & Hin0).
      exists k0. split; [exact Hk0|].
      apply append_to_group_has_key. left. exact Hin0.
    + exists k. split; [exact Hk|].
      apply append_to_group_has_key. right. reflexivity.
Qed.

(** The loop from any state that is [grouped]. *)
Lemma grouped_fold (rest seen : list GeneratedScenario)
    (groups groups' : list (str * list GeneratedScenario)) :
  grouped seen groups ->
  fold_left group_scenario rest (Ok groups) = Ok groups' ->
  grouped (seen ++ rest) groups'.
Proof.
  revert seen groups. induction rest as [|g rest IH]; intros seen groups Hg Hf.
  - cbn [fold_left] in Hf. injection Hf as <-. rewrite app_nil_r. exact Hg.
  - cbn [fold_left] in Hf. unfold group_scenario at 2 in Hf.
    cbn [bind] in Hf.
    destruct (property_id (g_property_profile g)) as [k|] eqn:Hk;
      cbn [bind require] in Hf.
    + change (seen ++ g :: rest) with (seen ++ [g] ++ rest).
      rewrite app_assoc.
      apply (IH (seen ++ [g]) (append_to_group k g groups));
        [apply grouped_step; assumption|exact Hf].
    + rewrite fold_left_err in Hf by reflexivity. discriminate Hf.
Qed.

Lemma grouped_start : grouped [] [].
Proof.
  split; [constructor|]. split; [intros k l []|intros g []].
Qed.

Lemma group_scenario_raises (rest : list GeneratedScenario)
    (groups : list (str * list GeneratedScenario)) :
  (exists g, In g rest /\ property_id (g_property_profile g) = None) ->
  fold_left group_scenario rest (Ok groups) = Err (KeyError "property_id").
Proof.
  revert groups. induction rest as [|g rest IH]; intros groups (g0 & Hin & Hnone).
  - destruct Hin.
  - cbn [fold_left]. unfold group_scenario at 2. cbn [bind].
    destruct (property_id (g_property_profile g)) as [k|] eqn:Hk;
      cbn [bind require].
    + apply IH. destruct Hin as [-> | Hin]; [congruence|].
      exists g0. split; assumption.
    + apply fold_left_err. reflexivity.
Qed.

Lemma group_scenario_returns (rest : list GeneratedScenario)
    (groups : list (str * list GeneratedScenario)) :
  (forall g, In g rest -> property_id (g_property_profile g) <> None) ->
  exists groups', fold_left group_scenario rest (Ok groups) = Ok groups'.
Proof.
  revert groups. induction rest as [|g rest IH]; intros groups H.
  - eexists. reflexivity.
  - cbn [fold_left]. unfold group_scenario at 2. cbn [bind].
    destruct (property_id (g_property_profile g)) as [k|] eqn:Hk;
      cbn [bind require].
    + apply IH. intros g' Hg'. apply H. right. exact Hg'.
    + exfalso. apply (H g); [left; reflexivity|exact Hk].
Qed.

(** X18. The grouping loop of the dashboard.  It raises [KeyError] when a
    scenario's profile has no property id, and otherwise returns a dict
    whose keys are distinct, in which the list of a key is exactly the
    scenarios of that property, in the order of the catalogue, and is never
    empty (so that reading its first element, as the property selector does,
    cannot fail), and in which every scenario of the catalogue is found
    under its property id. *)
Theorem scenarios_grouped_by_property :
  forall scenarios : list GeneratedScenario,
    (forall groups, scenarios_by_property scenarios = Ok groups ->
       NoDup (List.map fst groups)
       /\ (forall k l, In (k, l) groups ->
             l <> [] /\ l = filter (has_property k) scenarios)
       /\ (forall g, In g scenarios ->
             exists k l, property_id (g_property_profile g) = Some k
                         /\ In (k, l) groups /\ In g l))
    /\ ((exists g, In g scenarios
                  /\ property_id (g_property_profile g) = None) ->
        scenarios_by_property scenarios = Err (KeyError "property_id"))
    /\ ((forall g, In g scenarios ->
           property_id (g_property_profile g) <> None) ->
        exists groups, scenarios_by_property scenarios = Ok groups).
Proof.
  intros scenarios. split; [|split].
  - intros groups Hgroups.
    destruct (grouped_fold scenarios [] [] groups grouped_start Hgroups)
      as (Hnd & Hlists & Hkeys).
    cbn [app] in Hlists, Hkeys.
    split; [exact Hnd|]. split; [exact Hlists|].
    intros g Hg. destruct (Hkeys g Hg) as (k & Hk & Hin).
    apply in_map_iff in Hin. destruct Hin as ([k' l] & E & Hin).
    cbn [fst] in E. subst k'.
    exists k, l. split; [exact Hk|]. split; [exact Hin|].
    destruct (Hlists k l Hin) as [_ ->].
    apply filter_In. split; [exact Hg|].
    rewrite (has_property_key k k g Hk). apply str_eqb_refl.
  - apply group_scenario_raises.
  - apply group_scenario_returns.
Qed.

(** ** The catalogue of the generator, grouped *)

Lemma append_to_group_new (k : str) (g : GeneratedScenario)
    (groups : list (str * list GeneratedScenario)) :
  ~ In k (List.map fst groups) ->
  append_to_group k g groups = groups ++ [(k, [g])].
Proof.
  induction groups as [|[k0 l0] groups IH]; intros Hnot; [reflexivity|].
  cbn [append_to_group List.map fst In] in *.
  destruct (str_eqb k0 k) eqn:E.
  - apply str_eqb_eq in E. exfalso. apply Hnot. left. exact E.
  - rewrite IH by (intros H; apply Hnot; right; exact H). reflexivity.
Qed.

Lemma append_to_group_last (k : str) (g : GeneratedScenario)
    (groups : list (str * list GeneratedScenario)) (l : list GeneratedScenario) :
  ~ In k (List.map fst groups) ->
  append_to_group k g (groups ++ [(k, l)]) = groups ++ [(k, l ++ [g])].
Proof.
  induction groups as [|[k0 l0] groups IH]; intros Hnot.
  - cbn [app append_to_group]. rewrite str_eqb_refl. reflexivity.
  - cbn [app append_to_group List.map fst In] in *.
    destruct (str_eqb k0 k) eqn:E.
    + apply str_eqb_eq in E. exfalso. apply Hnot. left. exact E.
    + rewrite IH by (intros H; apply Hnot; right; exact H). reflexivity.
Qed.

Lemma group_block_tail (k : str) (rest l : list GeneratedScenario)
    (groups : list (str * list GeneratedScenario)) :
  (forall g, In g rest -> property_id (g_property_profile g) = Some k) ->
  ~ In k (List.map fst groups) ->
  fold_left group_scenario rest (Ok (groups ++ [(k, l)]))
  = Ok (groups ++ [(k, l ++ rest)]).
Proof.
  revert l. induction rest as [|g rest IH]; intros l Hall Hnot.
  - rewrite app_nil_r. reflexivity.
  - cbn [fold_left]. unfold group_scenario at 2. cbn [bind].
    rewrite (Hall g) by (left; reflexivity). cbn [bind require].
    rewrite (append_to_group_last k g groups l Hnot).
    rewrite IH; [|intros g' Hg'; apply Hall; right; exact Hg'|exact Hnot].
    rewrite <- app_assoc. reflexivity.
Qed.

(** A run of scenarios of one property that is not yet a key becomes a new
    last entry. *)
Lemma group_block (k : str) (block : list GeneratedScenario)
    (groups : list (str * list GeneratedScenario)) :
  (forall g, In g block -> property_id (g_property_profile g) = Some k) ->
  ~ In k (List.map fst groups) -> block <> [] ->
  fold_left group_scenario block (Ok groups) = Ok (groups ++ [(k, block)]).
Proof.
  intros Hall Hnot Hne. destruct block as [|g rest]; [congruence|].
  cbn [fold_left]. unfold group_scenario at 2. cbn [bind].
  rewrite (Hall g) by (left; reflexivity). cbn [bind require].
  rewrite (append_to_group_new k g groups Hnot).
  apply (group_block_tail k rest [g] groups); [|exact Hnot].
  intros g' Hg'. apply Hall. right. exact Hg'.
Qed.

Lemma extend_scenarios_inv (profiles : list PropertyProfile)
    (acc all : list GeneratedScenario) :
  fold_left extend_scenarios profiles (Ok acc) = Ok all ->
  exists lists,
    Forall2 (fun profile gs => generate_scenarios_from_profile profile = Ok gs)
            profiles lists
    /\ all = acc ++ List.concat lists.
Proof.
  revert acc. induction profiles as [|profile profiles IH]; intros acc H.
  - cbn [fold_left] in H. injection H as <-. exists [].
    split; [constructor|]. cbn [List.concat]. rewrite app_nil_r. reflexivity.
  - cbn [fold_left] in H. unfold extend_scenarios at 2 in H. cbn [bind] in H.
    destruct (generate_scenarios_from_profile profile) as [gs|e] eqn:Hgs;
      cbn [bind] in H.
    + destruct (IH _ H) as (lists & Hall & ->).
      exists (gs :: lists). split; [constructor; assumption|].
      cbn [List.concat]. rewrite app_assoc. reflexivity.
    + rewrite fold_left_err in H by reflexivity. discriminate H.
Qed.

Lemma generated_scenarios_property (profile : PropertyProfile)
    (gs : list GeneratedScenario) :
  generate_scenarios_from_profile profile = Ok gs ->
  gs <> []
  /\ Forall (fun g => g_property_profile g = profile) gs
  /\ exists pid, property_id profile = Some pid.
Proof.
  intros Hgs.
  destruct (generate_scenarios_inv profile gs Hgs)
    as (pid & specs & size & perf & spf & winter_flow & mean_flow
        & coldest_outdoor & coldest_cop & Hpid & _ & _ & _ & _ & _ & _ & _ & _
        & ->).
  split; [discriminate|]. split; [repeat constructor|].
  exists pid. exact Hpid.
Qed.

Lemma group_catalogue (profiles : list PropertyProfile)
    (lists : list (list GeneratedScenario))
    (groups : list (str * list GeneratedScenario)) :
  Forall2 (fun profile gs => generate_scenarios_from_profile profile = Ok gs)
          profiles lists ->
  NoDup (List.map property_id profiles) ->
  (forall profile k, In profile profiles -> property_id profile = Some k ->
     ~ In k (List.map fst groups)) ->
  exists groups',
    fold_left group_scenario (List.concat lists) (Ok groups) = Ok (groups ++ groups')
    /\ Forall2 (fun profile entry =>
                  property_id profile = Some (fst entry)
                  /\ generate_scenarios_from_profile profile = Ok (snd entry))
               profiles groups'.
Proof.
  intros Hall. revert groups.
  induction Hall as [|profile gs profiles lists Hgs Hall IH];
    intros groups Hnd Hfresh.
  - exists []. split; [rewrite app_nil_r; reflexivity|constructor].
  - destruct (generated_scenarios_property profile gs Hgs)
      as (Hne & Hprof & pid & Hpid).
    cbn [List.map] in Hnd. inversion Hnd as [|? ? Hpid_new Hnd']; subst.
    cbn [List.concat]. rewrite fold_left_app.
    rewrite (group_block pid gs groups).
    + destruct (IH (groups ++ [(pid, gs)]) Hnd') as (groups' & Hfold & Hall').
      * intros profile' k Hin Hk. rewrite map_app. cbn [List.map fst].
        intros H. apply in_app_or in H. destruct H as [H | [<- | []]].
        -- apply (Hfresh profile' k); [right; exact Hin|exact Hk|exact H].
        -- apply Hpid_new. rewrite Hpid, <- Hk.
           apply in_map. exact Hin.
      * exists ((pid, gs) :: groups'). split.
        -- rewrite Hfold, <- app_assoc. reflexivity.
        -- constructor; [split; assumption|exact Hall'].
    + intros g Hg. rewrite Forall_forall in Hprof.
      rewrite (Hprof g Hg). exact Hpid.
    + apply (Hfresh profile pid); [left; reflexivity|exact Hpid].
    + exact Hne.
Qed.

(** X19. From the catalogue back to the properties.  When the main program
    of the generator has built the catalogue of a list of profiles with
    distinct property ids, the grouping loop of the dashboard returns one
    entry per profile, in the order of the profiles, holding that profile's
    property id and exactly the five scenarios generated from it; and in
    each entry, selecting a scenario by its name returns that scenario. *)
Theorem catalogue_grouped_gives_back_profiles :
  forall (profiles : list PropertyProfile) (catalogue : list GeneratedScenario),
    all_scenarios profiles = Ok catalogue ->
    NoDup (List.map property_id profiles) ->
    exists groups,
      scenarios_by_property catalogue = Ok groups
      /\ List.length catalogue = (5 * List.length profiles)%nat
      /\ Forall2 (fun profile entry =>
                    property_id profile = Some (fst entry)
                    /\ generate_scenarios_from_profile profile = Ok (snd entry)
                    /\ List.length (snd entry) = 5%nat
                    /\ forall g, In g (snd entry) ->
                         select_scenario (snd entry) (g_name g) = Some g)
                 profiles groups.
Proof.
  intros profiles catalogue Hcat Hnd.
  destruct (extend_scenarios_inv profiles [] catalogue Hcat)
    as (lists & Hall & ->).
  cbn [app].
  destruct (group_catalogue profiles lists [] Hall Hnd) as (groups & Hfold & Hg).
  { intros profile k _ _ []. }
  cbn [app] in Hfold. exists groups. split; [exact Hfold|]. split.
  - clear Hfold Hg Hcat Hnd.
    induction Hall as [|profile gs profiles lists Hgs Hall IH]; [reflexivity|].
    cbn [List.concat List.length]. rewrite length_app, IH.
    destruct (generate_scenarios_inv profile gs Hgs)
      as (pid & specs & size & perf & spf & winter_flow & mean_flow
          & coldest_outdoor & coldest_cop & _ & _ & _ & _ & _ & _ & _ & _ & _
          & ->).
    cbn [List.length]. lia.
  - eapply Forall2_impl; [|exact Hg].
    intros profile entry (Hpid & Hgs).
    split; [exact Hpid|]. split; [exact Hgs|].
    destruct (generate_scenarios_inv profile (snd entry) Hgs)
      as (pid & specs & size & perf & spf & winter_flow & mean_flow
          & coldest_outdoor & coldest_cop & _ & _ & _ & _ & _ & _ & _ & _ & _
          & ->).
    split; [reflexivity|].
    intros g Hin. unfold select_scenario.
    cbn [In] in Hin.
    repeat (destruct Hin as [<- | Hin]; [vm_compute; reflexivity|]).
    destruct Hin.
Qed.

Lemma catalogue_grouped_gives_back_profiles_witness :
  exists catalogue groups,
    all_scenarios [sample_profile; second_profile] = Ok catalogue
    /\ scenarios_by_property catalogue = Ok groups
    /\ List.length catalogue = 10%nat
    /\ List.map fst groups = [lit "EOH0001"; lit "EOH0007"].
Proof.
  assert (Hcat : exists catalogue,
             all_scenarios [sample_profile; second_profile] = Ok catalogue)
    by (eexists; reflexivity).
  destruct Hcat as [catalogue Hcat].
  assert (Hnd : NoDup (List.map property_id [sample_profile; second_profile])).
  { repeat constructor.
    - intros [H | []]. injection H as H. discriminate H.
    - intros []. }
  destruct (catalogue_grouped_gives_back_profiles _ catalogue Hcat Hnd)
    as (groups & Hgroups & Hlen & Hall).
  exists catalogue, groups. split; [exact Hcat|]. split; [exact Hgroups|].
  split; [exact Hlen|].
  inversion Hall as [|p1 e1 ps1 gs1 (Hk1 & _) Hall1]; subst.
  inversion Hall1 as [|p2 e2 ps2 gs2 (Hk2 & _) Hall2]; subst.
  inversion Hall2; subst.
  cbn [List.map]. cbn in Hk1, Hk2.
  injection Hk1 as <-. injection Hk2 as <-. reflexivity.
Defined.
